(** * The EIS bank-guarantee collector: orchestration, download protocol and run state

    A shallow embedding of [collect_eis_guarantees.py], [eis/downloader.py],
    [eis/storage.py] and the one function of [eis/parser.py] the orchestrator
    branches on.  The program talks to a browser, a file system and a clock;
    every such interaction is a [call], answered by a [World].  The program
    text is a computation in a state-and-exception monad over the world and
    the log of the calls made so far.  An exception raised by a call keeps
    the state reached so far, as in Python.

    Conventions.
    - Python [str] is [string]: the UTF-8 bytes of the text.
    - Clock readings ([time.time], [time.monotonic]) and durations are
      integers in milliseconds; rounding of floats is not modelled.
    - Logging calls are left out.
    - A straight-line run of library calls inside one helper (for instance
      [mkdir] then [open] then [json.dump]) is one [call]. *)

From Stdlib Require Import ZArith List String Ascii Bool Lia.
From stdpp Require Import base gmap strings pretty list list_numbers.

Open Scope Z_scope.
Open Scope string_scope.

(** ** Strings *)

Definition dquote : string := String (ascii_of_nat 34) EmptyString.
Definition newline : string := String (ascii_of_nat 10) EmptyString.

Definition is_empty (s : string) : bool :=
  match s with EmptyString => true | String _ _ => false end.

(** [needle in hay] *)
Fixpoint contains (needle hay : string) : bool :=
  String.prefix needle hay
  || match hay with
     | EmptyString => false
     | String _ rest => contains needle rest
     end.

Definition startswith (s pre : string) : bool := String.prefix pre s.

Definition endswith (s suf : string) : bool :=
  String.prefix (String.rev suf) (String.rev s).

(** [s.split(",")] *)
Fixpoint split_go (sep : ascii) (cur : string) (s : string) : list string :=
  match s with
  | EmptyString => [String.rev cur]
  | String c rest =>
      if Ascii.eqb c sep then String.rev cur :: split_go sep EmptyString rest
      else split_go sep (String c cur) rest
  end.

Definition split_on (sep : ascii) (s : string) : list string :=
  split_go sep EmptyString s.

(** [x or default] on strings *)
Definition str_or (s default : string) : string :=
  if is_empty s then default else s.

(** [p / q] of pathlib *)
Definition path_join (p q : string) : string := p ++ "/" ++ q.
Infix "//" := path_join (at level 40, left associativity).

(** [str(n)] *)
Definition str_int (n : Z) : string := pretty n.

(** ** Python dictionaries with string keys

    Insertion ordered: assigning to an existing key keeps its place, a new
    key goes last. *)

Definition pydict (V : Type) := list (string * V).

Fixpoint dict_get {V} (k : string) (d : pydict V) : option V :=
  match d with
  | [] => None
  | (k', v) :: rest => if String.eqb k k' then Some v else dict_get k rest
  end.

Fixpoint dict_set {V} (k : string) (v : V) (d : pydict V) : pydict V :=
  match d with
  | [] => [(k, v)]
  | (k', v') :: rest =>
      if String.eqb k k' then (k, v) :: rest else (k', v') :: dict_set k v rest
  end.

Fixpoint dict_pop {V} (k : string) (d : pydict V) : pydict V :=
  match d with
  | [] => []
  | (k', v') :: rest =>
      if String.eqb k k' then dict_pop k rest else (k', v') :: dict_pop k rest
  end.

(** ** Exceptions and results *)

Inductive exn_class :=
| ProcessingTimeout
| NoSuchWindowException
| WebDriverException
| OSError
| ValueError
| OtherException.

Record exn := mk_exn { exn_cls : exn_class; exn_msg : string }.

(** [isinstance(e, WebDriverException)]: [NoSuchWindowException] is a subclass. *)
Definition is_webdriver_exn (e : exn) : bool :=
  match exn_cls e with
  | NoSuchWindowException | WebDriverException => true
  | _ => false
  end.

Definition is_no_such_window (e : exn) : bool :=
  match exn_cls e with NoSuchWindowException => true | _ => false end.

Definition is_os_error (e : exn) : bool :=
  match exn_cls e with OSError => true | _ => false end.

Definition is_processing_timeout (e : exn) : bool :=
  match exn_cls e with ProcessingTimeout => true | _ => false end.

(** The outcome of a call or of a piece of program: a value, an exception,
    or no return at all (a call that hangs, a loop that runs out of fuel). *)
Inductive result (A : Type) :=
| Ok (a : A)
| Raise (e : exn)
| NoReturn.
Arguments Ok {A} a.
Arguments Raise {A} e.
Arguments NoReturn {A}.

Definition is_ok {A} (r : result A) : bool :=
  match r with Ok _ => true | _ => false end.

Definition returns {A} (r : result A) : bool :=
  match r with NoReturn => false | _ => true end.

(** ** Records of the data model *)

Inductive Mode := offline | live.

Inductive Status := OK | MISSING | PARTIAL | ERROR | TIMEOUT.

Inductive DownloadStatus :=
| DOWNLOADED
| SKIPPED_EXISTS
| SKIPPED_OFFLINE
| FAILED_NOT_FOUND
| FAILED_ERROR_PAGE
| FAILED_STALLED
| FAILED_TIMEOUT
| FAILED_MISSING.

Definition download_status_str (d : DownloadStatus) : string :=
  match d with
  | DOWNLOADED => "DOWNLOADED"
  | SKIPPED_EXISTS => "SKIPPED_EXISTS"
  | SKIPPED_OFFLINE => "SKIPPED_OFFLINE"
  | FAILED_NOT_FOUND => "FAILED_NOT_FOUND"
  | FAILED_ERROR_PAGE => "FAILED_ERROR_PAGE"
  | FAILED_STALLED => "FAILED_STALLED"
  | FAILED_TIMEOUT => "FAILED_TIMEOUT"
  | FAILED_MISSING => "FAILED_MISSING"
  end.

Definition status_eqb (a b : Status) : bool :=
  match a, b with
  | OK, OK | MISSING, MISSING | PARTIAL, PARTIAL | ERROR, ERROR
  | TIMEOUT, TIMEOUT => true
  | _, _ => false
  end.

Record Attachment := {
  att_download_url : string;
  att_original_filename : string;
  att_document_index : Z;
  att_document_number : string
}.

Record DocMeta := {
  dm_field_name : string;
  dm_field_value : string;
  dm_document_index : Z;
  dm_document_number : string
}.

Record GuaranteeRow := {
  g_run_id : Z;
  g_id : Z;
  g_status : Status;
  g_general_url : string;
  g_documents_url : string;
  g_fetched_at : string;
  g_warnings : list string;
  g_error : string
}.

Record AttributeRow := {
  a_run_id : Z;
  a_id : Z;
  a_section : string;
  a_field_name : string;
  a_field_value : string;
  a_document_index : option Z;
  a_document_number : option string
}.

Record FileRow := {
  f_run_id : Z;
  f_id : Z;
  f_file_index : Z;
  f_stored_filename : string;
  f_stored_path : string;
  f_original_filename : string;
  f_download_url : string;
  f_document_index : Z;
  f_document_number : string;
  f_page_count : Z;
  f_mime_type : string;
  f_download_status : DownloadStatus;
  f_sha256 : string
}.

Record Stats := {
  n_OK : Z;
  n_MISSING : Z;
  n_ERROR : Z;
  n_PARTIAL : Z;
  n_TIMEOUT : Z;
  n_FILES : Z
}.

Definition stats_zero : Stats :=
  {| n_OK := 0; n_MISSING := 0; n_ERROR := 0; n_PARTIAL := 0;
     n_TIMEOUT := 0; n_FILES := 0 |}.

(** [stats[status] = stats.get(status, 0) + 1] *)
Definition stats_bump (st : Status) (s : Stats) : Stats :=
  match st with
  | OK => {| n_OK := n_OK s + 1; n_MISSING := n_MISSING s; n_ERROR := n_ERROR s;
             n_PARTIAL := n_PARTIAL s; n_TIMEOUT := n_TIMEOUT s; n_FILES := n_FILES s |}
  | MISSING => {| n_OK := n_OK s; n_MISSING := n_MISSING s + 1; n_ERROR := n_ERROR s;
             n_PARTIAL := n_PARTIAL s; n_TIMEOUT := n_TIMEOUT s; n_FILES := n_FILES s |}
  | ERROR => {| n_OK := n_OK s; n_MISSING := n_MISSING s; n_ERROR := n_ERROR s + 1;
             n_PARTIAL := n_PARTIAL s; n_TIMEOUT := n_TIMEOUT s; n_FILES := n_FILES s |}
  | PARTIAL => {| n_OK := n_OK s; n_MISSING := n_MISSING s; n_ERROR := n_ERROR s;
             n_PARTIAL := n_PARTIAL s + 1; n_TIMEOUT := n_TIMEOUT s; n_FILES := n_FILES s |}
  | TIMEOUT => {| n_OK := n_OK s; n_MISSING := n_MISSING s; n_ERROR := n_ERROR s;
             n_PARTIAL := n_PARTIAL s; n_TIMEOUT := n_TIMEOUT s + 1; n_FILES := n_FILES s |}
  end.

Definition stats_add_files (k : Z) (s : Stats) : Stats :=
  {| n_OK := n_OK s; n_MISSING := n_MISSING s; n_ERROR := n_ERROR s;
     n_PARTIAL := n_PARTIAL s; n_TIMEOUT := n_TIMEOUT s; n_FILES := n_FILES s + k |}.

Definition stats_merge (a b : Stats) : Stats :=
  {| n_OK := n_OK a + n_OK b; n_MISSING := n_MISSING a + n_MISSING b;
     n_ERROR := n_ERROR a + n_ERROR b; n_PARTIAL := n_PARTIAL a + n_PARTIAL b;
     n_TIMEOUT := n_TIMEOUT a + n_TIMEOUT b; n_FILES := n_FILES a + n_FILES b |}.

(** ** Persisted JSON documents

    The state files are written by this program only; each is modelled at
    the shape the program writes.  A file of another shape is a [JsonLoad]
    that raises. *)

Record RunStateDoc := {
  last_run_id : option Z;
  rs_updated_at : option string
}.

Record CheckpointDoc := {
  cp_run_id : Z;
  cp_last_processed_id : Z;
  cp_stats : Stats;
  cp_updated_at : string
}.

Inductive doc_kind := KRunState | KRetry | KCheckpoint | KUnion.

Definition doc (k : doc_kind) : Type :=
  match k with
  | KRunState => RunStateDoc
  | KRetry => pydict Z
  | KCheckpoint => CheckpointDoc
  | KUnion => gmap string (gset string)
  end.

Inductive batch :=
| GuaranteeBatch (rows : list GuaranteeRow)
| AttributeBatch (rows : list AttributeRow)
| FileBatch (rows : list FileRow).

(** ** Calls to the outside world *)

Inductive call : Type -> Type :=
(* time, random, signal *)
| TimeMonotonic : call Z
| TimeTime : call Z
| TimeSleep (ms : Z) : call unit
| RandomUniform (lo hi : Z) : call Z
| UtcNowIso : call string
| SignalAlarm (seconds : Z) : call unit
(* the browser *)
| BuildDriver (download_dir : string) (headless block_images : bool) : call unit
| DriverQuit : call unit
| DriverGet (url : string) : call unit
| WaitForReady (timeout : Z) : call unit
| WaitForAnySelector (selectors : list string) (timeout : Z) : call unit
| PageSource : call (option string)
| CurrentWindowHandle : call string
| WindowHandles : call (list string)
| SwitchToWindow (handle : string) : call unit
| CloseWindow : call unit
| WindowOpen (url : string) : call unit
(* the file system *)
| PathExists (p : string) : call bool
| ReadText (p : string) : call string
| WriteText (p : string) (text : string) : call unit
| AppendText (p : string) (text : string) : call unit
| MkdirParents (p : string) : call unit
| ListFiles (dir : string) : call (list string)
| StatSize (p : string) : call Z
| StatMtime (p : string) : call Z
| Unlink (p : string) : call unit
| Move (src dst : string) : call unit
| Sha256File (p : string) : call string
| PdfReaderPages (p : string) : call Z
| JsonLoad (k : doc_kind) (p : string) : call (doc k)
| JsonDump (k : doc_kind) (p : string) (v : doc k) : call unit
| ToParquet (dir prefix : string) (b : batch) : call unit.

Inductive event :=
| Called : forall A, call A -> event.
Arguments Called {A} c.

(** What the Python runtime, its libraries and the installation provide as
    pure functions. *)
Class Platform := {
  py_strip : string -> string;                  (* str.strip() *)
  py_splitlines : string -> list string;        (* str.splitlines() *)
  py_int : string -> option Z;                  (* int(s); None is ValueError *)
  py_lower : string -> string;                  (* str.lower() *)
  path_suffix : string -> string;               (* Path(p).suffix *)
  guess_mime : string -> string;                (* mimetypes.guess_type(n)[0] or "" *)
  parse_general_info :
    string -> result (pydict (pydict string) * list string);
  parse_document_info :
    string -> result (list Attachment * list DocMeta * list string);
  DATA_DIR : string
}.

(** The world answers each call with a value or an exception and moves on. *)
Class World (W : Type) := handle : forall A, call A -> W -> result A * W.

(** ** The monad *)

Definition SE (S A : Type) : Type := S -> result A * S.

Definition ret {S A} (a : A) : SE S A := fun s => (Ok a, s).

Definition bind {S A B} (c : SE S A) (k : A -> SE S B) : SE S B :=
  fun s =>
    match c s with
    | (Ok a, s') => k a s'
    | (Raise e, s') => (Raise e, s')
    | (NoReturn, s') => (NoReturn, s')
    end.

Definition raise {S A} (e : exn) : SE S A := fun s => (Raise e, s).

Definition no_return {S A} : SE S A := fun s => (NoReturn, s).

Definition get_state {S} : SE S S := fun s => (Ok s, s).

Definition modify {S} (f : S -> S) : SE S unit := fun s => (Ok tt, f s).

(** [try: body], the outcome handed to the [except] clauses *)
Definition try_ {S A} (body : SE S A) : SE S (result A) :=
  fun s =>
    match body s with
    | (NoReturn, s') => (NoReturn, s')
    | (r, s') => (Ok r, s')
    end.

(** [try: body finally: fin] *)
Definition finally_ {S A} (body : SE S A) (fin : SE S unit) : SE S A :=
  fun s =>
    match body s with
    | (NoReturn, s1) => (NoReturn, s1)
    | (r, s1) =>
        match fin s1 with
        | (Ok _, s2) => (r, s2)
        | (Raise e, s2) => (Raise e, s2)
        | (NoReturn, s2) => (NoReturn, s2)
        end
    end.

Definition zoom {S T A} (proj : T -> S) (inj : S -> T -> T) (c : SE S A) : SE T A :=
  fun t => let (r, s') := c (proj t) in (r, inj s' t).

Notation "'do' x <- c ; k" := (bind c (fun x => k))
  (at level 10, x name, c at level 100, k at level 200).
Notation "'do' ' p <- c ; k" := (bind c (fun x => let 'p := x in k))
  (at level 10, p pattern, c at level 100, k at level 200).
Notation "'exec' c ; k" := (bind c (fun _ => k))
  (at level 10, c at level 100, k at level 200).

Fixpoint for_each {S A} (l : list A) (body : A -> SE S unit) : SE S unit :=
  match l with
  | [] => ret tt
  | x :: rest => exec body x; for_each rest body
  end.

Fixpoint map_m {S A B} (f : A -> SE S B) (l : list A) : SE S (list B) :=
  match l with
  | [] => ret []
  | x :: rest => do y <- f x; do ys <- map_m f rest; ret (y :: ys)
  end.

(** A computation keeps the part [f] of the state. *)
Definition keeps {S X A} (f : S -> X) (c : SE S A) : Prop :=
  forall s, f (snd (c s)) = f s.

(** A computation that returns, returns a value satisfying [P]. *)
Definition ensures {S A} (c : SE S A) (P : A -> Prop) : Prop :=
  forall s a s', c s = (Ok a, s') -> P a.

(** [c], started where [Pre] holds, ends where [Post] holds when it returns
    a value and where [Exc] holds when it raises or does not return. *)
Definition triple {S A} (Pre : S -> Prop) (c : SE S A) (Post : A -> S -> Prop)
    (Exc : S -> Prop) : Prop :=
  forall s, Pre s ->
            match c s with
            | (Ok a, s') => Post a s'
            | (_, s') => Exc s'
            end.

(** The log [later] extends the log [earlier] by calls that satisfy [Q]. *)
Definition extends (Q : event -> Prop) (earlier later : list event) : Prop :=
  exists new, later = (new ++ earlier)%list /\ Forall Q new.

(** All the calls [c] makes satisfy [Q]; [log] selects the log in the state. *)
Definition emits {S A} (log : S -> list event) (Q : event -> Prop) (c : SE S A)
  : Prop :=
  forall s, extends Q (log s) (log (snd (c s))).

(** World state: the world proper and the log of calls, newest first. *)
Record wstate (W : Type) := mk_wstate { world : W; trace : list event }.
Arguments mk_wstate {W} world trace.
Arguments world {W} w.
Arguments trace {W} w.

Definition perform `{World W} {A} (c : call A) : SE (wstate W) A :=
  fun s =>
    let (r, w') := handle A c (world s) in
    (r, {| world := w'; trace := Called c :: trace s |}).

(** ** eis/config.py *)

Definition GENERAL_INFO_URL (id : Z) : string :=
  "https://zakupki.gov.ru/epz/bankguarantee/guaranteeCard/generalInformation.html"
  ++ "?guaranteeInfoId=" ++ str_int id.

Definition DOCUMENTS_URL (id : Z) : string :=
  "https://zakupki.gov.ru/epz/bankguarantee/guaranteeCard/document-info.html"
  ++ "?guaranteeInfoId=" ++ str_int id.

Definition MISSING_PAGE_PHRASE : string := "Запрашиваемая страница не существует".

Definition DOCUMENT_META_SECTION : string :=
  "Документы: Информация о банковской гарантии".

Definition DEFAULT_TEST_IDS : list Z := [1962721; 11; 1; 196221].

Definition DEFAULT_SLEEP_MIN : Z := 5000.
Definition DEFAULT_SLEEP_MAX : Z := 15000.
Definition LONG_SLEEP_EVERY : Z := 25.
Definition LONG_SLEEP_MIN : Z := 30000.
Definition LONG_SLEEP_MAX : Z := 60000.
Definition DEFAULT_HTML_SAVE_FIRST_N : Z := 10.

(** ** eis/parser.py *)

Definition is_missing_page (html : string) : bool :=
  contains MISSING_PAGE_PHRASE html.

Section Program.

Context `{Platform} `{World W}.

Local Abbreviation M := (SE (wstate W)).

Definition RAW_HTML_DIR : string := DATA_DIR // "raw" // "html".
Definition RAW_ATTACHMENTS_DIR : string := DATA_DIR // "raw" // "attachments".
Definition STATE_DIR : string := DATA_DIR // "state".
Definition SAMPLES_DIR : string := DATA_DIR // "samples".
Definition PROCESSED_DIR : string := DATA_DIR // "processed".

(** ** eis/storage.py *)

Definition utc_now_iso : M string := perform UtcNowIso.

(** One turn of the loop over the lines of the processed-ID log. *)
Definition add_processed_line (processed : gset Z) (line : string) : gset Z :=
  let line := py_strip line in
  if is_empty line then processed
  else match py_int line with
       | Some n => {[ n ]} ∪ processed
       | None => processed
       end.

Definition load_processed_ids (path : string) : M (gset Z) :=
  do present <- perform (PathExists path);
  if negb present then ret ∅
  else
    do text <- perform (ReadText path);
    ret (fold_left add_processed_line (py_splitlines text) ∅).

Definition append_processed_id (path : string) (guarantee_id : Z) : M unit :=
  perform (AppendText path (str_int guarantee_id ++ newline)).

Definition load_json (k : doc_kind) (path : string) (default : doc k) : M (doc k) :=
  do present <- perform (PathExists path);
  if negb present then ret default else perform (JsonLoad k path).

Definition save_json (k : doc_kind) (path : string) (payload : doc k) : M unit :=
  perform (JsonDump k path payload).

Definition empty_run_state : RunStateDoc :=
  {| last_run_id := None; rs_updated_at := None |}.

Definition next_run_id (path : string) : M Z :=
  do state <- load_json KRunState path empty_run_state;
  let run_id := default 0 (last_run_id state) + 1 in
  do now <- utc_now_iso;
  exec save_json KRunState path
         {| last_run_id := Some run_id; rs_updated_at := Some now |};
  ret run_id.

Definition union_add (union : gmap string (gset string)) (row : AttributeRow)
  : gmap string (gset string) :=
  let section := a_section row in
  let field := a_field_name row in
  if is_empty section || is_empty field then union
  else <[ section := {[ field ]} ∪ default ∅ (union !! section) ]> union.

Definition update_attribute_union (path : string) (new_fields : list AttributeRow)
  : M unit :=
  do existing <- load_json KUnion path (∅ : gmap string (gset string));
  save_json KUnion path (fold_left union_add new_fields existing).

(** ** eis/downloader.py *)

Definition clean_download_dir (download_dir : string) : M unit :=
  exec perform (MkdirParents download_dir);
  do names <- perform (ListFiles download_dir);
  for_each names (fun n => perform (Unlink (download_dir // n))).

Definition sha256_file (path : string) : M string := perform (Sha256File path).

Fixpoint pdf_read_retry (n : nat) (path : string) (delay : Z) : M Z :=
  match n with
  | O => ret 0
  | S n' =>
      do r <- try_ (perform (PdfReaderPages path));
      match r with
      | Ok pages => ret pages
      | _ => exec perform (TimeSleep delay); pdf_read_retry n' path delay
      end
  end.

Definition pdf_page_count (path : string) : M Z :=
  if negb (String.eqb (py_lower (path_suffix path)) ".pdf") then ret 0
  else pdf_read_retry (Z.to_nat (Z.max 1 3)) path 1000.

Definition _open_download (url : string) : M (string * option string) :=
  do main_handle <- perform CurrentWindowHandle;
  do before_handles <- perform WindowHandles;
  exec perform (WindowOpen url);
  exec perform (TimeSleep 1500);
  do after_handles <- perform WindowHandles;
  let new_handles :=
    List.filter (fun h => negb (existsb (String.eqb h) before_handles)) after_handles in
  match new_handles with
  | h :: _ =>
      exec perform (SwitchToWindow h);
      exec perform (TimeSleep 1500);
      ret (main_handle, Some h)
  | [] =>
      exec perform (DriverGet url);
      exec perform (TimeSleep 1500);
      ret (main_handle, None)
  end.

(** [if download_handle:] is false for [None] and for the empty string. *)
Definition handle_truthy (download_handle : option string) : option string :=
  match download_handle with
  | Some h => if is_empty h then None else Some h
  | None => None
  end.

Definition _close_download_tab (main_handle : string) (download_handle : option string)
  : M unit :=
  match handle_truthy download_handle with
  | None => ret tt
  | Some h =>
      finally_
        (do r <- try_ (exec perform (SwitchToWindow h); perform CloseWindow);
         match r with
         | Raise e => if is_no_such_window e then ret tt else raise e
         | _ => ret tt
         end)
        (do handles <- perform WindowHandles;
         if existsb (String.eqb main_handle) handles
         then perform (SwitchToWindow main_handle)
         else match handles with
              | h0 :: _ => perform (SwitchToWindow h0)
              | [] => ret tt
              end)
  end.

Definition error_marker (source : string) : option DownloadStatus :=
  if (contains "File with uid" source && contains "not found" source)
     || (contains "Файл с uid" source && contains "не найден" source)
  then Some FAILED_NOT_FOUND
  else if contains (dquote ++ "status" ++ dquote ++ ":" ++ dquote ++ "ERROR" ++ dquote) source
          || contains ("status" ++ dquote ++ ":" ++ dquote ++ "ERROR" ++ dquote) source
  then Some FAILED_ERROR_PAGE
  else None.

Definition _detect_download_error (download_handle : option string)
  : M (option DownloadStatus) :=
  do r <- try_
    (exec match handle_truthy download_handle with
          | Some h => perform (SwitchToWindow h)
          | None => ret tt
          end;
     do source <- perform PageSource;
     ret (error_marker (default EmptyString source)));
  match r with
  | Ok status => ret status
  | Raise e => if is_webdriver_exn e then ret None else raise e
  | NoReturn => no_return
  end.

(** The [progress] table of the poll: file name to last observed size and
    the clock reading at its last change. *)
Definition progress_table := gmap string (Z * Z).

Definition CRDOWNLOAD : string := ".crdownload".

Fixpoint update_progress (download_dir : string) (new_files : list string)
    (progress : gmap string (Z * Z)) : M (gmap string (Z * Z)) :=
  match new_files with
  | [] => ret progress
  | name :: rest =>
      do size <- perform (StatSize (download_dir // name));
      do fresh <- perform TimeTime;
      let entry := default (-1, fresh) (progress !! name) in
      if negb (Z.eqb size (fst entry))
      then do now <- perform TimeTime;
           update_progress download_dir rest (<[ name := (size, now) ]> progress)
      else update_progress download_dir rest progress
  end.

(** [max(items, key=...)] on the keys already computed: the first item
    whose key is largest. *)
Fixpoint first_max (best : string * Z) (items : list (string * Z)) : string :=
  match items with
  | [] => fst best
  | it :: rest => first_max (if Z.ltb (snd best) (snd it) then it else best) rest
  end.

Definition max_by_mtime (download_dir : string) (names : list string)
  : M (option string) :=
  do mtimes <- map_m (fun n => perform (StatMtime (download_dir // n))) names;
  match combine names mtimes with
  | [] => ret None
  | it :: rest => ret (Some (first_max it rest))
  end.

(** Lines 175-179: the most recently modified completed file, if its size
    has been still for [stable] milliseconds. *)
Definition check_completed (download_dir : string) (completed : list string)
    (progress : gmap string (Z * Z)) (stable : Z) : M (option string) :=
  match completed with
  | [] => ret None
  | _ :: _ =>
      do latest <- max_by_mtime download_dir completed;
      match latest with
      | None => ret None
      | Some name =>
          do fresh <- perform TimeTime;
          let last_change := default fresh (snd <$> progress !! name) in
          do now <- perform TimeTime;
          if Z.leb stable (now - last_change)
          then ret (Some (download_dir // name))
          else ret None
      end
  end.

(** Lines 181-189: the most recently modified in-progress file is removed
    when its size has been still for [stall] milliseconds. *)
Definition check_stalled (download_dir : string) (in_progress : list string)
    (progress : gmap string (Z * Z)) (stall : Z) : M bool :=
  match in_progress with
  | [] => ret false
  | _ :: _ =>
      do latest <- max_by_mtime download_dir in_progress;
      match latest with
      | None => ret false
      | Some name =>
          do fresh <- perform TimeTime;
          let last_change := default fresh (snd <$> progress !! name) in
          do now <- perform TimeTime;
          if Z.leb stall (now - last_change)
          then
            do r <- try_ (perform (Unlink (download_dir // name)));
            match r with
            | Raise e => if is_os_error e then ret true else raise e
            | _ => ret true
            end
          else ret false
      end
  end.

Definition is_new (before : list string) (name : string) : bool :=
  negb (existsb (String.eqb name) before).

Definition is_crdownload (name : string) : bool := endswith name CRDOWNLOAD.

(** Lines 162-165: the files that were not there before the download
    started, those among them that are complete and those in progress. *)
Definition new_files (before current_files : list string) : list string :=
  List.filter (is_new before) current_files.

Definition completed_files (before current_files : list string) : list string :=
  List.filter (fun n => negb (is_crdownload n)) (new_files before current_files).

Definition in_progress_files (before current_files : list string) : list string :=
  List.filter is_crdownload (new_files before current_files).

(** The loop of [_wait_for_download_result]; [fuel] bounds the number of
    polls. *)
Fixpoint wait_loop (fuel : nat) (download_handle : option string)
    (download_dir : string) (before : list string) (deadline stable stall : Z)
    (progress : gmap string (Z * Z)) : M (option string * option DownloadStatus) :=
  match fuel with
  | O => no_return
  | S fuel' =>
      do t <- perform TimeTime;
      if negb (Z.ltb t deadline) then ret (None, Some FAILED_TIMEOUT)
      else
        do error_status <- _detect_download_error download_handle;
        match error_status with
        | Some e => ret (None, Some e)
        | None =>
            do current_files <- perform (ListFiles download_dir);
            do progress' <- update_progress download_dir
                              (new_files before current_files) progress;
            do done <- check_completed download_dir
                         (completed_files before current_files) progress' stable;
            match done with
            | Some latest => ret (Some latest, None)
            | None =>
                do stalled <- check_stalled download_dir
                                (in_progress_files before current_files)
                                progress' stall;
                if stalled then ret (None, Some FAILED_STALLED)
                else
                  exec perform (TimeSleep 1000);
                  wait_loop fuel' download_handle download_dir before
                            deadline stable stall progress'
            end
        end
  end.

(** [timeout], [stable_seconds] and [stall_seconds] are in seconds. *)
Definition _wait_for_download_result (fuel : nat) (download_handle : option string)
    (download_dir : string) (before : list string)
    (timeout stable_seconds stall_seconds : Z)
  : M (option string * option DownloadStatus) :=
  do t0 <- perform TimeTime;
  wait_loop fuel download_handle download_dir before
            (t0 + 1000 * timeout) (1000 * stable_seconds) (1000 * stall_seconds) ∅.

(** The loop of [_wait_for_new_file] (lines 103-143): the poll of
    [_wait_for_download_result] without the look at the page; it gives the
    file or nothing. *)
Fixpoint new_file_loop (fuel : nat) (download_dir : string) (before : list string)
    (deadline stable stall : Z) (progress : gmap string (Z * Z))
  : M (option string) :=
  match fuel with
  | O => no_return
  | S fuel' =>
      do t <- perform TimeTime;
      if negb (Z.ltb t deadline) then ret None
      else
        do current_files <- perform (ListFiles download_dir);
        do progress' <- update_progress download_dir
                          (new_files before current_files) progress;
        do done <- check_completed download_dir
                     (completed_files before current_files) progress' stable;
        match done with
        | Some latest => ret (Some latest)
        | None =>
            do stalled <- check_stalled download_dir
                            (in_progress_files before current_files)
                            progress' stall;
            if stalled then ret None
            else
              exec perform (TimeSleep 1000);
              new_file_loop fuel' download_dir before deadline stable stall progress'
        end
  end.

Definition _wait_for_new_file (fuel : nat) (download_dir : string)
    (before : list string) (timeout stable_seconds stall_seconds : Z)
  : M (option string) :=
  do t0 <- perform TimeTime;
  new_file_loop fuel download_dir before
                (t0 + 1000 * timeout) (1000 * stable_seconds) (1000 * stall_seconds) ∅.

Definition failed_row (run_id guarantee_id index : Z)
    (original_name download_url : string) (document_index : Z)
    (document_number : string) (status : DownloadStatus) : FileRow :=
  {| f_run_id := run_id;
     f_id := guarantee_id;
     f_file_index := index;
     f_stored_filename := EmptyString;
     f_stored_path := EmptyString;
     f_original_filename := original_name;
     f_download_url := download_url;
     f_document_index := document_index;
     f_document_number := document_number;
     f_page_count := 0;
     f_mime_type := EmptyString;
     f_download_status := status;
     f_sha256 := EmptyString |}.

(** [not stored_path.exists() or stored_path.stat().st_size == 0] *)
Definition stored_missing_or_empty (stored_path : string) : M bool :=
  do present <- perform (PathExists stored_path);
  if negb present then ret true
  else do size <- perform (StatSize stored_path); ret (Z.eqb size 0).

(** Lines 304-341: the row for a file that was moved to [stored_path]. *)
Definition record_stored (run_id guarantee_id index : Z)
    (original_name download_url : string) (document_index : Z)
    (document_number : string) (stored_filename stored_path : string) : M FileRow :=
  do bad <- stored_missing_or_empty stored_path;
  if bad
  then ret (failed_row run_id guarantee_id index original_name download_url
                       document_index document_number FAILED_MISSING)
  else
    let mime_type := guess_mime stored_filename in
    do pages <- pdf_page_count stored_path;
    do sha <- sha256_file stored_path;
    ret {| f_run_id := run_id;
           f_id := guarantee_id;
           f_file_index := index;
           f_stored_filename := stored_filename;
           f_stored_path := stored_path;
           f_original_filename := original_name;
           f_download_url := download_url;
           f_document_index := document_index;
           f_document_number := document_number;
           f_page_count := pages;
           f_mime_type := mime_type;
           f_download_status := DOWNLOADED;
           f_sha256 := sha |}.

Definition stored_name (guarantee_id index : Z) (suffix : string) : string :=
  str_int guarantee_id ++ "_" ++ str_int index ++ suffix.

(** Lines 294-296: the downloaded file lends its extension when the
    original name has none. *)
Definition final_stored_name (guarantee_id index : Z) (suffix downloaded : string)
  : string :=
  if is_empty suffix && negb (is_empty (path_suffix downloaded))
  then stored_name guarantee_id index (path_suffix downloaded)
  else stored_name guarantee_id index suffix.

(** Lines 298-303: the downloaded file is moved to [stored_path] and the
    download tab is closed. *)
Definition place_download (id_dir stored_path : string) (force : bool)
    (main_handle : string) (download_handle : option string)
    (downloaded : string) : M unit :=
  exec (if force
        then do present <- perform (PathExists stored_path);
             if present then perform (Unlink stored_path) else ret tt
        else ret tt);
  exec perform (MkdirParents id_dir);
  exec perform (Move downloaded stored_path);
  _close_download_tab main_handle download_handle.

(** Lines 294-341: what follows a finished download. *)
Definition store_download (run_id guarantee_id index : Z) (id_dir : string)
    (force : bool) (original_name download_url : string) (document_index : Z)
    (document_number : string) (suffix : string)
    (main_handle : string) (download_handle : option string)
    (downloaded : string) : M FileRow :=
  let stored_filename := final_stored_name guarantee_id index suffix downloaded in
  let stored_path := id_dir // stored_filename in
  exec place_download id_dir stored_path force main_handle download_handle downloaded;
  record_stored run_id guarantee_id index original_name download_url
                document_index document_number stored_filename stored_path.

(** One turn of the loop of [download_attachments] (lines 212-341). *)
Definition download_one (fuel : nat) (run_id guarantee_id : Z)
    (id_dir download_dir : string) (force : bool) (timeout stall_seconds : Z)
    (index : Z) (item : Attachment) : M FileRow :=
  let original_name := py_strip (att_original_filename item) in
  let download_url := py_strip (att_download_url item) in
  let document_index := att_document_index item in
  let document_number := att_document_number item in
  let suffix :=
    if is_empty original_name then EmptyString else path_suffix original_name in
  let stored_filename := stored_name guarantee_id index suffix in
  let stored_path := id_dir // stored_filename in
  do present <- perform (PathExists stored_path);
  if present && negb force
  then
    do pages <- pdf_page_count stored_path;
    do sha <- sha256_file stored_path;
    ret {| f_run_id := run_id;
           f_id := guarantee_id;
           f_file_index := index;
           f_stored_filename := stored_filename;
           f_stored_path := stored_path;
           f_original_filename := original_name;
           f_download_url := download_url;
           f_document_index := document_index;
           f_document_number := document_number;
           f_page_count := pages;
           f_mime_type := guess_mime stored_filename;
           f_download_status := SKIPPED_EXISTS;
           f_sha256 := sha |}
  else
    do before_files <- perform (ListFiles download_dir);
    do opened <- _open_download download_url;
    let main_handle := fst opened in
    let download_handle := snd opened in
    do immediate_error <- _detect_download_error download_handle;
    match immediate_error with
    | Some e =>
        exec _close_download_tab main_handle download_handle;
        ret (failed_row run_id guarantee_id index original_name download_url
                        document_index document_number e)
    | None =>
        do waited <- _wait_for_download_result fuel download_handle download_dir
                       before_files timeout 3 stall_seconds;
        match fst waited with
        | None =>
            exec _close_download_tab main_handle download_handle;
            ret (failed_row run_id guarantee_id index original_name download_url
                            document_index document_number
                            (default FAILED_TIMEOUT (snd waited)))
        | Some downloaded =>
            store_download run_id guarantee_id index id_dir force original_name
                           download_url document_index document_number suffix
                           main_handle download_handle downloaded
        end
    end.

Fixpoint download_loop (fuel : nat) (run_id guarantee_id : Z)
    (id_dir download_dir : string) (force : bool) (timeout stall_seconds : Z)
    (index : Z) (items : list Attachment) : M (list FileRow) :=
  match items with
  | [] => ret []
  | item :: rest =>
      do row <- download_one fuel run_id guarantee_id id_dir download_dir force
                  timeout stall_seconds index item;
      do rows <- download_loop fuel run_id guarantee_id id_dir download_dir force
                   timeout stall_seconds (index + 1) rest;
      ret (row :: rows)
  end.

Definition download_attachments (fuel : nat) (attachments : list Attachment)
    (run_id guarantee_id : Z) (attachments_root download_dir : string)
    (force : bool) (timeout stall_seconds : Z) : M (list FileRow) :=
  let id_dir := attachments_root // str_int guarantee_id in
  exec perform (MkdirParents id_dir);
  download_loop fuel run_id guarantee_id id_dir download_dir force
                timeout stall_seconds 1 attachments.

(** ** collect_eis_guarantees.py *)

Definition timeout_exn : exn :=
  mk_exn ProcessingTimeout "Per-ID processing timed out".

Definition _remaining_seconds (deadline : option Z) (default : Z) : M Z :=
  match deadline with
  | None => ret default
  | Some d =>
      do now <- perform TimeMonotonic;
      let remaining := d - now in
      if Z.leb remaining 0 then ret 0
      else ret (Z.max 1 (Z.min default (remaining / 1000)))
  end.

Definition _ensure_time_left (deadline : option Z) : M unit :=
  match deadline with
  | None => ret tt
  | Some d =>
      do now <- perform TimeMonotonic;
      if Z.leb d now then raise timeout_exn else ret tt
  end.

Definition attribute_row (run_id guarantee_id : Z) (section : string)
    (field : string * string) : AttributeRow :=
  {| a_run_id := run_id;
     a_id := guarantee_id;
     a_section := section;
     a_field_name := fst field;
     a_field_value := snd field;
     a_document_index := None;
     a_document_number := None |}.

Definition _attributes_rows (run_id guarantee_id : Z)
    (sections : pydict (pydict string)) : list AttributeRow :=
  flat_map (fun sec => List.map (attribute_row run_id guarantee_id (fst sec)) (snd sec))
           sections.

Definition _document_metadata_rows (run_id guarantee_id : Z)
    (metadata_rows : list DocMeta) : list AttributeRow :=
  List.map (fun item =>
              {| a_run_id := run_id;
                 a_id := guarantee_id;
                 a_section := DOCUMENT_META_SECTION;
                 a_field_name := dm_field_name item;
                 a_field_value := dm_field_value item;
                 a_document_index := Some (dm_document_index item);
                 a_document_number := Some (dm_document_number item) |})
           metadata_rows.

Fixpoint offline_rows_from (run_id guarantee_id : Z) (index : Z)
    (attachments : list Attachment) : list FileRow :=
  match attachments with
  | [] => []
  | item :: rest =>
      let original := py_strip (att_original_filename item) in
      let suffix := if is_empty original then EmptyString else path_suffix original in
      let stored_filename := stored_name guarantee_id index suffix in
      {| f_run_id := run_id;
         f_id := guarantee_id;
         f_file_index := index;
         f_stored_filename := stored_filename;
         f_stored_path := RAW_ATTACHMENTS_DIR // str_int guarantee_id // stored_filename;
         f_original_filename := original;
         f_download_url := att_download_url item;
         f_document_index := att_document_index item;
         f_document_number := att_document_number item;
         f_page_count := 0;
         f_mime_type := guess_mime stored_filename;
         f_download_status := SKIPPED_OFFLINE;
         f_sha256 := EmptyString |}
      :: offline_rows_from run_id guarantee_id (index + 1) rest
  end.

Definition _offline_files_rows (run_id guarantee_id : Z)
    (attachments : list Attachment) : list FileRow :=
  offline_rows_from run_id guarantee_id 1 attachments.

Definition sample_path (guarantee_id : Z) (page_kind : string) : string :=
  SAMPLES_DIR // (page_kind ++ "_" ++ str_int guarantee_id ++ ".html").

Definition _load_sample_html (guarantee_id : Z) (page_kind : string)
  : M (option string) :=
  do present <- perform (PathExists (sample_path guarantee_id page_kind));
  if negb present then ret None
  else do text <- perform (ReadText (sample_path guarantee_id page_kind));
       ret (Some text).

Definition save_html_snapshot (guarantee_id : Z) (html page_kind : string)
  : M string :=
  exec perform (MkdirParents RAW_HTML_DIR);
  let path := RAW_HTML_DIR // (page_kind ++ "_" ++ str_int guarantee_id ++ ".html") in
  do present <- perform (PathExists path);
  if present then ret path
  else exec perform (WriteText path html); ret path.

Definition human_sleep (min_seconds max_seconds : Z) : M unit :=
  do d <- perform (RandomUniform min_seconds max_seconds);
  perform (TimeSleep d).

Record Args := {
  mode : Mode;
  ids : option string;
  start_id : option Z;
  end_id : option Z;
  max_ids : option Z;
  sleep_min : Z;
  sleep_max : Z;
  force : bool;
  headless : bool;
  save_html : bool;
  save_html_first_n : Z;
  skip_retries : bool;
  max_retries : Z;
  per_id_timeout : Z;
  workers : Z;
  block_images : bool;
  worker_start_delay : Z;
  download_timeout : Z;
  download_stall_seconds : Z
}.

Definition is_live (args : Args) : bool :=
  match mode args with live => true | offline => false end.

(** The local variables of one turn of the loop of [_process_ids]. *)
Record Locals := {
  l_status : Status;
  l_error_message : string;
  l_warnings : list string;
  l_attributes_rows : list AttributeRow;
  l_files_rows : list FileRow;
  l_attachments : list Attachment;
  l_general_html : string;
  l_documents_html : string
}.

Definition fresh_locals : Locals :=
  {| l_status := OK;
     l_error_message := EmptyString;
     l_warnings := [];
     l_attributes_rows := [];
     l_files_rows := [];
     l_attachments := [];
     l_general_html := EmptyString;
     l_documents_html := EmptyString |}.

Definition set_status (v : Status) (l : Locals) : Locals :=
  {| l_status := v; l_error_message := l_error_message l;
     l_warnings := l_warnings l; l_attributes_rows := l_attributes_rows l;
     l_files_rows := l_files_rows l; l_attachments := l_attachments l;
     l_general_html := l_general_html l; l_documents_html := l_documents_html l |}.

Definition set_error_message (v : string) (l : Locals) : Locals :=
  {| l_status := l_status l; l_error_message := v;
     l_warnings := l_warnings l; l_attributes_rows := l_attributes_rows l;
     l_files_rows := l_files_rows l; l_attachments := l_attachments l;
     l_general_html := l_general_html l; l_documents_html := l_documents_html l |}.

Definition add_warnings (v : list string) (l : Locals) : Locals :=
  {| l_status := l_status l; l_error_message := l_error_message l;
     l_warnings := l_warnings l ++ v; l_attributes_rows := l_attributes_rows l;
     l_files_rows := l_files_rows l; l_attachments := l_attachments l;
     l_general_html := l_general_html l; l_documents_html := l_documents_html l |}.

Definition set_attributes_rows (v : list AttributeRow) (l : Locals) : Locals :=
  {| l_status := l_status l; l_error_message := l_error_message l;
     l_warnings := l_warnings l; l_attributes_rows := v;
     l_files_rows := l_files_rows l; l_attachments := l_attachments l;
     l_general_html := l_general_html l; l_documents_html := l_documents_html l |}.

Definition set_files_rows (v : list FileRow) (l : Locals) : Locals :=
  {| l_status := l_status l; l_error_message := l_error_message l;
     l_warnings := l_warnings l; l_attributes_rows := l_attributes_rows l;
     l_files_rows := v; l_attachments := l_attachments l;
     l_general_html := l_general_html l; l_documents_html := l_documents_html l |}.

Definition set_attachments (v : list Attachment) (l : Locals) : Locals :=
  {| l_status := l_status l; l_error_message := l_error_message l;
     l_warnings := l_warnings l; l_attributes_rows := l_attributes_rows l;
     l_files_rows := l_files_rows l; l_attachments := v;
     l_general_html := l_general_html l; l_documents_html := l_documents_html l |}.

Definition set_general_html (v : string) (l : Locals) : Locals :=
  {| l_status := l_status l; l_error_message := l_error_message l;
     l_warnings := l_warnings l; l_attributes_rows := l_attributes_rows l;
     l_files_rows := l_files_rows l; l_attachments := l_attachments l;
     l_general_html := v; l_documents_html := l_documents_html l |}.

Definition set_documents_html (v : string) (l : Locals) : Locals :=
  {| l_status := l_status l; l_error_message := l_error_message l;
     l_warnings := l_warnings l; l_attributes_rows := l_attributes_rows l;
     l_files_rows := l_files_rows l; l_attachments := l_attachments l;
     l_general_html := l_general_html l; l_documents_html := v |}.

(** The state of one worker: the world, the two objects shared with the
    other workers ([processed_ids], [retry_state]), the variables of
    [_process_ids] and the locals of the current turn. *)
Record wkstate := {
  ws : wstate W;
  processed_ids : gset Z;
  retry_state : pydict Z;
  stats : Stats;
  save_html_count : Z;
  guarantees_batch : list GuaranteeRow;
  attributes_batch : list AttributeRow;
  files_batch : list FileRow;
  loc : Locals
}.

Definition set_ws (v : wstate W) (s : wkstate) : wkstate :=
  {| ws := v; processed_ids := processed_ids s; retry_state := retry_state s;
     stats := stats s; save_html_count := save_html_count s;
     guarantees_batch := guarantees_batch s; attributes_batch := attributes_batch s;
     files_batch := files_batch s; loc := loc s |}.

Definition set_processed_ids (v : gset Z) (s : wkstate) : wkstate :=
  {| ws := ws s; processed_ids := v; retry_state := retry_state s;
     stats := stats s; save_html_count := save_html_count s;
     guarantees_batch := guarantees_batch s; attributes_batch := attributes_batch s;
     files_batch := files_batch s; loc := loc s |}.

Definition set_retry_state (v : pydict Z) (s : wkstate) : wkstate :=
  {| ws := ws s; processed_ids := processed_ids s; retry_state := v;
     stats := stats s; save_html_count := save_html_count s;
     guarantees_batch := guarantees_batch s; attributes_batch := attributes_batch s;
     files_batch := files_batch s; loc := loc s |}.

Definition set_stats (v : Stats) (s : wkstate) : wkstate :=
  {| ws := ws s; processed_ids := processed_ids s; retry_state := retry_state s;
     stats := v; save_html_count := save_html_count s;
     guarantees_batch := guarantees_batch s; attributes_batch := attributes_batch s;
     files_batch := files_batch s; loc := loc s |}.

Definition set_save_html_count (v : Z) (s : wkstate) : wkstate :=
  {| ws := ws s; processed_ids := processed_ids s; retry_state := retry_state s;
     stats := stats s; save_html_count := v;
     guarantees_batch := guarantees_batch s; attributes_batch := attributes_batch s;
     files_batch := files_batch s; loc := loc s |}.

Definition set_guarantees_batch (v : list GuaranteeRow) (s : wkstate) : wkstate :=
  {| ws := ws s; processed_ids := processed_ids s; retry_state := retry_state s;
     stats := stats s; save_html_count := save_html_count s;
     guarantees_batch := v; attributes_batch := attributes_batch s;
     files_batch := files_batch s; loc := loc s |}.

Definition set_attributes_batch (v : list AttributeRow) (s : wkstate) : wkstate :=
  {| ws := ws s; processed_ids := processed_ids s; retry_state := retry_state s;
     stats := stats s; save_html_count := save_html_count s;
     guarantees_batch := guarantees_batch s; attributes_batch := v;
     files_batch := files_batch s; loc := loc s |}.

Definition set_files_batch (v : list FileRow) (s : wkstate) : wkstate :=
  {| ws := ws s; processed_ids := processed_ids s; retry_state := retry_state s;
     stats := stats s; save_html_count := save_html_count s;
     guarantees_batch := guarantees_batch s; attributes_batch := attributes_batch s;
     files_batch := v; loc := loc s |}.

Definition set_loc (v : Locals) (s : wkstate) : wkstate :=
  {| ws := ws s; processed_ids := processed_ids s; retry_state := retry_state s;
     stats := stats s; save_html_count := save_html_count s;
     guarantees_batch := guarantees_batch s; attributes_batch := attributes_batch s;
     files_batch := files_batch s; loc := v |}.

Local Abbreviation Wk := (SE wkstate).

(** A computation on the world, run inside a worker. *)
Definition io {A} (c : M A) : Wk A := zoom ws set_ws c.

(** An assignment to locals. *)
Definition assign (f : Locals -> Locals) : Wk unit :=
  modify (fun s => set_loc (f (loc s)) s).

Definition locals : Wk Locals := fun s => (Ok (loc s), s).

(** Raising what a pure library function raised. *)
Definition pure_call {S A} (r : result A) : SE S A := fun s => (r, s).

(** *** ParquetBatchWriter

    The three writers of a worker keep their batch in the worker state;
    [getb] and [setb] select the batch. *)

Definition BATCH_SIZE : nat := 200.

Definition writer_flush {R} (getb : wkstate -> list R)
    (setb : list R -> wkstate -> wkstate) (mk : list R -> batch)
    (output_dir prefix : string) : Wk unit :=
  do s <- get_state;
  match getb s with
  | [] => ret tt
  | _ :: _ =>
      exec io (perform (ToParquet output_dir prefix (mk (getb s))));
      modify (setb [])
  end.

Definition writer_add {R} (getb : wkstate -> list R)
    (setb : list R -> wkstate -> wkstate) (mk : list R -> batch)
    (output_dir prefix : string) (records : list R) : Wk unit :=
  exec modify (fun s => setb (getb s ++ records)%list s);
  do s <- get_state;
  if Nat.leb BATCH_SIZE (List.length (getb s))
  then writer_flush getb setb mk output_dir prefix
  else ret tt.

Definition writer_prefix (table : string) (run_id worker_id : Z) : string :=
  table ++ "_run_" ++ str_int run_id ++ "_w" ++ str_int worker_id.

Definition guarantees_add (run_id worker_id : Z) :=
  writer_add guarantees_batch set_guarantees_batch GuaranteeBatch
             (PROCESSED_DIR // "guarantees") (writer_prefix "guarantees" run_id worker_id).
Definition attributes_add (run_id worker_id : Z) :=
  writer_add attributes_batch set_attributes_batch AttributeBatch
             (PROCESSED_DIR // "attributes") (writer_prefix "attributes" run_id worker_id).
Definition files_add (run_id worker_id : Z) :=
  writer_add files_batch set_files_batch FileBatch
             (PROCESSED_DIR // "files") (writer_prefix "files" run_id worker_id).

Definition guarantees_flush (run_id worker_id : Z) :=
  writer_flush guarantees_batch set_guarantees_batch GuaranteeBatch
             (PROCESSED_DIR // "guarantees") (writer_prefix "guarantees" run_id worker_id).
Definition attributes_flush (run_id worker_id : Z) :=
  writer_flush attributes_batch set_attributes_batch AttributeBatch
             (PROCESSED_DIR // "attributes") (writer_prefix "attributes" run_id worker_id).
Definition files_flush (run_id worker_id : Z) :=
  writer_flush files_batch set_files_batch FileBatch
             (PROCESSED_DIR // "files") (writer_prefix "files" run_id worker_id).

(** *** The guarded block of one turn (lines 163-272) *)

Definition GENERAL_KIND : string := "generalInformation".
Definition DOCUMENT_KIND : string := "document-info".

Definition MSG_NO_GENERAL : string := "Missing offline generalInformation HTML".
Definition MSG_DOC_MISSING : string := "Document page missing".
Definition MSG_NO_DOCUMENT : string := "Missing offline document-info HTML".
Definition MSG_NO_ROWS : string := "Attachments listed but no file rows created".

(** [status = "PARTIAL" if status == "OK" else status] *)
Definition partial_if_ok (l : Locals) : Locals :=
  if status_eqb (l_status l) OK then set_status PARTIAL l else l.

Definition extend_attributes (rows : list AttributeRow) (l : Locals) : Locals :=
  set_attributes_rows (l_attributes_rows l ++ rows) l.

(** Lines 165-199 *)
Definition offline_block (run_id guarantee_id : Z) (deadline : option Z) : Wk unit :=
  exec io (_ensure_time_left deadline);
  do loaded <- io (_load_sample_html guarantee_id GENERAL_KIND);
  let general_html := default EmptyString loaded in
  exec assign (set_general_html general_html);
  exec (if is_empty general_html
        then
          exec assign (set_status ERROR);
          exec assign (set_error_message MSG_NO_GENERAL);
          assign (add_warnings [MSG_NO_GENERAL])
        else if is_missing_page general_html
        then assign (set_status MISSING)
        else
          do parsed <- pure_call (parse_general_info general_html);
          exec assign (add_warnings (snd parsed));
          assign (set_attributes_rows
                    (_attributes_rows run_id guarantee_id (fst parsed))));
  do l <- locals;
  if status_eqb (l_status l) MISSING then ret tt
  else
    exec io (_ensure_time_left deadline);
    do loaded <- io (_load_sample_html guarantee_id DOCUMENT_KIND);
    let documents_html := default EmptyString loaded in
    exec assign (set_documents_html documents_html);
    if negb (is_empty documents_html)
    then
      if is_missing_page documents_html
      then
        exec assign partial_if_ok;
        assign (add_warnings [MSG_DOC_MISSING])
      else
        do parsed <- pure_call (parse_document_info documents_html);
        exec assign (set_attachments (fst (fst parsed)));
        exec assign (add_warnings (snd parsed));
        exec assign (set_files_rows
                       (_offline_files_rows run_id guarantee_id (fst (fst parsed))));
        assign (extend_attributes
                  (_document_metadata_rows run_id guarantee_id (snd (fst parsed))))
    else
      exec assign partial_if_ok;
      assign (add_warnings [MSG_NO_DOCUMENT]).

(** Lines 202-258 *)
Definition live_block (fuel : nat) (args : Args) (run_id guarantee_id : Z)
    (download_dir : string) (deadline : option Z) : Wk unit :=
  exec io (_ensure_time_left deadline);
  exec io (clean_download_dir download_dir);
  exec io (perform (DriverGet (GENERAL_INFO_URL guarantee_id)));
  do t <- io (_remaining_seconds deadline 30);
  exec io (perform (WaitForReady t));
  do source <- io (perform PageSource);
  let general_html := default EmptyString source in
  exec assign (set_general_html general_html);
  exec (if is_missing_page general_html
        then assign (set_status MISSING)
        else
          do t <- io (_remaining_seconds deadline 30);
          exec io (perform (WaitForAnySelector
                              ["h2.blockInfo__title"; ".blockInfo__title"; "body"] t));
          do parsed <- pure_call (parse_general_info general_html);
          exec assign (add_warnings (snd parsed));
          assign (set_attributes_rows
                    (_attributes_rows run_id guarantee_id (fst parsed))));
  do l <- locals;
  if status_eqb (l_status l) MISSING then ret tt
  else
    exec io (_ensure_time_left deadline);
    exec io (perform (DriverGet (DOCUMENTS_URL guarantee_id)));
    do t <- io (_remaining_seconds deadline 30);
    exec io (perform (WaitForReady t));
    do source <- io (perform PageSource);
    let documents_html := default EmptyString source in
    exec assign (set_documents_html documents_html);
    if is_missing_page documents_html
    then
      exec assign partial_if_ok;
      assign (add_warnings [MSG_DOC_MISSING])
    else
      do t <- io (_remaining_seconds deadline 30);
      exec io (perform (WaitForAnySelector [".attachment__text"; "body"] t));
      do parsed <- pure_call (parse_document_info documents_html);
      let attachments := fst (fst parsed) in
      exec assign (set_attachments attachments);
      exec assign (add_warnings (snd parsed));
      exec match attachments with
           | [] => assign (set_files_rows [])
           | _ :: _ =>
               do t <- io (_remaining_seconds deadline (download_timeout args));
               do rows <- io (download_attachments fuel attachments run_id
                                guarantee_id RAW_ATTACHMENTS_DIR download_dir
                                (force args) t (download_stall_seconds args));
               assign (set_files_rows rows)
           end;
      exec assign (extend_attributes
                     (_document_metadata_rows run_id guarantee_id (snd (fst parsed))));
      do l <- locals;
      match attachments, l_files_rows l with
      | _ :: _, [] =>
          exec assign (set_status PARTIAL);
          assign (add_warnings [MSG_NO_ROWS])
      | _, _ => ret tt
      end.

(** [status in {"ERROR", "MISSING", "PARTIAL", "TIMEOUT"}] *)
Definition status_not_ok (st : Status) : bool :=
  match st with
  | ERROR | MISSING | PARTIAL | TIMEOUT => true
  | OK => false
  end.

(** Lines 260-272 *)
Definition snapshot_block (args : Args) (guarantee_id : Z) : Wk unit :=
  do s <- get_state;
  if save_html args
     || Z.ltb (save_html_count s) (save_html_first_n args)
     || status_not_ok (l_status (loc s))
  then
    exec (if negb (is_empty (l_general_html (loc s)))
          then exec io (save_html_snapshot guarantee_id (l_general_html (loc s))
                                           GENERAL_KIND);
               ret tt
          else ret tt);
    exec (if negb (is_empty (l_documents_html (loc s)))
          then exec io (save_html_snapshot guarantee_id (l_documents_html (loc s))
                                           DOCUMENT_KIND);
               ret tt
          else ret tt);
    modify (fun s => set_save_html_count (save_html_count s + 1) s)
  else ret tt.

(** [with PerIdTimeout(args.per_id_timeout): body] *)
Definition with_per_id_timeout {A} (seconds : Z) (in_main_thread : bool)
    (body : Wk A) : Wk A :=
  exec (if Z.leb seconds 0 || negb in_main_thread then ret tt
        else io (perform (SignalAlarm seconds)));
  finally_ body
           (if Z.ltb 0 seconds && in_main_thread
            then io (perform (SignalAlarm 0))
            else ret tt).

Definition guarded_block (fuel : nat) (args : Args) (in_main_thread : bool)
    (run_id guarantee_id : Z) (download_dir : string) (deadline : option Z)
  : Wk unit :=
  with_per_id_timeout (per_id_timeout args) in_main_thread
    (exec match mode args with
          | offline => offline_block run_id guarantee_id deadline
          | live => live_block fuel args run_id guarantee_id download_dir deadline
          end;
     snapshot_block args guarantee_id).

(** *** The handlers (lines 274-304) *)

(** Lines 281-290 *)
Definition reconcile_windows : M unit :=
  do handles <- perform WindowHandles;
  match handles with
  | [] => ret tt
  | first :: others =>
      exec perform (SwitchToWindow first);
      exec for_each others
             (fun h =>
                do r <- try_ (exec perform (SwitchToWindow h); perform CloseWindow);
                ret tt);
      perform (SwitchToWindow first)
  end.

Definition on_timeout (args : Args) (e : exn) : Wk unit :=
  exec assign (set_status TIMEOUT);
  exec assign (set_error_message
                 ("Timeout after " ++ str_int (per_id_timeout args) ++ "s"));
  exec assign (add_warnings [exn_msg e]);
  if is_live args
  then do r <- try_ (io reconcile_windows); ret tt
  else ret tt.

Definition _restart_driver (args : Args) (download_dir : string) : M unit :=
  if negb (is_live args) then ret tt
  else
    do r <- try_ (perform DriverQuit);
    perform (BuildDriver download_dir (headless args) (block_images args)).

Definition transport_fatal (message : string) : bool :=
  contains "invalid session id" message
  || contains "err_connection_reset" message
  || contains "chrome not reachable" message
  || contains "disconnected" message.

Definition on_error (args : Args) (download_dir : string) (e : exn) : Wk unit :=
  exec assign (set_status ERROR);
  exec assign (set_error_message (exn_msg e));
  let message := py_lower (exn_msg e) in
  if is_live args && transport_fatal message
  then io (_restart_driver args download_dir)
  else ret tt.

(** *** Classification after the handlers (lines 306-319) *)

Definition is_failed_row (row : FileRow) : bool :=
  startswith (download_status_str (f_download_status row)) "FAILED".

Definition str_nat (n : nat) : string := str_int (Z.of_nat n).

Definition failures_warning (failed total : nat) : string :=
  "Attachment failures: " ++ str_nat failed ++ "/" ++ str_nat total.

Definition classify_files (l : Locals) : Locals :=
  match l_files_rows l with
  | [] => l
  | _ :: _ =>
      let failed := List.filter is_failed_row (l_files_rows l) in
      match failed with
      | [] => l
      | _ :: _ =>
          add_warnings
            [failures_warning (List.length failed) (List.length (l_files_rows l))]
            (if Nat.eqb (List.length failed) (List.length (l_files_rows l))
             then set_status ERROR l
             else if status_eqb (l_status l) OK then set_status PARTIAL l
             else l)
      end
  end.

Definition downgrade_on_message (l : Locals) : Locals :=
  if status_eqb (l_status l) OK && negb (is_empty (l_error_message l))
  then set_status PARTIAL l
  else l.

Definition classify (l : Locals) : Locals :=
  downgrade_on_message (classify_files l).

(** *** Persisting (lines 321-362) *)

Definition update_retry_state (status : Status) (guarantee_id max_retries : Z)
    (retry_state : pydict Z) : pydict Z :=
  let key := str_int guarantee_id in
  match status with
  | ERROR | PARTIAL | TIMEOUT =>
      let attempts := default 0 (dict_get key retry_state) + 1 in
      if Z.ltb attempts max_retries
      then dict_set key attempts retry_state
      else dict_pop key retry_state
  | OK | MISSING => dict_pop key retry_state
  end.

Definition processed_ids_path : string := STATE_DIR // "processed_ids.txt".
Definition retry_queue_path : string := STATE_DIR // "retry_queue.json".
Definition checkpoint_path : string := STATE_DIR // "checkpoint.json".
Definition run_state_path : string := STATE_DIR // "run_state.json".
Definition attribute_union_path : string := PROCESSED_DIR // "attribute_union.json".
Definition LOGS_DIR : string := DATA_DIR // "logs".

Definition persist (args : Args) (run_id worker_id guarantee_id : Z) : Wk unit :=
  do l <- locals;
  do fetched_at <- io utc_now_iso;
  exec guarantees_add run_id worker_id
         [{| g_run_id := run_id;
             g_id := guarantee_id;
             g_status := l_status l;
             g_general_url := GENERAL_INFO_URL guarantee_id;
             g_documents_url := DOCUMENTS_URL guarantee_id;
             g_fetched_at := fetched_at;
             g_warnings := l_warnings l;
             g_error := l_error_message l |}];
  exec attributes_add run_id worker_id (l_attributes_rows l);
  exec files_add run_id worker_id (l_files_rows l);
  (* with state_lock: *)
  exec io (update_attribute_union attribute_union_path (l_attributes_rows l));
  exec io (append_processed_id processed_ids_path guarantee_id);
  exec modify (fun s => set_processed_ids ({[ guarantee_id ]} ∪ processed_ids s) s);
  exec modify (fun s => set_stats (stats_bump (l_status l) (stats s)) s);
  exec modify (fun s => set_stats
                          (stats_add_files (Z.of_nat (List.length (l_files_rows l))) (stats s)) s);
  exec modify (fun s => set_retry_state
                          (update_retry_state (l_status l) guarantee_id
                                              (max_retries args) (retry_state s)) s);
  do now <- io utc_now_iso;
  do s <- get_state;
  io (save_json KCheckpoint checkpoint_path
        {| cp_run_id := run_id;
           cp_last_processed_id := guarantee_id;
           cp_stats := stats s;
           cp_updated_at := now |}).

(** Lines 372-378 *)
Definition politeness_sleep (args : Args) (index : Z) (status : Status) : Wk unit :=
  if is_live args
  then
    if status_eqb status MISSING then io (human_sleep 1000 2000)
    else if Z.eqb (index mod LONG_SLEEP_EVERY) 0
    then io (human_sleep LONG_SLEEP_MIN LONG_SLEEP_MAX)
    else io (human_sleep (sleep_min args) (sleep_max args))
  else ret tt.

Definition worker_download_dir (worker_id : Z) : string :=
  RAW_ATTACHMENTS_DIR // "_incoming" // ("worker_" ++ str_int worker_id).

(** Lines 148-304: a fresh set of locals, the deadline, the guarded block
    and the [except] clause that applies.  The value is the outcome of the
    guarded block. *)
Definition attempt (fuel : nat) (args : Args) (in_main_thread : bool)
    (run_id worker_id guarantee_id : Z) : Wk (result unit) :=
  exec assign (fun _ => fresh_locals);
  do deadline <-
    (if Z.ltb 0 (per_id_timeout args)
     then do now <- io (perform TimeMonotonic);
          ret (Some (now + 1000 * per_id_timeout args))
     else ret None);
  do outcome <- try_ (guarded_block fuel args in_main_thread run_id guarantee_id
                                    (worker_download_dir worker_id) deadline);
  exec match outcome with
       | Raise e =>
           if is_processing_timeout e then on_timeout args e
           else on_error args (worker_download_dir worker_id) e
       | _ => ret tt
       end;
  ret outcome.

(** One turn of the loop of [_process_ids] (lines 144-378). *)
Definition process_id (fuel : nat) (args : Args) (in_main_thread : bool)
    (run_id worker_id : Z) (index guarantee_id : Z) : Wk unit :=
  do s <- get_state;
  if bool_decide (guarantee_id ∈ processed_ids s) && negb (force args)
  then ret tt
  else
    exec attempt fuel args in_main_thread run_id worker_id guarantee_id;
    exec assign classify;
    exec persist args run_id worker_id guarantee_id;
    do l <- locals;
    politeness_sleep args index (l_status l).

Fixpoint process_loop (fuel : nat) (args : Args) (in_main_thread : bool)
    (run_id worker_id : Z) (index : Z) (ids : list Z) : Wk unit :=
  match ids with
  | [] => ret tt
  | guarantee_id :: rest =>
      exec process_id fuel args in_main_thread run_id worker_id index guarantee_id;
      process_loop fuel args in_main_thread run_id worker_id (index + 1) rest
  end.

Definition _process_ids (fuel : nat) (ids : list Z) (worker_id run_id : Z)
    (args : Args) (in_main_thread : bool) : Wk Stats :=
  exec modify (set_stats stats_zero);
  exec modify (set_save_html_count 0);
  exec modify (set_guarantees_batch []);
  exec modify (set_attributes_batch []);
  exec modify (set_files_batch []);
  exec (if Z.ltb 0 (worker_start_delay args)
        then io (perform (TimeSleep (worker_start_delay args * Z.max 0 (worker_id - 1))))
        else ret tt);
  exec (if is_live args
        then io (perform (BuildDriver (worker_download_dir worker_id)
                                      (headless args) (block_images args)))
        else ret tt);
  exec finally_
         (exec process_loop fuel args in_main_thread run_id worker_id 1 ids;
          exec guarantees_flush run_id worker_id;
          exec attributes_flush run_id worker_id;
          files_flush run_id worker_id)
         (if is_live args then io (perform DriverQuit) else ret tt);
  do s <- get_state;
  ret (stats s).

(** *** The worklist *)

Definition int_of (s : string) : result Z :=
  match py_int s with
  | Some n => Ok n
  | None => Raise (mk_exn ValueError ("invalid literal for int() with base 10: " ++ s))
  end.

(** [l[:n]] *)
Definition py_take {A} (n : Z) (l : list A) : list A :=
  if Z.leb 0 n then take (Z.to_nat n) l
  else take (Z.to_nat (Z.of_nat (List.length l) + n)) l.

(** [i in l] on integers *)
Definition in_list (i : Z) (l : list Z) : bool := existsb (Z.eqb i) l.

Definition parse_ids {S} (args : Args) (retry_ids : list Z) : SE S (list Z) :=
  do ids <-
    match ids args, start_id args, end_id args with
    | Some text, _, _ =>
        if is_empty text
        then match start_id args, end_id args with
             | Some a, Some b => ret (seqZ a (b + 1 - a))
             | _, _ => ret DEFAULT_TEST_IDS
             end
        else map_m (fun x => pure_call (int_of (py_strip x)))
                   (List.filter (fun x => negb (is_empty (py_strip x)))
                                (split_on "," text))
    | None, Some a, Some b => ret (seqZ a (b + 1 - a))
    | None, _, _ => ret DEFAULT_TEST_IDS
    end;
  let ids := match max_ids args with
             | Some n => py_take n ids
             | None => ids
             end in
  if negb (skip_retries args) && negb (Nat.eqb (List.length retry_ids) 0)
  then ret (retry_ids ++ List.filter (fun i => negb (in_list i retry_ids)) ids)%list
  else ret ids.

(** [l[i::k]] *)
Fixpoint every_nth (k : nat) (skip : nat) (l : list Z) : list Z :=
  match l with
  | [] => []
  | x :: rest =>
      match skip with
      | O => x :: every_nth k (k - 1) rest
      | S skip' => every_nth k skip' rest
      end
  end.

Definition stride (i k : nat) (l : list Z) : list Z := every_nth k i l.

(** *** main

    With more than one worker the pool is run under one schedule: the
    workers run to completion one after another, in the order they were
    submitted.  A worker of the pool is not on the main thread. *)

Fixpoint run_pool (fuel : nat) (args : Args) (run_id : Z) (worker_id : Z)
    (slices : list (list Z)) : Wk (list (result Stats)) :=
  match slices with
  | [] => ret []
  | ids_slice :: rest =>
      match ids_slice with
      | [] => run_pool fuel args run_id (worker_id + 1) rest
      | _ :: _ =>
          do r <- try_ (_process_ids fuel ids_slice worker_id run_id args false);
          do rs <- run_pool fuel args run_id (worker_id + 1) rest;
          ret (r :: rs)
      end
  end.

(** [for future in futures: ... future.result() ...] *)
Fixpoint collect_stats {S} (acc : Stats) (results : list (result Stats))
  : SE S Stats :=
  match results with
  | [] => ret acc
  | r :: rest =>
      do worker_stats <- pure_call r;
      collect_stats (stats_merge acc worker_stats) rest
  end.

Definition retry_ids_of {S} (args : Args) (retry_state : pydict Z) : SE S (list Z) :=
  map_m (fun kv => pure_call (int_of (fst kv)))
        (List.filter (fun kv => Z.ltb (snd kv) (max_retries args)) retry_state).

(** Lines 538-547 *)
Definition worklist (args : Args) : Wk (list Z) :=
  exec io (perform (MkdirParents STATE_DIR));
  do loaded <- io (load_json KRetry retry_queue_path ([] : pydict Z));
  exec modify (set_retry_state loaded);
  do retry_ids <- retry_ids_of args loaded;
  parse_ids args retry_ids.

(** Lines 559-598 *)
Definition run_workers (fuel : nat) (args : Args) (run_id : Z) (ids : list Z)
  : Wk Stats :=
  if Z.leb (workers args) 1
  then _process_ids fuel ids 1 run_id args true
  else
    do results <- run_pool fuel args run_id 1
                    (List.map (fun i => stride i (Z.to_nat (workers args)) ids)
                              (seq 0 (Z.to_nat (workers args))));
    collect_stats stats_zero results.

(** Lines 552-611, for a worklist that is not empty *)
Definition main_with (fuel : nat) (args : Args) (ids : list Z) : Wk Stats :=
  do run_id <- io (next_run_id run_state_path);
  exec io (perform (MkdirParents LOGS_DIR));
  do processed <- io (load_processed_ids processed_ids_path);
  exec modify (set_processed_ids processed);
  do stats <- run_workers fuel args run_id ids;
  do s <- get_state;
  exec io (save_json KRetry retry_queue_path (retry_state s));
  ret stats.

(** The value is the summary logged at the end; the exit code is 0. *)
Definition main (fuel : nat) (args : Args) : Wk Stats :=
  do ids <- worklist args;
  match ids with
  | [] => ret stats_zero
  | _ :: _ => main_with fuel args ids
  end.

Definition initial_wkstate (w : W) : wkstate :=
  {| ws := {| world := w; trace := [] |};
     processed_ids := ∅;
     retry_state := [];
     stats := stats_zero;
     save_html_count := 0;
     guarantees_batch := [];
     attributes_batch := [];
     files_batch := [];
     loc := fresh_locals |}.

End Program.

(** * A simulated world

    An in-memory file system, a clock that advances with every call, an
    alarm that interrupts the first call after it is due, a browser with
    windows and a table of pages, and a download directory whose content is
    a function of the time.  It answers every call and serves to run the
    program on given inputs. *)

Module Sim.

(** ** The pure functions of the platform, on ASCII text *)

Definition is_space (c : ascii) : bool :=
  let n := nat_of_ascii c in
  (Nat.leb 9 n && Nat.leb n 13) || Nat.eqb n 32 || (Nat.leb 28 n && Nat.leb n 31).

Fixpoint lstrip (s : string) : string :=
  match s with
  | EmptyString => EmptyString
  | String c rest => if is_space c then lstrip rest else s
  end.

Definition strip (s : string) : string :=
  String.rev (lstrip (String.rev (lstrip s))).

Definition LF : ascii := ascii_of_nat 10.
Definition CR : ascii := ascii_of_nat 13.

(** [str.splitlines()] for the line ends LF, CR and CR LF *)
Fixpoint splitlines_go (cur : string) (s : string) : list string :=
  match s with
  | EmptyString => if is_empty cur then [] else [String.rev cur]
  | String c rest =>
      if Ascii.eqb c LF then String.rev cur :: splitlines_go EmptyString rest
      else if Ascii.eqb c CR
      then String.rev cur ::
           match rest with
           | String c' rest' =>
               if Ascii.eqb c' LF then splitlines_go EmptyString rest'
               else splitlines_go EmptyString rest
           | EmptyString => []
           end
      else splitlines_go (String c cur) rest
  end.

Definition splitlines (s : string) : list string := splitlines_go EmptyString s.

Definition digit_of (c : ascii) : option Z :=
  let n := nat_of_ascii c in
  if Nat.leb 48 n && Nat.leb n 57 then Some (Z.of_nat (n - 48)) else None.

(** Digits, with single underscores between digits. *)
Fixpoint digits_go (acc : Z) (after_digit : bool) (s : string) : option Z :=
  match s with
  | EmptyString => if after_digit then Some acc else None
  | String c rest =>
      match digit_of c with
      | Some d => digits_go (10 * acc + d) true rest
      | None =>
          if Ascii.eqb c "_" && after_digit then digits_go acc false rest
          else None
      end
  end.

(** [int(s)] in base 10 *)
Definition parse_int (s : string) : option Z :=
  match strip s with
  | String "-" rest => Z.opp <$> digits_go 0 false rest
  | String "+" rest => digits_go 0 false rest
  | body => digits_go 0 false body
  end.

Definition lower_char (c : ascii) : ascii :=
  let n := nat_of_ascii c in
  if Nat.leb 65 n && Nat.leb n 90 then ascii_of_nat (n + 32) else c.

Fixpoint lower (s : string) : string :=
  match s with
  | EmptyString => EmptyString
  | String c rest => String (lower_char c) (lower rest)
  end.

Definition basename (p : string) : string :=
  List.last (split_on "/" p) EmptyString.

(** The part of a reversed name before its first dot, reversed back, with
    what is left of the name. *)
Fixpoint ext_go (ext : string) (rev_name : string) : option (string * string) :=
  match rev_name with
  | EmptyString => None
  | String c rest =>
      if Ascii.eqb c "." then Some (ext, rest) else ext_go (String c ext) rest
  end.

(** [Path(p).suffix] *)
Definition suffix (p : string) : string :=
  match ext_go EmptyString (String.rev (basename p)) with
  | Some (ext, stem) =>
      if is_empty ext || is_empty stem then EmptyString else "." ++ ext
  | None => EmptyString
  end.

Definition mime (name : string) : string :=
  if String.eqb (lower (suffix name)) ".pdf" then "application/pdf"
  else EmptyString.

(** A stand-in for the extractor: every line [field=value] of a primary
    page is a field of section [main]; every line [file:url] of a
    secondary page is an attachment named after the last component of the
    url. *)
Fixpoint cut_at (sep : ascii) (cur : string) (s : string) : option (string * string) :=
  match s with
  | EmptyString => None
  | String c rest =>
      if Ascii.eqb c sep then Some (String.rev cur, rest)
      else cut_at sep (String c cur) rest
  end.

Definition general_info (html : string)
  : result (pydict (pydict string) * list string) :=
  Ok ([("main", omap (cut_at "=" EmptyString) (splitlines html))], []).

Fixpoint attachments_from (index : Z) (lines : list string) : list Attachment :=
  match lines with
  | [] => []
  | line :: rest =>
      if startswith line "file:"
      then
        let url := String.substring 5 (String.length line - 5) line in
        {| att_download_url := url;
           att_original_filename := basename url;
           att_document_index := index;
           att_document_number := EmptyString |}
        :: attachments_from (index + 1) rest
      else attachments_from index rest
  end.

Definition document_info (html : string)
  : result (list Attachment * list DocMeta * list string) :=
  Ok (attachments_from 1 (splitlines html), [], []).

#[export] Instance platform : Platform := {|
  py_strip := strip;
  py_splitlines := splitlines;
  py_int := parse_int;
  py_lower := lower;
  path_suffix := suffix;
  guess_mime := mime;
  parse_general_info := general_info;
  parse_document_info := document_info;
  DATA_DIR := "data"
|}.

(** ** Decoding a file as UTF-8 text *)

Definition byte (c : ascii) : nat := nat_of_ascii c.

Definition is_cont (c : ascii) : bool :=
  Nat.leb 128 (byte c) && Nat.leb (byte c) 191.

Definition in_range (lo hi : nat) (c : ascii) : bool :=
  Nat.leb lo (byte c) && Nat.leb (byte c) hi.

(** Well-formed UTF-8: no overlong form, no surrogate, nothing above
    U+10FFFF. *)
Fixpoint utf8_valid_go (fuel : nat) (s : string) : bool :=
  match fuel with
  | O => is_empty s
  | S fuel' =>
      match s with
      | EmptyString => true
      | String a rest =>
          if Nat.leb (byte a) 127 then utf8_valid_go fuel' rest
          else if in_range 194 223 a
          then match rest with
               | String b r => is_cont b && utf8_valid_go fuel' r
               | _ => false
               end
          else if in_range 224 239 a
          then match rest with
               | String b (String c r) =>
                   (if Nat.eqb (byte a) 224 then in_range 160 191 b
                    else if Nat.eqb (byte a) 237 then in_range 128 159 b
                    else is_cont b)
                   && is_cont c && utf8_valid_go fuel' r
               | _ => false
               end
          else if in_range 240 244 a
          then match rest with
               | String b (String c (String d r)) =>
                   (if Nat.eqb (byte a) 240 then in_range 144 191 b
                    else if Nat.eqb (byte a) 244 then in_range 128 143 b
                    else is_cont b)
                   && is_cont c && is_cont d && utf8_valid_go fuel' r
               | _ => false
               end
          else false
      end
  end.

Definition utf8_valid (s : string) : bool := utf8_valid_go (String.length s) s.

(** Text mode reads CR LF and CR as LF. *)
Fixpoint universal_newlines (s : string) : string :=
  match s with
  | EmptyString => EmptyString
  | String c rest =>
      if Ascii.eqb c CR
      then String LF match rest with
                     | String c' rest' =>
                         if Ascii.eqb c' LF then universal_newlines rest'
                         else universal_newlines rest
                     | EmptyString => EmptyString
                     end
      else String c (universal_newlines rest)
  end.

(** ** The world *)

Inductive json_file :=
| RunStateFile (d : RunStateDoc)
| RetryFile (d : pydict Z)
| CheckpointFile (d : CheckpointDoc)
| UnionFile (d : gmap string (gset string)).

Definition to_json_file (k : doc_kind) : doc k -> json_file :=
  match k with
  | KRunState => RunStateFile
  | KRetry => RetryFile
  | KCheckpoint => CheckpointFile
  | KUnion => UnionFile
  end.

Definition of_json_file (k : doc_kind) (f : json_file) : option (doc k) :=
  match k, f with
  | KRunState, RunStateFile d => Some d
  | KRetry, RetryFile d => Some d
  | KCheckpoint, CheckpointFile d => Some d
  | KUnion, UnionFile d => Some d
  | _, _ => None
  end.

Record t := {
  clock : Z;
  alarm : option Z;
  cost : event -> Z;
  fault : event -> option exn;
  files : gmap string string;
  json_files : gmap string json_file;
  pages : string -> string;
  windows : list (string * string);
  current : string;
  tabs_opened : Z;
  incoming_dir : string;
  incoming : Z -> list (string * (Z * Z));
  removed : list string;
  batches : list (string * string * batch)
}.

Definition set_clock (v : Z) (w : t) : t :=
  {| clock := v; alarm := alarm w; cost := cost w; fault := fault w;
     files := files w; json_files := json_files w; pages := pages w;
     windows := windows w; current := current w; tabs_opened := tabs_opened w;
     incoming_dir := incoming_dir w; incoming := incoming w;
     removed := removed w; batches := batches w |}.

Definition set_alarm (v : option Z) (w : t) : t :=
  {| clock := clock w; alarm := v; cost := cost w; fault := fault w;
     files := files w; json_files := json_files w; pages := pages w;
     windows := windows w; current := current w; tabs_opened := tabs_opened w;
     incoming_dir := incoming_dir w; incoming := incoming w;
     removed := removed w; batches := batches w |}.

Definition set_files (v : gmap string string) (w : t) : t :=
  {| clock := clock w; alarm := alarm w; cost := cost w; fault := fault w;
     files := v; json_files := json_files w; pages := pages w;
     windows := windows w; current := current w; tabs_opened := tabs_opened w;
     incoming_dir := incoming_dir w; incoming := incoming w;
     removed := removed w; batches := batches w |}.

Definition set_json_files (v : gmap string json_file) (w : t) : t :=
  {| clock := clock w; alarm := alarm w; cost := cost w; fault := fault w;
     files := files w; json_files := v; pages := pages w;
     windows := windows w; current := current w; tabs_opened := tabs_opened w;
     incoming_dir := incoming_dir w; incoming := incoming w;
     removed := removed w; batches := batches w |}.

Definition set_browser (ws : list (string * string)) (cur : string) (n : Z)
    (w : t) : t :=
  {| clock := clock w; alarm := alarm w; cost := cost w; fault := fault w;
     files := files w; json_files := json_files w; pages := pages w;
     windows := ws; current := cur; tabs_opened := n;
     incoming_dir := incoming_dir w; incoming := incoming w;
     removed := removed w; batches := batches w |}.

Definition set_removed (v : list string) (w : t) : t :=
  {| clock := clock w; alarm := alarm w; cost := cost w; fault := fault w;
     files := files w; json_files := json_files w; pages := pages w;
     windows := windows w; current := current w; tabs_opened := tabs_opened w;
     incoming_dir := incoming_dir w; incoming := incoming w;
     removed := v; batches := batches w |}.

Definition set_batches (v : list (string * string * batch)) (w : t) : t :=
  {| clock := clock w; alarm := alarm w; cost := cost w; fault := fault w;
     files := files w; json_files := json_files w; pages := pages w;
     windows := windows w; current := current w; tabs_opened := tabs_opened w;
     incoming_dir := incoming_dir w; incoming := incoming w;
     removed := removed w; batches := v |}.

Definition has_name (name : string) (l : list string) : bool :=
  existsb (String.eqb name) l.

(** The files of the download directory now. *)
Definition incoming_now (w : t) : list (string * (Z * Z)) :=
  List.filter (fun f => negb (has_name (fst f) (removed w))) (incoming w (clock w)).

(** The entry of the download directory a path names, if any. *)
Definition incoming_file (p : string) (w : t) : option (string * (Z * Z)) :=
  List.find (fun f => String.eqb p (incoming_dir w // fst f)) (incoming_now w).

(** The name of [p] when [p] lies directly in [dir]. *)
Definition child_of (dir p : string) : option string :=
  if startswith p (dir ++ "/")
  then
    let name := String.substring (String.length dir + 1)
                  (String.length p - String.length dir - 1) p in
    if contains "/" name then None else Some name
  else None.

Definition list_files (dir : string) (w : t) : list string :=
  if String.eqb dir (incoming_dir w) then List.map fst (incoming_now w)
  else omap (fun kv => child_of dir (fst kv)) (map_to_list (files w)).

Definition exists_path (p : string) (w : t) : bool :=
  bool_decide (is_Some (files w !! p))
  || bool_decide (is_Some (json_files w !! p))
  || bool_decide (is_Some (incoming_file p w)).

Definition not_found (p : string) : exn :=
  mk_exn OSError ("[Errno 2] No such file or directory: " ++ p).

Fixpoint filler (n : nat) : string :=
  match n with
  | O => EmptyString
  | S n' => String "x" (filler n')
  end.

Definition is_signal {A} (c : call A) : bool :=
  match c with SignalAlarm _ => true | _ => false end.

Definition alarm_due (w : t) : bool :=
  match alarm w with
  | Some t => Z.leb t (clock w)
  | None => false
  end.

Definition window_url (w : t) : string :=
  default EmptyString (dict_get (current w) (windows w)).

(** What a call does when nothing interrupts it. *)
Definition step {A} (c : call A) : t -> result A * t :=
  match c in call T return t -> result T * t with
  | TimeMonotonic => fun w => (Ok (clock w), w)
  | TimeTime => fun w => (Ok (clock w), w)
  | TimeSleep ms => fun w => (Ok tt, set_clock (clock w + Z.max 0 ms) w)
  | RandomUniform lo hi => fun w => (Ok lo, w)
  | UtcNowIso => fun w => (Ok ("t=" ++ str_int (clock w)), w)
  | SignalAlarm seconds =>
      fun w => (Ok tt, set_alarm (if Z.eqb seconds 0 then None
                                  else Some (clock w + 1000 * seconds)) w)
  | BuildDriver _ _ _ =>
      fun w => (Ok tt, set_browser [("main", "about:blank")] "main" 0 w)
  | DriverQuit => fun w => (Ok tt, set_browser [] EmptyString (tabs_opened w) w)
  | DriverGet url =>
      fun w => (Ok tt, set_browser (dict_set (current w) url (windows w))
                                   (current w) (tabs_opened w) w)
  | WaitForReady _ => fun w => (Ok tt, w)
  | WaitForAnySelector _ _ => fun w => (Ok tt, w)
  | PageSource => fun w => (Ok (Some (pages w (window_url w))), w)
  | CurrentWindowHandle => fun w => (Ok (current w), w)
  | WindowHandles => fun w => (Ok (List.map fst (windows w)), w)
  | SwitchToWindow h =>
      fun w =>
        if has_name h (List.map fst (windows w))
        then (Ok tt, set_browser (windows w) h (tabs_opened w) w)
        else (Raise (mk_exn NoSuchWindowException ("no such window: " ++ h)), w)
  | CloseWindow =>
      fun w => (Ok tt, set_browser (dict_pop (current w) (windows w))
                                   (current w) (tabs_opened w) w)
  | WindowOpen url =>
      fun w =>
        (Ok tt, set_browser
                  (windows w ++ [("tab" ++ str_int (tabs_opened w + 1), url)])
                  (current w) (tabs_opened w + 1) w)
  | PathExists p => fun w => (Ok (exists_path p w), w)
  | ReadText p =>
      fun w =>
        match files w !! p with
        | Some bytes =>
            if utf8_valid bytes then (Ok (universal_newlines bytes), w)
            else (Raise (mk_exn ValueError
                           "UnicodeDecodeError: 'utf-8' codec can't decode byte"), w)
        | None => (Raise (not_found p), w)
        end
  | WriteText p text => fun w => (Ok tt, set_files (<[ p := text ]> (files w)) w)
  | AppendText p text =>
      fun w => (Ok tt, set_files
                         (<[ p := default EmptyString (files w !! p) ++ text ]> (files w)) w)
  | MkdirParents _ => fun w => (Ok tt, w)
  | ListFiles dir => fun w => (Ok (list_files dir w), w)
  | StatSize p =>
      fun w =>
        match files w !! p, incoming_file p w with
        | Some bytes, _ => (Ok (Z.of_nat (String.length bytes)), w)
        | None, Some f => (Ok (fst (snd f)), w)
        | None, None => (Raise (not_found p), w)
        end
  | StatMtime p =>
      fun w =>
        match files w !! p, incoming_file p w with
        | Some _, _ => (Ok 0, w)
        | None, Some f => (Ok (snd (snd f)), w)
        | None, None => (Raise (not_found p), w)
        end
  | Unlink p =>
      fun w =>
        match files w !! p, incoming_file p w with
        | Some _, _ => (Ok tt, set_files (delete p (files w)) w)
        | None, Some f => (Ok tt, set_removed (fst f :: removed w) w)
        | None, None => (Raise (not_found p), w)
        end
  | Move src dst =>
      fun w =>
        match files w !! src, incoming_file src w with
        | Some bytes, _ =>
            (Ok tt, set_files (<[ dst := bytes ]> (delete src (files w))) w)
        | None, Some f =>
            (Ok tt, set_files (<[ dst := filler (Z.to_nat (fst (snd f))) ]> (files w))
                              (set_removed (fst f :: removed w) w))
        | None, None => (Raise (not_found src), w)
        end
  | Sha256File p =>
      fun w =>
        match files w !! p with
        | Some bytes => (Ok ("sha256 of " ++ bytes), w)
        | None => (Raise (not_found p), w)
        end
  | PdfReaderPages p =>
      fun w =>
        match files w !! p with
        | Some _ => (Ok 1, w)
        | None => (Raise (not_found p), w)
        end
  | JsonLoad k p =>
      fun w =>
        match json_files w !! p with
        | Some f =>
            match of_json_file k f with
            | Some d => (Ok d, w)
            | None => (Raise (mk_exn OtherException "unexpected JSON document"), w)
            end
        | None => (Raise (not_found p), w)
        end
  | JsonDump k p v =>
      fun w => (Ok tt, set_json_files (<[ p := to_json_file k v ]> (json_files w)) w)
  | ToParquet dir prefix b =>
      fun w => (Ok tt, set_batches (batches w ++ [(dir, prefix, b)]) w)
  end.

(** A call takes [cost] milliseconds.  An alarm that is due interrupts it
    before it starts; a call listed in [fault] fails. *)
Definition answer (A : Type) (c : call A) (w : t) : result A * t :=
  if alarm_due w && negb (is_signal c)
  then (Raise (mk_exn ProcessingTimeout "Per-ID processing timed out"),
        set_alarm None w)
  else
    let w := set_clock (clock w + Z.max 0 (cost w (Called c))) w in
    match fault w (Called c) with
    | Some e => (Raise e, w)
    | None => step c w
    end.

#[export] Instance sim_world : World t := answer.

Definition no_cost : event -> Z := fun _ => 0.
Definition no_fault : event -> option exn := fun _ => None.
Definition no_pages : string -> string := fun _ => EmptyString.
Definition no_incoming : Z -> list (string * (Z * Z)) := fun _ => [].

Definition blank : t :=
  {| clock := 0; alarm := None; cost := no_cost; fault := no_fault;
     files := ∅; json_files := ∅; pages := no_pages;
     windows := []; current := EmptyString; tabs_opened := 0;
     incoming_dir := "data/raw/attachments/_incoming/worker_1";
     incoming := no_incoming; removed := []; batches := [] |}.

Definition default_args : Args :=
  {| mode := offline; ids := None; start_id := None; end_id := None;
     max_ids := None; sleep_min := DEFAULT_SLEEP_MIN; sleep_max := DEFAULT_SLEEP_MAX;
     force := false; headless := false; save_html := false;
     save_html_first_n := DEFAULT_HTML_SAVE_FIRST_N; skip_retries := false;
     max_retries := 3; per_id_timeout := 30; workers := 1; block_images := false;
     worker_start_delay := 0; download_timeout := 300;
     download_stall_seconds := 120 |}.

End Sim.

(** * Notions used in the statements *)

Definition is_retryable (st : Status) : bool :=
  match st with
  | ERROR | PARTIAL | TIMEOUT => true
  | OK | MISSING => false
  end.

(** The retry state after a series of attempts on one ID, given the status
    each attempt ended with. *)
Definition record_attempts (statuses : list Status) (guarantee_id max_retries : Z)
    (retry_state : pydict Z) : pydict Z :=
  fold_left (fun rs st => update_retry_state st guarantee_id max_retries rs)
            statuses retry_state.


(** * A world where nothing happens

    The state is the clock.  Every call returns at once with an empty
    answer; only a sleep moves the clock. *)

Module Calm.

Definition empty_checkpoint : CheckpointDoc :=
  {| cp_run_id := 0; cp_last_processed_id := 0; cp_stats := stats_zero;
     cp_updated_at := EmptyString |}.

Definition empty_doc (k : doc_kind) : doc k :=
  match k with
  | KRunState => {| last_run_id := None; rs_updated_at := None |}
  | KRetry => []
  | KCheckpoint => empty_checkpoint
  | KUnion => ∅
  end.

Definition value {A} (c : call A) (now : Z) : A :=
  match c in call T return T with
  | TimeMonotonic => now
  | TimeTime => now
  | TimeSleep _ => tt
  | RandomUniform lo _ => lo
  | UtcNowIso => EmptyString
  | SignalAlarm _ => tt
  | BuildDriver _ _ _ => tt
  | DriverQuit => tt
  | DriverGet _ => tt
  | WaitForReady _ => tt
  | WaitForAnySelector _ _ => tt
  | PageSource => None
  | CurrentWindowHandle => "main"
  | WindowHandles => ["main"]
  | SwitchToWindow _ => tt
  | CloseWindow => tt
  | WindowOpen _ => tt
  | PathExists _ => false
  | ReadText _ => EmptyString
  | WriteText _ _ => tt
  | AppendText _ _ => tt
  | MkdirParents _ => tt
  | ListFiles _ => []
  | StatSize _ => 0
  | StatMtime _ => 0
  | Unlink _ => tt
  | Move _ _ => tt
  | Sha256File _ => EmptyString
  | PdfReaderPages _ => 0
  | JsonLoad k _ => empty_doc k
  | JsonDump _ _ _ => tt
  | ToParquet _ _ _ => tt
  end.

Definition later {A} (c : call A) (now : Z) : Z :=
  match c with
  | TimeSleep ms => now + Z.max 0 ms
  | _ => now
  end.

Definition answer (A : Type) (c : call A) (now : Z) : result A * Z :=
  (Ok (value c now), later c now).

#[export] Instance calm_world : World Z := answer.

Definition clock (now : Z) : Z := now.

End Calm.

(** ** Scenarios *)

Module Scenario.

Import Sim.

Definition start (w : Sim.t) : wkstate := initial_wkstate w.

Definition with_locals (l : Locals) (w : Sim.t) : wkstate :=
  set_loc l (initial_wkstate w).

(** An attempt on ID 5 that ended in ERROR, about to be persisted. *)
Definition failed_locals : Locals :=
  set_error_message "boom" (set_status ERROR fresh_locals).

Definition after_failure : wkstate := with_locals failed_locals blank.

(** A processed-ID log with a blank line and two lines that are no
    integers. *)
Definition log_text : string :=
  "12" ++ newline ++ newline ++ " 7 " ++ newline ++ "seven" ++ newline
  ++ "1e3" ++ newline ++ "12" ++ newline.

Definition log_path : string := "data/state/processed_ids.txt".

Definition with_log : Sim.t := set_files (<[ log_path := log_text ]> ∅) blank.

(** A processed-ID log holding the single byte 0xFF, which is not UTF-8. *)
Definition with_broken_log : Sim.t :=
  set_files (<[ log_path := String (ascii_of_nat 255) EmptyString ]> ∅) blank.

(** The rows a run has written, by table. *)
Definition guarantee_rows (w : Sim.t) : list GuaranteeRow :=
  flat_map (fun b => match snd b with GuaranteeBatch rows => rows | _ => [] end)
           (batches w).

Definition attribute_rows (w : Sim.t) : list AttributeRow :=
  flat_map (fun b => match snd b with AttributeBatch rows => rows | _ => [] end)
           (batches w).

Definition file_rows (w : Sim.t) : list FileRow :=
  flat_map (fun b => match snd b with FileBatch rows => rows | _ => [] end)
           (batches w).

(** What a guarantee row says: ID, status, error, warnings. *)
Definition verdict (row : GuaranteeRow) : Z * Status * string * list string :=
  (g_id row, g_status row, g_error row, g_warnings row).

Definition final_world (r : result Stats * wkstate) : Sim.t := world (ws (snd r)).

Definition live_args (id_list : string) : Args :=
  {| mode := live; ids := Some id_list; start_id := None; end_id := None;
     max_ids := None; sleep_min := DEFAULT_SLEEP_MIN; sleep_max := DEFAULT_SLEEP_MAX;
     force := false; headless := true; save_html := false;
     save_html_first_n := DEFAULT_HTML_SAVE_FIRST_N; skip_retries := false;
     max_retries := 3; per_id_timeout := 30; workers := 1; block_images := false;
     worker_start_delay := 0; download_timeout := 300;
     download_stall_seconds := 120 |}.

Definition offline_args (id_list : string) : Args :=
  {| mode := offline; ids := Some id_list; start_id := None; end_id := None;
     max_ids := None; sleep_min := DEFAULT_SLEEP_MIN; sleep_max := DEFAULT_SLEEP_MAX;
     force := false; headless := false; save_html := false;
     save_html_first_n := DEFAULT_HTML_SAVE_FIRST_N; skip_retries := false;
     max_retries := 3; per_id_timeout := 30; workers := 1; block_images := false;
     worker_start_delay := 0; download_timeout := 300;
     download_stall_seconds := 120 |}.

(** *** An attachment the server no longer has, and a slow disk

    Record 9 has one attachment; the server answers the download with
    "File with uid ... not found".  Each page load takes 13 seconds and
    creating the snapshot directory takes 5, so the alarm of the 30 second
    deadline goes off while the snapshot is saved, after the download
    returned its row. *)
Definition attachment_url : string := "https://host/filestore/download/a.pdf".

Definition gone_pages (url : string) : string :=
  if String.eqb url (GENERAL_INFO_URL 9) then "name=Bank"
  else if String.eqb url (DOCUMENTS_URL 9) then "file:" ++ attachment_url
  else if String.eqb url attachment_url then "File with uid a not found"
  else EmptyString.

Definition slow_cost (e : event) : Z :=
  match e with
  | Called (DriverGet _) => 13000
  | Called (MkdirParents p) => if String.eqb p "data/raw/html" then 5000 else 0
  | _ => 0
  end.

Definition gone_world : Sim.t :=
  {| clock := 0; alarm := None; cost := slow_cost; fault := no_fault;
     files := ∅; json_files := ∅; pages := gone_pages;
     windows := []; current := EmptyString; tabs_opened := 0;
     incoming_dir := "data/raw/attachments/_incoming/worker_1";
     incoming := no_incoming; removed := []; batches := [] |}.

(** Two file rows, one failed, under each status the handlers can leave. *)
Definition row_with (index : Z) (status : DownloadStatus) : FileRow :=
  failed_row 1 9 index "a.pdf" attachment_url 1 EmptyString status.

Definition mixed_rows : list FileRow :=
  [row_with 1 DOWNLOADED; row_with 2 FAILED_STALLED].

Definition mixed_locals (st : Status) : Locals :=
  set_files_rows mixed_rows (set_status st fresh_locals).

(** *** Two attachments of record 9

    The first download arrives half a second into the run as an empty
    file, the second after 6.5 seconds as a file of five bytes. *)
Definition second_url : string := "https://host/filestore/download/b.pdf".

Definition two_attachments : list Attachment :=
  [ {| att_download_url := attachment_url; att_original_filename := " a.pdf ";
       att_document_index := 1; att_document_number := "N-1" |};
    {| att_download_url := second_url; att_original_filename := "b.pdf";
       att_document_index := 2; att_document_number := "N-2" |} ].

Definition arrivals (now : Z) : list (string * (Z * Z)) :=
  (if Z.leb 500 now then [("a.pdf", (0, 500))] else [])
  ++ (if Z.leb 6500 now then [("b.pdf", (5, 6500))] else []).

Definition browsing (timeline : Z -> list (string * (Z * Z))) : Sim.t :=
  {| clock := 0; alarm := None; cost := no_cost; fault := no_fault;
     files := ∅; json_files := ∅; pages := no_pages;
     windows := [("main", "about:blank")]; current := "main"; tabs_opened := 0;
     incoming_dir := "data/raw/attachments/_incoming/worker_1";
     incoming := timeline; removed := []; batches := [] |}.

Definition download_dir : string := "data/raw/attachments/_incoming/worker_1".
Definition attachments_root : string := "data/raw/attachments".
Definition id_dir : string := "data/raw/attachments/9".

Definition download_two (w : Sim.t) : result (list FileRow) * wstate Sim.t :=
  download_attachments 10 two_attachments 1 9 attachments_root download_dir
                       false 60 120 (mk_wstate w []).

(** *** A browser that cannot open a new window *)
Definition window_fault (e : event) : option exn :=
  match e with
  | Called (WindowOpen _) =>
      Some (mk_exn WebDriverException "unknown error: cannot open window")
  | _ => None
  end.

Definition stuck_browser : Sim.t :=
  {| clock := 0; alarm := None; cost := no_cost; fault := window_fault;
     files := ∅; json_files := ∅; pages := no_pages;
     windows := [("main", "about:blank")]; current := "main"; tabs_opened := 0;
     incoming_dir := "data/raw/attachments/_incoming/worker_1";
     incoming := no_incoming; removed := []; batches := [] |}.

(** *** Download directories

    [one_file]: a complete file of seven bytes arrives after half a second.
    [stuck_file]: a partial download of ten bytes arrives and never grows.
    [restless]: the complete file of [one_file], next to a file without the
    in-progress extension that is rewritten all the time. *)
Definition one_file (now : Z) : list (string * (Z * Z)) :=
  if Z.leb 500 now then [("a.pdf", (7, 500))] else [].

Definition stuck_file (now : Z) : list (string * (Z * Z)) :=
  if Z.leb 500 now then [("a.pdf.crdownload", (10, 500))] else [].

Definition restless (now : Z) : list (string * (Z * Z)) :=
  if Z.leb 500 now then [("a.pdf", (7, 500)); ("b.tmp", (now, now))] else [].

(** The download was opened during the first three seconds. *)
Definition opened (timeline : Z -> list (string * (Z * Z))) : wstate Sim.t :=
  mk_wstate (set_clock 3000 (browsing timeline)) [].

Definition wait_in (timeline : Z -> list (string * (Z * Z))) (timeout : Z)
  : result (option string * option DownloadStatus) * wstate Sim.t :=
  _wait_for_download_result 200 None download_dir [] timeout 3 120 (opened timeline).

(** The fourth turn of the poll on [one_file]: the file was first seen, with
    seven bytes, at 3000. *)
Definition fourth_turn : wstate Sim.t :=
  mk_wstate (set_clock 6000 (browsing one_file)) [].

Definition seen_at_3000 : gmap string (Z * Z) := {[ "a.pdf" := (7, 3000) ]}.

(** The size of [a.pdf] at the polls of [restless], one per second. *)
Definition sizes_of_a : list (option Z) :=
  List.map (fun k => fst <$> dict_get "a.pdf" (restless (3000 + 1000 * k)))
           (seqZ 0 10).


(** *** A record that does not exist

    The site answers the primary page of record 4 with its "no such page"
    text.  On [full_disk] no text file can be written. *)
Definition lost_pages (url : string) : string :=
  if String.eqb url (GENERAL_INFO_URL 4)
  then "<h1>" ++ MISSING_PAGE_PHRASE ++ "</h1>"
  else "name=Bank".

Definition full_disk (e : event) : option exn :=
  match e with
  | Called (WriteText _ _) =>
      Some (mk_exn OSError "[Errno 28] No space left on device")
  | _ => None
  end.

Definition lost_site (f : event -> option exn) : Sim.t :=
  {| clock := 0; alarm := None; cost := no_cost; fault := f;
     files := ∅; json_files := ∅; pages := lost_pages;
     windows := [("main", "about:blank")]; current := "main"; tabs_opened := 0;
     incoming_dir := "data/raw/attachments/_incoming/worker_1";
     incoming := no_incoming; removed := []; batches := [] |}.

Definition lost_attempt (f : event -> option exn) : result (result unit) * wkstate :=
  attempt 10 (live_args "4") true 1 1 4 (start (lost_site f)).

(** The URLs the browser was sent to, oldest first. *)
Definition visited (log : list event) : list string :=
  omap (fun e => match e with Called (DriverGet url) => Some url | _ => None end)
       (rev log).


(** *** Two records kept as samples

    Offline, the samples of the primary pages of records 7 and 8 are on
    disk.  On [locked_log] nothing can be appended to a file. *)
Definition archive : gmap string string :=
  <[ sample_path 7 GENERAL_KIND := "name=Bank" ]>
    (<[ sample_path 8 GENERAL_KIND := "name=Bank" ]> ∅).

Definition locked_log (e : event) : option exn :=
  match e with
  | Called (AppendText _ _) => Some (mk_exn OSError "[Errno 13] Permission denied")
  | _ => None
  end.

Definition archive_site (f : event -> option exn) : Sim.t :=
  {| clock := 0; alarm := None; cost := no_cost; fault := f;
     files := archive; json_files := ∅; pages := no_pages;
     windows := []; current := EmptyString; tabs_opened := 0;
     incoming_dir := "data/raw/attachments/_incoming/worker_1";
     incoming := no_incoming; removed := []; batches := [] |}.

(** The sample files the run looked for, oldest first. *)
Definition looked_for (log : list event) : list string :=
  omap (fun e => match e with
                 | Called (PathExists p) =>
                     if startswith p SAMPLES_DIR then Some p else None
                 | _ => None
                 end)
       (rev log).


(** *** A second run over the same records

    Both pages of records 7 and 8 are kept as samples, so the first run
    ends with both records OK and an empty retry map.  The second run
    starts in the world the first one left. *)
Definition full_archive : gmap string string :=
  <[ sample_path 7 DOCUMENT_KIND := "file:" ++ attachment_url ]>
    (<[ sample_path 8 DOCUMENT_KIND := "file:" ++ second_url ]> archive).

Definition archived_site : Sim.t := set_files full_archive blank.

Definition first_run : result Stats * wkstate :=
  main 10 (offline_args "7,8") (initial_wkstate archived_site).

Definition after_first : Sim.t := final_world first_run.

Definition second_run : result Stats * wkstate :=
  main 10 (offline_args "7,8") (initial_wkstate after_first).

(** The second run once its worklist is made. *)
Definition resumed : wkstate :=
  snd (worklist (offline_args "7,8") (initial_wkstate after_first)).

(** What the persisted state says. *)
Definition run_counter (w : Sim.t) : option Z :=
  match json_files w !! run_state_path with
  | Some (RunStateFile d) => last_run_id d
  | _ => None
  end.

Definition retry_map (w : Sim.t) : option (pydict Z) :=
  match json_files w !! retry_queue_path with
  | Some (RetryFile d) => Some d
  | _ => None
  end.

Definition processed_log (w : Sim.t) : option string :=
  files w !! processed_ids_path.


(** *** A run after failures

    With only their primary pages kept, records 7 and 8 end the first run
    PARTIAL and enter the retry map with one attempt each.  The next run is
    asked for record 9, of which there is no sample. *)
Definition failing_run : result Stats * wkstate :=
  main 10 (offline_args "7,8") (initial_wkstate (archive_site no_fault)).

Definition after_failing : Sim.t := final_world failing_run.

Definition retry_run : result Stats * wkstate :=
  main 10 (offline_args "9") (initial_wkstate after_failing).

(** The worklist of the next run, and its state once the processed IDs are
    read from the log. *)
Definition retry_worklist : result (list Z) * wkstate :=
  worklist (offline_args "9") (initial_wkstate after_failing).

Definition logged_ids : gset Z :=
  match fst (load_processed_ids processed_ids_path (mk_wstate after_failing [])) with
  | Ok processed => processed
  | _ => ∅
  end.

Definition reloaded : wkstate := set_processed_ids logged_ids (snd retry_worklist).

(** *** Further runs

    A worklist asked for with blank items only; two workers; rows of
    attributes, one of them without a section; a directory that already
    holds the first attachment of record 9. *)
Definition blank_args : Args := offline_args " , ".

Definition pool_args : Args :=
  {| mode := offline; ids := Some "7,8"; start_id := None; end_id := None;
     max_ids := None; sleep_min := DEFAULT_SLEEP_MIN; sleep_max := DEFAULT_SLEEP_MAX;
     force := false; headless := false; save_html := false;
     save_html_first_n := DEFAULT_HTML_SAVE_FIRST_N; skip_retries := false;
     max_retries := 3; per_id_timeout := 30; workers := 2; block_images := false;
     worker_start_delay := 0; download_timeout := 300;
     download_stall_seconds := 120 |}.

Definition attribute_row (section field value : string) : AttributeRow :=
  {| a_run_id := 1; a_id := 7; a_section := section; a_field_name := field;
     a_field_value := value; a_document_index := None;
     a_document_number := None |}.

Definition union_rows : list AttributeRow :=
  [ attribute_row "bank" "name" "B"; attribute_row EmptyString "inn" "1" ].

Definition first_attachment : Attachment :=
  {| att_download_url := attachment_url; att_original_filename := " a.pdf ";
     att_document_index := 1; att_document_number := "N-1" |}.

Definition stored_site : wstate Sim.t :=
  mk_wstate (set_files (<[ id_dir // "9_1.pdf" := "%PDF" ]> ∅) blank) [].

(** *** More states of a download

    [error_shown]: the tab of the download shows the answer of a server
    that no longer has the file.  [restless_turn]: a turn of the poll on
    [restless], six seconds in. *)
Definition error_shown : wstate Sim.t :=
  mk_wstate (set_browser [("main", "about:blank"); ("tab1", attachment_url)] "tab1" 1
                         (set_clock 3000 gone_world)) [].

Definition restless_turn : wstate Sim.t :=
  mk_wstate (set_clock 6000 (browsing restless)) [].

End Scenario.

(** Some line of [lines] is not blank and parses as the integer [n]. *)
Definition parses_to `{Platform} (lines : list string) (n : Z) : Prop :=
  exists line, In line lines
               /\ is_empty (py_strip line) = false
               /\ py_int (py_strip line) = Some n.

(** The download statuses [FAILED_*]. *)
Definition is_failure (d : DownloadStatus) : bool :=
  match d with
  | FAILED_NOT_FOUND | FAILED_ERROR_PAGE | FAILED_STALLED | FAILED_TIMEOUT
  | FAILED_MISSING => true
  | DOWNLOADED | SKIPPED_EXISTS | SKIPPED_OFFLINE => false
  end.

Definition failed_rows (rows : list FileRow) : list FileRow :=
  List.filter (fun row => is_failure (f_download_status row)) rows.

(** The row of attachment [item], the [index]-th of record [guarantee_id]. *)
Definition row_for `{Platform} (run_id guarantee_id index : Z) (item : Attachment)
    (row : FileRow) : Prop :=
  f_run_id row = run_id
  /\ f_id row = guarantee_id
  /\ f_file_index row = index
  /\ f_original_filename row = py_strip (att_original_filename item)
  /\ f_download_url row = py_strip (att_download_url item)
  /\ f_document_index row = att_document_index item
  /\ f_document_number row = att_document_number item.

(** A world in which every call returns a value and the clock [clk] only
    moves forward: a reading lies between the clock before and after the
    call, and a sleep of [d] milliseconds moves the clock by [d] at least. *)
Record steady `{World W} (clk : W -> Z) : Prop := {
  calls_return : forall A (c : call A) w, exists a w', handle A c w = (Ok a, w');
  clock_forward : forall A (c : call A) w, clk w <= clk (snd (handle A c w));
  clock_read : forall w t w', handle Z TimeTime w = (Ok t, w') -> clk w <= t <= clk w';
  clock_sleep : forall d w, clk w + d <= clk (snd (handle unit (TimeSleep d) w))
}.

(** A computation that returns a value from every state, with the clock
    not moved back. *)
Definition sound `{World W} (clk : W -> Z) {A} (c : SE (wstate W) A) : Prop :=
  forall s, exists a s', c s = (Ok a, s') /\ clk (world s) <= clk (world s').

(** The fields a row takes from its attachment. *)
Definition row_for_values (run_id guarantee_id index : Z)
    (original_name download_url : string) (document_index : Z)
    (document_number : string) (row : FileRow) : Prop :=
  f_run_id row = run_id
  /\ f_id row = guarantee_id
  /\ f_file_index row = index
  /\ f_original_filename row = original_name
  /\ f_download_url row = download_url
  /\ f_document_index row = document_index
  /\ f_document_number row = document_number.

(** A fetch of the secondary page of record [guarantee_id]: loading its URL
    in the browser or, offline, looking for or reading its sample file. *)
Definition is_secondary_fetch `{Platform} (guarantee_id : Z) (e : event) : bool :=
  match e with
  | Called (DriverGet url) => String.eqb url (DOCUMENTS_URL guarantee_id)
  | Called (PathExists p) => String.eqb p (sample_path guarantee_id DOCUMENT_KIND)
  | Called (ReadText p) => String.eqb p (sample_path guarantee_id DOCUMENT_KIND)
  | _ => false
  end.

Definition no_secondary_fetch `{Platform} (guarantee_id : Z) (e : event) : Prop :=
  is_secondary_fetch guarantee_id e = false.

(** The log of a worker. *)
Definition wk_log `{World W} (s : wkstate (W := W)) : list event := trace (ws s).

(** The worker is at locals [L], having made only calls that satisfy [Q]
    since the state [s0]. *)
Definition at_locals `{World W} (Q : event -> Prop) (L : Locals)
    (s0 s : wkstate (W := W)) : Prop :=
  loc s = L /\ extends Q (wk_log s0) (wk_log s).

(** What holds from the moment the primary page is found missing: the
    status is MISSING, there are no rows, and no call since [s0] fetched
    the secondary page. *)
Definition missing_found `{Platform} `{World W} (guarantee_id : Z)
    (s0 s : wkstate (W := W)) : Prop :=
  is_missing_page (l_general_html (loc s)) = true ->
  l_status (loc s) = MISSING
  /\ l_attributes_rows (loc s) = []
  /\ l_files_rows (loc s) = []
  /\ extends (no_secondary_fetch guarantee_id) (wk_log s0) (wk_log s).

(** The same without the status, which the handlers overwrite. *)
Definition missing_kept `{Platform} `{World W} (guarantee_id : Z)
    (s0 s : wkstate (W := W)) : Prop :=
  is_missing_page (l_general_html (loc s)) = true ->
  l_attributes_rows (loc s) = []
  /\ l_files_rows (loc s) = []
  /\ extends (no_secondary_fetch guarantee_id) (wk_log s0) (wk_log s).

(** What [attempt] leaves behind: the rows and calls of [missing_kept] and,
    on a missing primary page, the status that goes with the outcome of
    the guarded block. *)
Definition attempt_post `{Platform} `{World W} (guarantee_id : Z)
    (s0 : wkstate (W := W)) (outcome : result unit) (s : wkstate (W := W)) : Prop :=
  missing_kept guarantee_id s0 s
  /\ (is_missing_page (l_general_html (loc s)) = true ->
      match outcome with
      | Ok _ => l_status (loc s) = MISSING
      | Raise e =>
          l_status (loc s) = (if is_processing_timeout e then TIMEOUT else ERROR)
      | NoReturn => True
      end).


(** The classification the [except] clauses give to exception [e]. *)
Definition classified (args : Args) (e : exn) (l : Locals) : Prop :=
  if is_processing_timeout e
  then l_status l = TIMEOUT
       /\ l_error_message l
          = ("Timeout after " ++ str_int (per_id_timeout args) ++ "s")%string
       /\ In (exn_msg e) (l_warnings l)
  else l_status l = ERROR /\ l_error_message l = exn_msg e.

(** The two calls of an attempt that no [try] covers: reading the clock for
    the deadline, and building the new driver when the [except] clause
    restarts the browser. *)
Definition raised_outside_guard `{Platform} `{World W} (args : Args)
    (download_dir : string) (e' : exn) : Prop :=
  (exists w : wstate W, fst (perform TimeMonotonic w) = Raise e')
  \/ (is_live args = true
      /\ exists w : wstate W,
           fst (perform (BuildDriver download_dir (headless args) (block_images args)) w)
           = Raise e').

(** An attempt whose guarded block raised ended with the classification of
    the exception; an attempt that raised did so outside the guard. *)
Definition caught `{Platform} `{World W} (args : Args) (download_dir : string)
    (run : result (result unit) * wkstate (W := W)) : Prop :=
  (forall e, fst run = Ok (Raise e) -> classified args e (loc (snd run)))
  /\ fst run <> Ok NoReturn
  /\ (forall e', fst run = Raise e' -> raised_outside_guard args download_dir e').


(** The calls of a worker that finds nothing to process: waiting for its
    turn, starting and stopping the browser. *)
Definition is_idle_call (e : event) : bool :=
  match e with
  | Called (TimeSleep _) | Called (BuildDriver _ _ _) | Called DriverQuit => true
  | _ => false
  end.

Definition idle_call (e : event) : Prop := is_idle_call e = true.

(** An idle call, or saving the retry map [R]. *)
Definition idle_or_resave `{Platform} (R : pydict Z) (e : event) : Prop :=
  idle_call e \/ e = Called (JsonDump KRetry retry_queue_path R).

(** Since [s0] only idle calls were made; the processed IDs are [P] and
    the retry map is [R]. *)
Definition idle `{World W} (P : gset Z) (R : pydict Z)
    (s0 s : wkstate (W := W)) : Prop :=
  processed_ids s = P /\ retry_state s = R
  /\ extends idle_call (wk_log s0) (wk_log s).

(** The three batches of the writers are empty. *)
Definition drained `{World W} (s : wkstate (W := W)) : Prop :=
  guarantees_batch s = [] /\ attributes_batch s = [] /\ files_batch s = [].

(** The rows of a table handed to [to_parquet] so far, oldest first; [sel]
    selects the table. *)
Definition rows_written {R} (sel : batch -> list R) (log : list event) : list R :=
  flat_map (fun e => match e with
                     | Called c =>
                         match c with
                         | ToParquet _ _ b => sel b
                         | _ => []
                         end
                     end)
           (rev log).

Definition guarantee_rows_of (b : batch) : list GuaranteeRow :=
  match b with GuaranteeBatch rows => rows | _ => [] end.

Definition attribute_rows_of (b : batch) : list AttributeRow :=
  match b with AttributeBatch rows => rows | _ => [] end.

Definition file_rows_of (b : batch) : list FileRow :=
  match b with FileBatch rows => rows | _ => [] end.

(** A writer loses no row and writes none twice: after [add] returns, the
    rows written followed by the rows waiting in the batch are those before
    followed by the new ones, and fewer than [BATCH_SIZE] are waiting; when
    [add] does not return, the new rows are waiting in the batch. *)
Definition add_keeps_rows `{Platform} `{World W} {R}
    (getb : wkstate (W := W) -> list R) (sel : batch -> list R)
    (add : list R -> SE (wkstate (W := W)) unit) : Prop :=
  forall records s,
    match add records s with
    | (Ok _, s') =>
        (rows_written sel (wk_log s') ++ getb s'
         = rows_written sel (wk_log s) ++ getb s ++ records)%list
        /\ (List.length (getb s') < BATCH_SIZE)%nat
    | (_, s') => getb s' = (getb s ++ records)%list
    end.

(** After [flush] returns nothing is waiting and what was has been written;
    when it does not return the batch is as it was. *)
Definition flush_keeps_rows `{Platform} `{World W} {R}
    (getb : wkstate (W := W) -> list R) (sel : batch -> list R)
    (flush : SE (wkstate (W := W)) unit) : Prop :=
  forall s,
    match flush s with
    | (Ok _, s') =>
        rows_written sel (wk_log s') = (rows_written sel (wk_log s) ++ getb s)%list
        /\ getb s' = []
        /\ (getb s = [] -> s' = s)
    | (_, s') => getb s' = getb s
    end.

(** The number of records counted in a summary. *)
Definition stats_total (st : Stats) : Z :=
  n_OK st + n_MISSING st + n_ERROR st + n_PARTIAL st + n_TIMEOUT st.

(** The calls of fetching a record: the clocks and the sleeps, the browser,
    and the files of the samples, the snapshots and the attachments.  The
    alarm, the random delay, the date, the processed-ID log, the JSON state
    files and the tables are not among them. *)
Definition is_fetch_call (e : event) : bool :=
  match e with
  | Called c =>
      match c with
      | SignalAlarm _ | RandomUniform _ _ | UtcNowIso | AppendText _ _
      | JsonLoad _ _ | JsonDump _ _ _ | ToParquet _ _ _ => false
      | _ => true
      end
  end.

Definition is_alarm_call (e : event) : bool :=
  match e with
  | Called c => match c with SignalAlarm _ => true | _ => false end
  end.

Definition is_browser_call (e : event) : bool :=
  match e with
  | Called c =>
      match c with
      | BuildDriver _ _ _ | DriverQuit | DriverGet _ | WaitForReady _
      | WaitForAnySelector _ _ | PageSource | CurrentWindowHandle | WindowHandles
      | SwitchToWindow _ | CloseWindow | WindowOpen _ => true
      | _ => false
      end
  end.


Definition no_alarm_call (e : event) : Prop := is_alarm_call e = false.

Definition no_browser_call (e : event) : Prop := is_browser_call e = false.

(** The calls of making the worklist: creating the state directory and
    reading the retry map. *)
Definition worklist_call `{Platform} (e : event) : Prop :=
  e = Called (MkdirParents STATE_DIR)
  \/ e = Called (PathExists retry_queue_path)
  \/ e = Called (JsonLoad KRetry retry_queue_path).

Definition is_pdf_read (e : event) : bool :=
  match e with
  | Called c => match c with PdfReaderPages _ => true | _ => false end
  end.

(** A path the poll may return: a file of the download directory that was
    not there before the download and does not carry the in-progress
    extension. *)
Definition new_complete_file (download_dir : string) (before : list string)
    (path : string) : Prop :=
  exists name, path = download_dir // name
               /\ is_new before name = true
               /\ is_crdownload name = false.

(** The name [download_attachments] plans for the attachment at [index]:
    [<id>_<index>] with the suffix of the stripped original name. *)
Definition planned_name `{Platform} (guarantee_id index : Z) (item : Attachment)
  : string :=
  stored_name guarantee_id index
    (if is_empty (py_strip (att_original_filename item)) then EmptyString
     else path_suffix (py_strip (att_original_filename item))).

(** An event that hands no row of the table [sel] to [to_parquet]. *)
Definition silent {R} (sel : batch -> list R) (e : event) : Prop :=
  match e with
  | Called c => match c with ToParquet _ _ b => sel b | _ => [] end
  end = [].

(** The rows of a table a worker holds: those handed to [to_parquet], then
    those waiting in the batch. *)
Definition recorded `{Platform} `{World W} {R} (sel : batch -> list R)
    (getb : wkstate (W := W) -> list R) (s : wkstate (W := W)) : list R :=
  (rows_written sel (wk_log s) ++ getb s)%list.

(** The suffix [download_attachments] takes from the original name of an
    attachment (line 217). *)
Definition planned_suffix `{Platform} (item : Attachment) : string :=
  if is_empty (py_strip (att_original_filename item)) then EmptyString
  else path_suffix (py_strip (att_original_filename item)).

(** [name] is the most recently modified of [names], whose modification
    times are [mtimes]: no time exceeds its own, and every file before it
    in the list has an earlier one ([max] returns the first of the
    largest). *)
Definition most_recent (names : list string) (mtimes : list Z) (name : string)
  : Prop :=
  exists (i : nat) (t : Z),
    names !! i = Some name
    /\ mtimes !! i = Some t
    /\ (forall (j : nat) (t' : Z), mtimes !! j = Some t' -> t' <= t)
    /\ (forall (j : nat) (t' : Z), (j < i)%nat -> mtimes !! j = Some t' -> t' < t).

(** The stored file is missing or empty (line 304): [exists()] is false,
    or it is true and [stat().st_size] is 0. *)
Definition found_missing_or_empty `{World W} (stored_path : string)
    (s s' : wstate W) : Prop :=
  perform (PathExists stored_path) s = (Ok false, s')
  \/ exists s1, perform (PathExists stored_path) s = (Ok true, s1)
                /\ perform (StatSize stored_path) s1 = (Ok 0, s').

(** * Reasoning about computations *)

Section Monad_facts.

Context {S : Type}.

Lemma bind_ok {A B} (c : SE S A) (k : A -> SE S B) s b s' :
  bind c k s = (Ok b, s') ->
  exists a s1, c s = (Ok a, s1) /\ k a s1 = (Ok b, s').
Proof.
  unfold bind. destruct (c s) as [[a | e |] s1]; intros Hk; try discriminate.
  eauto.
Qed.

Lemma bind_step {A B} (c : SE S A) (k : A -> SE S B) s a s1 :
  c s = (Ok a, s1) -> bind c k s = k a s1.
Proof. unfold bind. intros ->. reflexivity. Qed.

Lemma bind_raise {A B} (c : SE S A) (k : A -> SE S B) s e s1 :
  c s = (Raise e, s1) -> bind c k s = (Raise e, s1).
Proof. unfold bind. intros ->. reflexivity. Qed.

Lemma bind_no_return {A B} (c : SE S A) (k : A -> SE S B) s s1 :
  c s = (NoReturn, s1) -> bind c k s = (NoReturn, s1).
Proof. unfold bind. intros ->. reflexivity. Qed.

Lemma keeps_ret {X A} (f : S -> X) (a : A) : keeps f (ret a).
Proof. intros s. reflexivity. Qed.

Lemma keeps_raise {X A} (f : S -> X) e : keeps f (raise (A := A) e).
Proof. intros s. reflexivity. Qed.

Lemma keeps_pure_call {X A} (f : S -> X) (r : result A) :
  keeps f (fun s : S => (r, s)).
Proof. intros s. reflexivity. Qed.

Lemma keeps_get {X} (f : S -> X) : keeps f get_state.
Proof. intros s. reflexivity. Qed.

Lemma keeps_bind {X A B} (f : S -> X) (c : SE S A) (k : A -> SE S B) :
  keeps f c -> (forall a, keeps f (k a)) -> keeps f (bind c k).
Proof.
  intros Hc Hk s. unfold bind. specialize (Hc s).
  destruct (c s) as [[a | e |] s1]; simpl in *; try exact Hc.
  rewrite Hk. exact Hc.
Qed.

Lemma keeps_modify {X} (f : S -> X) (g : S -> S) :
  (forall s, f (g s) = f s) -> keeps f (modify g).
Proof. intros Hg s. apply Hg. Qed.

Lemma keeps_try {X A} (f : S -> X) (c : SE S A) : keeps f c -> keeps f (try_ c).
Proof.
  intros Hc s. unfold try_. specialize (Hc s).
  destruct (c s) as [[a | e |] s1]; exact Hc.
Qed.

Lemma keeps_finally {X A} (f : S -> X) (c : SE S A) (fin : SE S unit) :
  keeps f c -> keeps f fin -> keeps f (finally_ c fin).
Proof.
  intros Hc Hf s. unfold finally_. specialize (Hc s).
  destruct (c s) as [[a | e |] s1]; simpl in *; try exact Hc;
    specialize (Hf s1); destruct (fin s1) as [[u | e' |] s2]; simpl in *; congruence.
Qed.

Lemma keeps_for_each {X A} (f : S -> X) (l : list A) (body : A -> SE S unit) :
  (forall a, keeps f (body a)) -> keeps f (for_each l body).
Proof.
  intros Hb. induction l as [| a l IH]; simpl.
  - apply keeps_ret.
  - apply keeps_bind; auto.
Qed.

Lemma keeps_map_m {X A B} (f : S -> X) (g : A -> SE S B) (l : list A) :
  (forall a, keeps f (g a)) -> keeps f (map_m g l).
Proof.
  intros Hg. induction l as [| a l IH]; simpl.
  - apply keeps_ret.
  - apply keeps_bind; [auto |]. intros b. apply keeps_bind; [auto |].
    intros bs. apply keeps_ret.
Qed.

Lemma keeps_if {X A} (f : S -> X) (b : bool) (c1 c2 : SE S A) :
  keeps f c1 -> keeps f c2 -> keeps f (if b then c1 else c2).
Proof. destruct b; auto. Qed.

Lemma keeps_zoom {X T A} (f : S -> X) (proj : S -> T) (inj : T -> S -> S)
    (c : SE T A) :
  (forall t s, f (inj t s) = f s) -> keeps f (zoom proj inj c).
Proof.
  intros Hinj s. unfold zoom. destruct (c (proj s)) as [r t]. simpl. apply Hinj.
Qed.

End Monad_facts.

Create HintDb keeps.
#[export] Hint Resolve keeps_ret keeps_raise keeps_pure_call keeps_get keeps_bind
  keeps_modify keeps_try keeps_finally keeps_for_each keeps_map_m keeps_if
  keeps_zoom : keeps.

(** ** Python dictionaries *)

Lemma dict_get_set_eq {V} (k : string) (v : V) (d : pydict V) :
  dict_get k (dict_set k v d) = Some v.
Proof.
  induction d as [| [k' v'] d IH]; simpl.
  - rewrite String.eqb_refl. reflexivity.
  - destruct (String.eqb k k') eqn:E; simpl.
    + rewrite String.eqb_refl. reflexivity.
    + rewrite E. exact IH.
Qed.

Lemma dict_get_pop_eq {V} (k : string) (d : pydict V) :
  dict_get k (dict_pop k d) = None.
Proof.
  induction d as [| [k' v'] d IH]; simpl; [reflexivity |].
  destruct (String.eqb k k') eqn:E; simpl; [exact IH |].
  rewrite E. exact IH.
Qed.

Lemma dict_get_set_ne {V} (k k' : string) (v : V) (d : pydict V) :
  k <> k' -> dict_get k' (dict_set k v d) = dict_get k' d.
Proof.
  intros Hne. induction d as [| [k0 v0] d IH]; simpl.
  - destruct (String.eqb_spec k' k); [congruence | reflexivity].
  - destruct (String.eqb_spec k k0) as [-> | Hk]; simpl.
    + destruct (String.eqb_spec k' k0); [congruence | reflexivity].
    + destruct (String.eqb_spec k' k0); [reflexivity | exact IH].
Qed.

Lemma dict_get_pop_ne {V} (k k' : string) (d : pydict V) :
  k <> k' -> dict_get k' (dict_pop k d) = dict_get k' d.
Proof.
  intros Hne. induction d as [| [k0 v0] d IH]; simpl; [reflexivity |].
  destruct (String.eqb_spec k k0) as [-> | Hk]; simpl.
  - destruct (String.eqb_spec k' k0); [congruence | exact IH].
  - destruct (String.eqb_spec k' k0); [reflexivity | exact IH].
Qed.

(** ** The retry state *)

Lemma update_retry_state_success (st : Status) (id max : Z) (rs : pydict Z) :
  is_retryable st = false ->
  dict_get (str_int id) (update_retry_state st id max rs) = None.
Proof.
  destruct st; simpl; try discriminate; intros _; apply dict_get_pop_eq.
Qed.

Lemma update_retry_state_failure (st : Status) (id max : Z) (rs : pydict Z) :
  is_retryable st = true ->
  dict_get (str_int id) (update_retry_state st id max rs)
  = (if Z.ltb (default 0 (dict_get (str_int id) rs) + 1) max
     then Some (default 0 (dict_get (str_int id) rs) + 1)
     else None).
Proof.
  destruct st; simpl; try discriminate; intros _;
    destruct (Z.ltb _ max); auto using dict_get_set_eq, dict_get_pop_eq.
Qed.

Lemma record_attempts_count (statuses : list Status) (id max : Z) :
  Forall (fun st => is_retryable st = true) statuses ->
  forall (rs : pydict Z) (c : Z),
  default 0 (dict_get (str_int id) rs) = c ->
  (c + Z.of_nat (List.length statuses) < max)%Z ->
  default 0 (dict_get (str_int id) (record_attempts statuses id max rs))
  = (c + Z.of_nat (List.length statuses))%Z
  /\ (statuses <> [] ->
      dict_get (str_int id) (record_attempts statuses id max rs)
      = Some (c + Z.of_nat (List.length statuses))%Z).
Proof.
  induction 1 as [| st statuses Hst Hall IH]; intros rs c Hc Hbound.
  - simpl. split; [lia | congruence].
  - unfold record_attempts in *. simpl in *.
    pose proof (update_retry_state_failure st id max rs Hst) as Hupd.
    rewrite Hc in Hupd.
    destruct (Z.ltb_spec (c + 1) max) as [Hlt | Hge]; [| lia].
    assert (Hc' : default 0 (dict_get (str_int id) (update_retry_state st id max rs))
                  = (c + 1)%Z) by (rewrite Hupd; reflexivity).
    destruct (IH _ _ Hc') as [IH1 IH2]; [lia |].
    split.
    + rewrite IH1. lia.
    + intros _. destruct statuses as [| st' statuses'].
      * simpl. rewrite Hupd. f_equal; lia.
      * rewrite IH2 by congruence. f_equal; simpl; lia.
Qed.

Lemma keeps_run {S X A} (f : S -> X) (c : SE S A) s r s' :
  keeps f c -> c s = (r, s') -> f s' = f s.
Proof. intros Hk Hc. specialize (Hk s). rewrite Hc in Hk. exact Hk. Qed.

(** Taking a successful chain of binds apart; the steps that only read or
    write the state are resolved on the way. *)
Ltac inv_bind H :=
  repeat match type of H with
         | bind _ _ _ = (Ok _, _) =>
             let a := fresh "a" in
             let s := fresh "s" in
             let Hs := fresh "Hstep" in
             apply bind_ok in H as (a & s & Hs & H)
         end.

Ltac run_simple :=
  repeat match goal with
         | H : ret _ _ = (_, _) |- _ => unfold ret in H; inversion H; subst; clear H
         | H : modify _ _ = (_, _) |- _ =>
             unfold modify in H; inversion H; subst; clear H
         | H : get_state _ = (_, _) |- _ =>
             unfold get_state in H; inversion H; subst; clear H
         end.

(** Every remaining step [c s = (r, s')] that keeps the part [f] of the
    state is replaced by [f s' = f s]; [tac] shows that it keeps it. *)
Ltac frame_steps f tac :=
  repeat match goal with
         | H : ?c ?s = (_, ?s') |- _ =>
             let K := fresh "Keep" in
             assert (K : f s' = f s) by (eapply keeps_run; [| exact H]; tac);
             clear H
         end.

(** Showing that a computation keeps a part of the state. *)
Ltac keep :=
  repeat first
    [ apply keeps_ret
    | apply keeps_get
    | apply keeps_raise
    | apply keeps_pure_call
    | apply keeps_modify; intros; reflexivity
    | apply keeps_zoom; intros; reflexivity
    | apply keeps_try
    | apply keeps_finally
    | apply keeps_for_each; intros ?
    | apply keeps_map_m; intros ?
    | apply keeps_bind; [| intros ?]
    | match goal with
      | |- keeps _ (if ?b then _ else _) => destruct b
      | |- keeps _ (match ?x with _ => _ end) => destruct x
      end ].

Section Program_facts.

Context `{Platform} `{World W}.

Local Abbreviation M := (SE (wstate W)).
Local Abbreviation Wk := (SE (wkstate (W := W))).

Lemma keeps_io {X A} (f : wkstate -> X) (c : M A) :
  (forall v s, f (set_ws v s) = f s) -> keeps f (io c).
Proof. intros Hf. apply keeps_zoom. exact Hf. Qed.

Lemma keeps_locals {X} (f : wkstate (W := W) -> X) : keeps f locals.
Proof. intros s. reflexivity. Qed.

Lemma keeps_assign {X} (f : wkstate (W := W) -> X) (g : Locals -> Locals) :
  (forall v s, f (set_loc v s) = f s) -> keeps f (assign g).
Proof. intros Hf s. unfold assign, modify. simpl. apply Hf. Qed.

Lemma keeps_assign_field {X} (f : Locals -> X) (g : Locals -> Locals) :
  (forall l, f (g l) = f l) ->
  keeps (fun s : wkstate (W := W) => f (loc s)) (assign g).
Proof. intros Hf s. unfold assign, modify. simpl. apply Hf. Qed.

Lemma keeps_writer_flush {X R} (f : wkstate (W := W) -> X)
    (getb : wkstate -> list R) setb mk dir prefix :
  (forall v s, f (set_ws v s) = f s) ->
  (forall v s, f (setb v s) = f s) ->
  keeps f (writer_flush getb setb mk dir prefix).
Proof.
  intros Hws Hb. unfold writer_flush. apply keeps_bind; [apply keeps_get |].
  intros s. destruct (getb s); [apply keeps_ret |].
  apply keeps_bind; [apply keeps_io; exact Hws |].
  intros _. apply keeps_modify. intros s'. apply Hb.
Qed.

Lemma keeps_writer_add {X R} (f : wkstate (W := W) -> X)
    (getb : wkstate -> list R) setb mk dir prefix records :
  (forall v s, f (set_ws v s) = f s) ->
  (forall v s, f (setb v s) = f s) ->
  keeps f (writer_add getb setb mk dir prefix records).
Proof.
  intros Hws Hb. unfold writer_add.
  apply keeps_bind; [apply keeps_modify; intros s; apply Hb |].
  intros _. apply keeps_bind; [apply keeps_get |].
  intros s. destruct (Nat.leb _ _); [| apply keeps_ret].
  apply keeps_writer_flush; assumption.
Qed.

Lemma keeps_guarantees_add {X} (f : wkstate (W := W) -> X) run_id worker_id rows :
  (forall v s, f (set_ws v s) = f s) ->
  (forall v s, f (set_guarantees_batch v s) = f s) ->
  keeps f (guarantees_add run_id worker_id rows).
Proof. apply keeps_writer_add. Qed.

Lemma keeps_attributes_add {X} (f : wkstate (W := W) -> X) run_id worker_id rows :
  (forall v s, f (set_ws v s) = f s) ->
  (forall v s, f (set_attributes_batch v s) = f s) ->
  keeps f (attributes_add run_id worker_id rows).
Proof. apply keeps_writer_add. Qed.

Lemma keeps_files_add {X} (f : wkstate (W := W) -> X) run_id worker_id rows :
  (forall v s, f (set_ws v s) = f s) ->
  (forall v s, f (set_files_batch v s) = f s) ->
  keeps f (files_add run_id worker_id rows).
Proof. apply keeps_writer_add. Qed.

(** A step of a worker that touches only the world and the batches. *)
Ltac keep_wk :=
  first [ apply keeps_io; intros; reflexivity
        | apply keeps_locals
        | apply keeps_assign; intros; reflexivity
        | apply keeps_guarantees_add; intros; reflexivity
        | apply keeps_attributes_add; intros; reflexivity
        | apply keeps_files_add; intros; reflexivity
        | apply keeps_writer_add; intros; reflexivity
        | apply keeps_writer_flush; intros; reflexivity ].

(** The retry state after [persist] is the one before, updated for this ID
    and the status it ended with. *)
Lemma persist_retry_state (args : Args) (run_id worker_id guarantee_id : Z)
    (s s' : wkstate) :
  persist args run_id worker_id guarantee_id s = (Ok tt, s') ->
  retry_state s'
  = update_retry_state (l_status (loc s)) guarantee_id (max_retries args)
                       (retry_state s).
Proof.
  unfold persist. intros Hrun. inv_bind Hrun.
  unfold locals in *.
  repeat match goal with
         | H : (Ok _, _) = (Ok _, _) |- _ => inversion H; subst; clear H
         end.
  run_simple.
  frame_steps (retry_state (W := W)) keep_wk.
  simpl in *. congruence.
Qed.

(** Persisting an ID puts it among the processed IDs. *)
Lemma persist_processed_ids (args : Args) (run_id worker_id guarantee_id : Z)
    (s s' : wkstate) :
  persist args run_id worker_id guarantee_id s = (Ok tt, s') ->
  processed_ids s' = {[ guarantee_id ]} ∪ processed_ids s.
Proof.
  unfold persist. intros Hrun. inv_bind Hrun.
  unfold locals in *.
  repeat match goal with
         | H : (Ok _, _) = (Ok _, _) |- _ => inversion H; subst; clear H
         end.
  run_simple.
  frame_steps (processed_ids (W := W)) keep_wk.
  simpl in *. congruence.
Qed.

(** The summary after [persist] counts the record under its status and its
    file rows under FILES. *)
Lemma persist_stats (args : Args) (run_id worker_id guarantee_id : Z)
    (s s' : wkstate) :
  persist args run_id worker_id guarantee_id s = (Ok tt, s') ->
  stats s'
  = stats_add_files (Z.of_nat (List.length (l_files_rows (loc s))))
                    (stats_bump (l_status (loc s)) (stats s)).
Proof.
  unfold persist. intros Hrun. inv_bind Hrun.
  unfold locals in *.
  repeat match goal with
         | H : (Ok _, _) = (Ok _, _) |- _ => inversion H; subst; clear H
         end.
  run_simple.
  frame_steps (stats (W := W)) keep_wk.
  simpl in *. congruence.
Qed.

End Program_facts.

Lemma record_attempts_app (a b : list Status) (id max : Z) (rs : pydict Z) :
  record_attempts (a ++ b) id max rs
  = record_attempts b id max (record_attempts a id max rs).
Proof. unfold record_attempts. apply fold_left_app. Qed.

Lemma record_attempts_exhausted (statuses : list Status) (id max : Z) (rs : pydict Z) :
  Forall (fun st => is_retryable st = true) statuses ->
  dict_get (str_int id) rs = None ->
  (1 <= Z.of_nat (List.length statuses) <= max)%Z ->
  dict_get (str_int id) (record_attempts statuses id max rs)
  = (if Z.ltb (Z.of_nat (List.length statuses)) max
     then Some (Z.of_nat (List.length statuses))
     else None).
Proof.
  intros Hall Hfresh Hlen.
  destruct (Z.ltb_spec (Z.of_nat (List.length statuses)) max) as [Hlt | Hge].
  - destruct (record_attempts_count statuses id max Hall rs 0%Z) as [_ Hsome];
      [rewrite Hfresh; reflexivity | lia |].
    rewrite Hsome; [f_equal; lia |].
    intros ->. simpl in Hlen. lia.
  - destruct (@exists_last _ statuses) as (init & st & ->).
    { intros ->. simpl in Hlen. lia. }
    rewrite length_app in *. simpl in *.
    apply Forall_app in Hall as [Hinit Hlast].
    apply Forall_inv in Hlast.
    rewrite record_attempts_app.
    destruct (record_attempts_count init id max Hinit rs 0%Z) as [Hcount _];
      [rewrite Hfresh; reflexivity | lia |].
    unfold record_attempts at 1. simpl.
    rewrite (update_retry_state_failure st id max _ Hlast), Hcount.
    destruct (Z.ltb_spec (0 + Z.of_nat (List.length init) + 1) max); [lia | reflexivity].
Qed.

(** C5.  After the state update of [persist] for an ID: when the status is
    OK or MISSING the ID has no entry in the retry state; when it is ERROR,
    PARTIAL or TIMEOUT the attempt count is incremented and the entry is
    kept only while the incremented count is below [max_retries].  Hence,
    starting without an entry, an ID that fails on every attempt has count
    [n] after [n < max_retries] attempts and no entry after exactly
    [max_retries] attempts. *)
Theorem retry_state_after_update `{Platform} `{World W}
    (args : Args) (run_id worker_id guarantee_id : Z) (s s' : wkstate (W := W)) :
  persist args run_id worker_id guarantee_id s = (Ok tt, s') ->
  (is_retryable (l_status (loc s)) = false ->
   dict_get (str_int guarantee_id) (retry_state s') = None)
  /\ (is_retryable (l_status (loc s)) = true ->
      dict_get (str_int guarantee_id) (retry_state s')
      = (if Z.ltb (default 0 (dict_get (str_int guarantee_id) (retry_state s)) + 1)
                  (max_retries args)
         then Some (default 0 (dict_get (str_int guarantee_id) (retry_state s)) + 1)
         else None))
  /\ (forall (statuses : list Status) (rs : pydict Z),
        Forall (fun st => is_retryable st = true) statuses ->
        dict_get (str_int guarantee_id) rs = None ->
        (1 <= Z.of_nat (List.length statuses) <= max_retries args)%Z ->
        dict_get (str_int guarantee_id)
                 (record_attempts statuses guarantee_id (max_retries args) rs)
        = (if Z.ltb (Z.of_nat (List.length statuses)) (max_retries args)
           then Some (Z.of_nat (List.length statuses))
           else None)).
Proof.
  intros Hrun. rewrite (persist_retry_state _ _ _ _ _ _ Hrun).
  split; [| split].
  - apply update_retry_state_success.
  - apply update_retry_state_failure.
  - intros statuses rs. apply record_attempts_exhausted.
Qed.

(** ** The processed-ID log *)

Section Storage_facts.

Context `{Platform} `{World W}.

Lemma add_processed_lines_spec (lines : list string) (acc : gset Z) (n : Z) :
  n ∈ fold_left add_processed_line lines acc <-> n ∈ acc \/ parses_to lines n.
Proof.
  revert acc. induction lines as [| line lines IH]; intros acc; simpl.
  - split; [auto | intros [? | (l & [] & _)]; assumption].
  - rewrite IH. unfold add_processed_line, parses_to.
    destruct (is_empty (py_strip line)) eqn:Hblank.
    + split.
      * intros [? | (l & Hin & Hl)]; [auto | right; exists l; simpl; tauto].
      * intros [? | (l & [<- | Hin] & Hne & Hl)]; [auto | congruence |].
        right. exists l. tauto.
    + destruct (py_int (py_strip line)) as [m |] eqn:Hint.
      * rewrite elem_of_union, elem_of_singleton. split.
        -- intros [[-> | ?] | (l & Hin & Hl)]; [| auto |].
           ++ right. exists line. simpl. tauto.
           ++ right. exists l. simpl. tauto.
        -- intros [? | (l & [<- | Hin] & Hne & Hl)]; [auto | |].
           ++ left. left. congruence.
           ++ right. exists l. tauto.
      * split.
        -- intros [? | (l & Hin & Hl)]; [auto | right; exists l; simpl; tauto].
        -- intros [? | (l & [<- | Hin] & Hne & Hl)]; [auto | congruence |].
           right. exists l. tauto.
Qed.

End Storage_facts.

(** C10.  [load_processed_ids] on a path that does not exist returns the
    empty set.  On a path that exists and whose content is read as the text
    [text] it returns, whatever the text, exactly the integers of the lines
    that are not blank and parse as integers; blank lines and lines that do
    not parse are skipped.  When reading the file raises (its bytes are not
    UTF-8, for one), the exception is not handled. *)
Theorem load_processed_ids_spec `{Platform} `{World W}
    (path : string) (s : wstate W) (present : bool) (w1 : W) :
  handle bool (PathExists path) (world s) = (Ok present, w1) ->
  (present = false -> fst (load_processed_ids path s) = Ok ∅)
  /\ (present = true ->
      forall (text : string) (w2 : W),
        handle string (ReadText path) w1 = (Ok text, w2) ->
        exists ids : gset Z,
          fst (load_processed_ids path s) = Ok ids
          /\ forall n, n ∈ ids <-> parses_to (py_splitlines text) n)
  /\ (present = true ->
      forall (e : exn) (w2 : W),
        handle string (ReadText path) w1 = (Raise e, w2) ->
        fst (load_processed_ids path s) = Raise e).
Proof.
  intros Hexists. unfold load_processed_ids, bind, perform. rewrite Hexists.
  split; [| split].
  - intros ->. reflexivity.
  - intros -> text w2 Hread. simpl. rewrite Hread. simpl.
    eexists. split; [reflexivity |].
    intros n. rewrite add_processed_lines_spec. rewrite elem_of_empty. tauto.
  - intros -> e w2 Hread. simpl. rewrite Hread. reflexivity.
Qed.

(** ** Classification by the file rows *)

Lemma is_failed_row_failure (row : FileRow) :
  is_failed_row row = is_failure (f_download_status row).
Proof. unfold is_failed_row. destruct (f_download_status row); reflexivity. Qed.

Lemma filter_failed_rows (rows : list FileRow) :
  List.filter is_failed_row rows = failed_rows rows.
Proof.
  unfold failed_rows. apply List.filter_ext. intros row. apply is_failed_row_failure.
Qed.

Lemma downgrade_keeps_not_ok (l : Locals) :
  l_status l <> OK -> downgrade_on_message l = l.
Proof. unfold downgrade_on_message. destruct (l_status l); simpl; congruence. Qed.

(** C3.  For locals with file rows, after the classification of lines
    306-319: when no row failed the file rule changes nothing; when every
    row failed the status is ERROR whatever it was before, TIMEOUT
    included; when some but not all rows failed the status becomes PARTIAL
    only if it was still OK and is otherwise left as it was (ERROR, TIMEOUT,
    PARTIAL); whenever a row failed, a warning with the ratio failed/total
    is appended. *)
Theorem classify_by_file_rows (l : Locals) :
  l_files_rows l <> [] ->
  (failed_rows (l_files_rows l) = [] -> classify_files l = l)
  /\ (failed_rows (l_files_rows l) <> [] ->
      l_warnings (classify l)
      = (l_warnings l
         ++ [failures_warning (List.length (failed_rows (l_files_rows l)))
                              (List.length (l_files_rows l))])%list)
  /\ (List.length (failed_rows (l_files_rows l)) = List.length (l_files_rows l) ->
      l_status (classify l) = ERROR)
  /\ (failed_rows (l_files_rows l) <> [] ->
      List.length (failed_rows (l_files_rows l)) <> List.length (l_files_rows l) ->
      l_status (classify l) = (if status_eqb (l_status l) OK then PARTIAL else l_status l)).
Proof.
  intros Hrows. unfold classify, classify_files. rewrite filter_failed_rows.
  destruct l as [st msg warns attrs rows atts ghtml dhtml]. simpl in *.
  destruct rows as [| row rows]; [congruence |].
  set (failed := failed_rows (row :: rows)).
  split; [| split; [| split]].
  - intros ->. reflexivity.
  - intros Hf. destruct failed eqn:E; [congruence |].
    destruct (Nat.eqb _ _); [reflexivity |].
    destruct st; reflexivity.
  - intros Hall. destruct failed eqn:E; [discriminate |].
    rewrite Hall, Nat.eqb_refl. reflexivity.
  - intros Hf Hsome. destruct failed as [| f fs] eqn:E; [congruence |].
    destruct (Nat.eqb_spec (List.length (f :: fs)) (List.length (row :: rows)));
      [congruence |].
    destruct st; reflexivity.
Qed.

(** ** Postconditions *)

Section Ensures_facts.

Context {S : Type}.

Lemma ensures_ret {A} (a : A) (P : A -> Prop) : P a -> ensures (S := S) (ret a) P.
Proof. intros Ha s a' s' Hr. inversion Hr. subst. exact Ha. Qed.

Lemma ensures_bind {A B} (c : SE S A) (k : A -> SE S B) (P : B -> Prop) :
  (forall a, ensures (k a) P) -> ensures (bind c k) P.
Proof.
  intros Hk s b s' Hr. apply bind_ok in Hr as (a & s1 & _ & Hr). eapply Hk, Hr.
Qed.

Lemma ensures_raise {A} e (P : A -> Prop) : ensures (S := S) (raise e) P.
Proof. intros s a s' Hr. discriminate. Qed.

Lemma ensures_no_return {A} (P : A -> Prop) : ensures (S := S) no_return P.
Proof. intros s a s' Hr. discriminate. Qed.

End Ensures_facts.

Ltac ens :=
  repeat first
    [ apply ensures_raise
    | apply ensures_no_return
    | apply ensures_bind; intros ?
    | match goal with
      | |- ensures (if ?b then _ else _) _ => destruct b
      | |- ensures (match ?x with _ => _ end) _ => destruct x
      end ].

(** ** The world state *)

Lemma perform_run `{World W} {A} (c : call A) (s : wstate W) :
  perform c s
  = (fst (handle A c (world s)),
     {| world := snd (handle A c (world s)); trace := Called c :: trace s |}).
Proof. unfold perform. destruct (handle A c (world s)). reflexivity. Qed.

Lemma perform_ok `{World W} {A} (c : call A) (s : wstate W) (a : A) (w' : W) :
  handle A c (world s) = (Ok a, w') ->
  perform c s = (Ok a, {| world := w'; trace := Called c :: trace s |}).
Proof. intros Hc. rewrite perform_run, Hc. reflexivity. Qed.

(** ** download_attachments *)

Section Downloader_facts.

Context `{Platform} `{World W}.

Local Abbreviation M := (SE (wstate W)).

Lemma record_stored_row (run_id guarantee_id index : Z)
    (original_name download_url : string) (document_index : Z)
    (document_number stored_filename stored_path : string) (P : FileRow -> Prop) :
  (forall stored_filename stored_path pages mime status sha,
      P {| f_run_id := run_id; f_id := guarantee_id; f_file_index := index;
           f_stored_filename := stored_filename; f_stored_path := stored_path;
           f_original_filename := original_name; f_download_url := download_url;
           f_document_index := document_index; f_document_number := document_number;
           f_page_count := pages; f_mime_type := mime;
           f_download_status := status; f_sha256 := sha |}) ->
  ensures (record_stored (W := W) run_id guarantee_id index original_name download_url
             document_index document_number stored_filename stored_path) P.
Proof.
  intros HP. unfold record_stored, failed_row. ens; apply ensures_ret; apply HP.
Qed.

Lemma download_one_row (fuel : nat) (run_id guarantee_id : Z)
    (id_dir download_dir : string) (force : bool) (timeout stall_seconds index : Z)
    (item : Attachment) :
  ensures (download_one (W := W) fuel run_id guarantee_id id_dir download_dir force
             timeout stall_seconds index item)
          (row_for run_id guarantee_id index item).
Proof.
  unfold download_one, store_download, failed_row.
  ens;
    first [ apply ensures_ret; repeat split
          | apply record_stored_row; intros; repeat split ].
Qed.

Lemma download_loop_rows (fuel : nat) (run_id guarantee_id : Z)
    (id_dir download_dir : string) (force : bool) (timeout stall_seconds : Z)
    (items : list Attachment) :
  forall (index : Z) (s : wstate W) (rows : list FileRow) (s' : wstate W),
    download_loop fuel run_id guarantee_id id_dir download_dir force
                  timeout stall_seconds index items s = (Ok rows, s') ->
    List.length rows = List.length items
    /\ forall (i : nat) (item : Attachment),
        items !! i = Some item ->
        exists row, rows !! i = Some row
                    /\ row_for run_id guarantee_id (index + Z.of_nat i) item row.
Proof.
  induction items as [| item items IH]; intros index s rows s' Hrun; simpl in Hrun.
  - inversion Hrun. subst. split; [reflexivity |]. intros i it Hi. discriminate.
  - inv_bind Hrun. inversion Hrun. subst. clear Hrun.
    apply IH in Hstep0 as [Hlen Hrows].
    apply download_one_row in Hstep.
    split; [simpl; congruence |].
    intros [| i] it Hi; simpl in *.
    + inversion Hi. subst. exists a. split; [reflexivity |].
      rewrite Z.add_0_r. exact Hstep.
    + destruct (Hrows i it Hi) as (row & Hrow & Hfor).
      exists row. split; [exact Hrow |].
      replace (index + Z.of_nat (S i))%Z with (index + 1 + Z.of_nat i)%Z by lia.
      exact Hfor.
Qed.

End Downloader_facts.

(** ** Returning in a steady world *)

Section Steady_facts.

Context `{Platform} `{World W}.
Variable clk : W -> Z.
Hypothesis Hsteady : steady clk.

Local Abbreviation M := (SE (wstate W)).

Lemma sound_ret {A} (a : A) : sound clk (ret a).
Proof. intros s. exists a, s. split; [reflexivity | lia]. Qed.

Lemma sound_perform {A} (c : call A) : sound clk (perform c).
Proof.
  intros s. destruct (calls_return clk Hsteady A c (world s)) as (a & w' & Hc).
  exists a, {| world := w'; trace := Called c :: trace s |}.
  split; [apply perform_ok; exact Hc |].
  pose proof (clock_forward clk Hsteady A c (world s)) as Hf.
  rewrite Hc in Hf. exact Hf.
Qed.

Lemma sound_bind {A B} (c : M A) (k : A -> M B) :
  sound clk c -> (forall a, sound clk (k a)) -> sound clk (bind c k).
Proof.
  intros Hc Hk s. destruct (Hc s) as (a & s1 & Hrun & Hclk).
  destruct (Hk a s1) as (b & s2 & Hrun' & Hclk').
  exists b, s2. split; [rewrite (bind_step _ _ _ _ _ Hrun); exact Hrun' | lia].
Qed.

Lemma sound_try_bind {A B} (c : M A) (k : result A -> M B) :
  sound clk c -> (forall a, sound clk (k (Ok a))) -> sound clk (bind (try_ c) k).
Proof.
  intros Hc Hk s. destruct (Hc s) as (a & s1 & Hrun & Hclk).
  destruct (Hk a s1) as (b & s2 & Hrun' & Hclk').
  exists b, s2. split; [| lia].
  unfold bind, try_. rewrite Hrun. exact Hrun'.
Qed.

Lemma sound_finally {A} (c : M A) (fin : M unit) :
  sound clk c -> sound clk fin -> sound clk (finally_ c fin).
Proof.
  intros Hc Hf s. destruct (Hc s) as (a & s1 & Hrun & Hclk).
  destruct (Hf s1) as (u & s2 & Hrun' & Hclk').
  exists a, s2. split; [| lia]. unfold finally_. rewrite Hrun, Hrun'. reflexivity.
Qed.

Lemma sound_for_each {A} (l : list A) (body : A -> M unit) :
  (forall a, sound clk (body a)) -> sound clk (for_each l body).
Proof.
  intros Hb. induction l as [| a l IH]; simpl.
  - apply sound_ret.
  - apply sound_bind; auto.
Qed.

Lemma sound_map_m {A B} (f : A -> M B) (l : list A) :
  (forall a, sound clk (f a)) -> sound clk (map_m f l).
Proof.
  intros Hf. induction l as [| a l IH]; simpl.
  - apply sound_ret.
  - apply sound_bind; [auto |]. intros b. apply sound_bind; [auto |].
    intros bs. apply sound_ret.
Qed.

Ltac snd_step :=
  first
    [ apply sound_ret
    | apply sound_perform
    | apply sound_try_bind; [| intros ?]
    | apply sound_bind; [| intros ?]
    | apply sound_finally
    | apply sound_for_each; intros ?
    | apply sound_map_m; intros ?
    | match goal with
      | |- sound _ (if ?b then _ else _) => destruct b
      | |- sound _ (match ?x with _ => _ end) => destruct x
      end ].

Ltac snd_all := repeat snd_step.

Lemma sound_pdf_read_retry (n : nat) (path : string) (delay : Z) :
  sound clk (pdf_read_retry n path delay).
Proof. induction n as [| n IH]; simpl; snd_all. Qed.

Lemma sound_pdf_page_count (path : string) : sound clk (pdf_page_count path).
Proof. unfold pdf_page_count. snd_all; try apply sound_pdf_read_retry. Qed.

Lemma sound_open_download (url : string) : sound clk (_open_download url).
Proof. unfold _open_download. snd_all. Qed.

Lemma sound_close_download_tab (main_handle : string) (dh : option string) :
  sound clk (_close_download_tab main_handle dh).
Proof. unfold _close_download_tab. snd_all. Qed.

Lemma sound_detect_download_error (dh : option string) :
  sound clk (_detect_download_error dh).
Proof. unfold _detect_download_error. snd_all. Qed.

Lemma sound_update_progress (dir : string) (names : list string) :
  forall progress, sound clk (update_progress dir names progress).
Proof.
  induction names as [| n names IH]; intros progress; simpl; snd_all; apply IH.
Qed.

Lemma sound_max_by_mtime (dir : string) (names : list string) :
  sound clk (max_by_mtime dir names).
Proof. unfold max_by_mtime. snd_all. Qed.

Lemma sound_check_completed (dir : string) (completed : list string)
    (progress : gmap string (Z * Z)) (stable : Z) :
  sound clk (check_completed dir completed progress stable).
Proof.
  unfold check_completed. destruct completed; [apply sound_ret |].
  apply sound_bind; [apply sound_max_by_mtime |]. intros latest. snd_all.
Qed.

Lemma sound_check_stalled (dir : string) (in_progress : list string)
    (progress : gmap string (Z * Z)) (stall : Z) :
  sound clk (check_stalled dir in_progress progress stall).
Proof.
  unfold check_stalled. destruct in_progress; [apply sound_ret |].
  apply sound_bind; [apply sound_max_by_mtime |]. intros latest. snd_all.
Qed.

(** With the deadline at most [fuel] seconds ahead of the clock, the poll
    returns within [S fuel] turns. *)
Lemma wait_loop_returns (dh : option string) (dir : string) (before : list string)
    (deadline stable stall : Z) (fuel : nat) :
  forall (progress : gmap string (Z * Z)) (s : wstate W),
    deadline <= clk (world s) + 1000 * Z.of_nat fuel ->
    exists a s',
      wait_loop (S fuel) dh dir before deadline stable stall progress s = (Ok a, s')
      /\ clk (world s) <= clk (world s').
Proof.
  induction fuel as [| fuel IH]; intros progress s Hdeadline.
  - destruct (calls_return clk Hsteady Z TimeTime (world s)) as (t & w' & Ht).
    pose proof (clock_read clk Hsteady _ _ _ Ht) as [Hlo Hhi].
    exists (None, Some FAILED_TIMEOUT), {| world := w'; trace := Called TimeTime :: trace s |}.
    split; [| simpl; lia].
    cbn [wait_loop]. rewrite (bind_step _ _ _ _ _ (perform_ok _ _ _ _ Ht)).
    destruct (Z.ltb_spec t deadline); [lia | reflexivity].
  - destruct (calls_return clk Hsteady Z TimeTime (world s)) as (t & w' & Ht).
    pose proof (clock_read clk Hsteady _ _ _ Ht) as [Hlo Hhi].
    set (s1 := {| world := w'; trace := Called TimeTime :: trace s |}).
    remember (S fuel) as n eqn:Hn.
    cbn [wait_loop]. rewrite (bind_step _ _ _ _ _ (perform_ok _ _ _ _ Ht)).
    fold s1. assert (Hs1 : clk (world s) <= clk (world s1)) by (simpl; lia).
    destruct (Z.ltb_spec t deadline) as [Hlt | Hge]; cbn [negb].
    2: { exists (None, Some FAILED_TIMEOUT), s1. split; [reflexivity | exact Hs1]. }
    destruct (sound_detect_download_error dh s1) as (err & s2 & Hdet & Hc2).
    rewrite (bind_step _ _ _ _ _ Hdet).
    destruct err as [e |].
    { exists (None, Some e), s2. split; [reflexivity | lia]. }
    destruct (sound_perform (ListFiles dir) s2) as (files & s3 & Hls & Hc3).
    rewrite (bind_step _ _ _ _ _ Hls).
    destruct (sound_update_progress dir (new_files before files) progress s3)
      as (progress' & s4 & Hup & Hc4).
    rewrite (bind_step _ _ _ _ _ Hup).
    match goal with
    | |- context [check_completed dir ?c progress' stable] =>
        destruct (sound_check_completed dir c progress' stable s4)
          as (done & s5 & Hdone & Hc5)
    end.
    rewrite (bind_step _ _ _ _ _ Hdone).
    destruct done as [latest |].
    { exists (Some latest, None), s5. split; [reflexivity | lia]. }
    match goal with
    | |- context [check_stalled dir ?c progress' stall] =>
        destruct (sound_check_stalled dir c progress' stall s5)
          as (stalled & s6 & Hst & Hc6)
    end.
    rewrite (bind_step _ _ _ _ _ Hst).
    destruct stalled.
    { exists (None, Some FAILED_STALLED), s6. split; [reflexivity | lia]. }
    destruct (calls_return clk Hsteady unit (TimeSleep 1000) (world s6)) as (u & w7 & Hsl).
    pose proof (clock_sleep clk Hsteady 1000 (world s6)) as Hslept.
    rewrite Hsl in Hslept. simpl in Hslept.
    rewrite (bind_step _ _ _ _ _ (perform_ok _ _ _ _ Hsl)).
    subst n.
    destruct (IH progress' {| world := w7; trace := Called (TimeSleep 1000) :: trace s6 |})
      as (a & s' & Hrun & Hc').
    { simpl. lia. }
    exists a, s'. split; [exact Hrun | simpl in Hc'; lia].
Qed.

Lemma sound_wait_for_download_result (fuel : nat) (dh : option string)
    (dir : string) (before : list string) (timeout stable_seconds stall_seconds : Z) :
  Z.max 0 timeout < Z.of_nat fuel ->
  sound clk (_wait_for_download_result fuel dh dir before timeout
                                       stable_seconds stall_seconds).
Proof.
  intros Hfuel s. unfold _wait_for_download_result.
  destruct (calls_return clk Hsteady Z TimeTime (world s)) as (t & w' & Ht).
  pose proof (clock_read clk Hsteady _ _ _ Ht) as [Hlo Hhi].
  rewrite (bind_step _ _ _ _ _ (perform_ok _ _ _ _ Ht)).
  destruct fuel as [| fuel]; [simpl in Hfuel; lia |].
  destruct (wait_loop_returns dh dir before (t + 1000 * timeout)
                (1000 * stable_seconds) (1000 * stall_seconds) fuel ∅
                {| world := w'; trace := Called TimeTime :: trace s |})
    as (a & s' & Hrun & Hc).
  { simpl. lia. }
  exists a, s'. split; [exact Hrun | simpl in Hc; lia].
Qed.

End Steady_facts.

Section Download_totality.

Context `{Platform} `{World W}.
Variable clk : W -> Z.
Hypothesis Hsteady : steady clk.

Ltac snd_step' :=
  first
    [ apply sound_ret
    | apply (sound_perform clk Hsteady)
    | apply (sound_pdf_page_count clk Hsteady)
    | apply (sound_close_download_tab clk Hsteady)
    | apply (sound_open_download clk Hsteady)
    | apply (sound_detect_download_error clk Hsteady)
    | apply (sound_try_bind clk); [| intros ?]
    | apply (sound_bind clk); [| intros ?]
    | match goal with
      | |- sound _ (if ?b then _ else _) => destruct b
      | |- sound _ (match ?x with _ => _ end) => destruct x
      end ].

Lemma sound_record_stored run_id guarantee_id index original_name download_url
    document_index document_number stored_filename stored_path :
  sound clk (record_stored run_id guarantee_id index original_name download_url
               document_index document_number stored_filename stored_path).
Proof.
  unfold record_stored, stored_missing_or_empty, sha256_file. repeat snd_step'.
Qed.

Lemma sound_store_download run_id guarantee_id index id_dir force original_name
    download_url document_index document_number suffix main_handle dh downloaded :
  sound clk (store_download run_id guarantee_id index id_dir force original_name
               download_url document_index document_number suffix main_handle dh
               downloaded).
Proof.
  unfold store_download, place_download. repeat snd_step'.
Qed.

Lemma sound_download_one (fuel : nat) (run_id guarantee_id : Z)
    (id_dir download_dir : string) (force : bool) (timeout stall_seconds index : Z)
    (item : Attachment) :
  Z.max 0 timeout < Z.of_nat fuel ->
  sound clk (download_one fuel run_id guarantee_id id_dir download_dir force
               timeout stall_seconds index item).
Proof.
  intros Hfuel. unfold download_one, sha256_file.
  apply (sound_bind clk); [apply (sound_perform clk Hsteady) |]. intros present.
  destruct (present && negb force); [repeat snd_step' |].
  apply (sound_bind clk); [apply (sound_perform clk Hsteady) |]. intros before.
  apply (sound_bind clk); [apply (sound_open_download clk Hsteady) |]. intros opened.
  apply (sound_bind clk); [apply (sound_detect_download_error clk Hsteady) |].
  intros [e |]; [repeat snd_step' |].
  apply (sound_bind clk);
    [apply (sound_wait_for_download_result clk Hsteady); exact Hfuel |].
  intros waited. destruct (fst waited); [apply sound_store_download |].
  repeat snd_step'.
Qed.

Lemma sound_download_loop (fuel : nat) (run_id guarantee_id : Z)
    (id_dir download_dir : string) (force : bool) (timeout stall_seconds : Z)
    (items : list Attachment) :
  Z.max 0 timeout < Z.of_nat fuel ->
  forall index,
    sound clk (download_loop fuel run_id guarantee_id id_dir download_dir force
                 timeout stall_seconds index items).
Proof.
  intros Hfuel. induction items as [| item items IH]; intros index; simpl.
  - apply sound_ret.
  - apply (sound_bind clk); [apply sound_download_one; exact Hfuel |]. intros row.
    apply (sound_bind clk); [apply IH |]. intros rows. apply sound_ret.
Qed.

End Download_totality.

(** ** The turns of [download_attachments] one after the other *)

Section Turns_facts.

Context `{Platform} `{World W}.

Variable fuel : nat.
Variable run_id guarantee_id : Z.
Variable id_dir download_dir : string.
Variable force : bool.
Variable timeout stall_seconds : Z.

(** The turns of the attachments after [prefix] start where the turns of
    [prefix] ended, and their rows follow the rows of [prefix]. *)
Lemma download_loop_app (prefix rest : list Attachment) :
  forall (index : Z) (s : wstate W) (rows : list FileRow) (s1 : wstate W),
    download_loop fuel run_id guarantee_id id_dir download_dir force timeout
                  stall_seconds index prefix s = (Ok rows, s1) ->
    download_loop fuel run_id guarantee_id id_dir download_dir force timeout
                  stall_seconds index (prefix ++ rest) s
    = bind (download_loop fuel run_id guarantee_id id_dir download_dir force timeout
                          stall_seconds (index + Z.of_nat (List.length prefix)) rest)
           (fun more => ret (rows ++ more)%list) s1.
Proof.
  induction prefix as [| item prefix IH]; intros index s rows s1 Hrun.
  - simpl in Hrun. unfold ret in Hrun. injection Hrun as <- <-.
    simpl. rewrite Z.add_0_r. unfold bind, ret.
    destruct (download_loop _ _ _ _ _ _ _ _ _ rest s) as [[more | e |] s']; reflexivity.
  - simpl in Hrun.
    apply bind_ok in Hrun as (row & sa & Hone & Hrun).
    apply bind_ok in Hrun as (rows' & sb & Hloop & Hrun).
    unfold ret in Hrun. injection Hrun as <- <-.
    cbn [app download_loop]. rewrite (bind_step _ _ _ _ _ Hone).
    unfold bind at 1. rewrite (IH _ _ _ _ Hloop).
    replace (index + Z.of_nat (List.length (item :: prefix)))
      with (index + 1 + Z.of_nat (List.length prefix))
      by (cbn [List.length]; lia).
    unfold bind, ret.
    destruct (download_loop _ _ _ _ _ _ _ _ _ rest sb) as [[more | e |] s']; reflexivity.
Qed.

(** A turn that returns a row is followed by the turns of the attachments
    after it. *)
Lemma download_loop_turn (index : Z) (item : Attachment) (rest : list Attachment)
    (s : wstate W) (row : FileRow) (s' : wstate W) :
  download_one fuel run_id guarantee_id id_dir download_dir force timeout
               stall_seconds index item s = (Ok row, s') ->
  download_loop fuel run_id guarantee_id id_dir download_dir force timeout
                stall_seconds index (item :: rest) s
  = bind (download_loop fuel run_id guarantee_id id_dir download_dir force timeout
                        stall_seconds (index + 1) rest)
         (fun rows => ret (row :: rows)) s'.
Proof. intros Hone. cbn [download_loop]. rewrite (bind_step _ _ _ _ _ Hone). reflexivity. Qed.

(** The turn of an attachment whose file is not kept and whose download
    opens without an error page: what is left is the poll and what follows
    it. *)
Lemma download_one_opened (index : Z) (item : Attachment)
    (s s1 s2 s3 s4 : wstate W) (present : bool) (before : list string)
    (main_handle : string) (download_handle : option string) :
  perform (PathExists (id_dir // planned_name guarantee_id index item)) s
  = (Ok present, s1) ->
  present && negb force = false ->
  perform (ListFiles download_dir) s1 = (Ok before, s2) ->
  _open_download (py_strip (att_download_url item)) s2
  = (Ok (main_handle, download_handle), s3) ->
  _detect_download_error download_handle s3 = (Ok None, s4) ->
  download_one fuel run_id guarantee_id id_dir download_dir force timeout
               stall_seconds index item s
  = bind (_wait_for_download_result fuel download_handle download_dir before
                                    timeout 3 stall_seconds)
         (fun waited =>
            match fst waited with
            | None =>
                exec _close_download_tab main_handle download_handle;
                ret (failed_row run_id guarantee_id index
                       (py_strip (att_original_filename item))
                       (py_strip (att_download_url item))
                       (att_document_index item) (att_document_number item)
                       (default FAILED_TIMEOUT (snd waited)))
            | Some downloaded =>
                store_download run_id guarantee_id index id_dir force
                  (py_strip (att_original_filename item))
                  (py_strip (att_download_url item))
                  (att_document_index item) (att_document_number item)
                  (planned_suffix item) main_handle download_handle downloaded
            end) s4.
Proof.
  intros Hthere Hkeep Hlist Hopen Hdetect.
  unfold download_one. cbv zeta. fold (planned_suffix item).
  fold (planned_name guarantee_id index item).
  rewrite (bind_step _ _ _ _ _ Hthere). rewrite Hkeep.
  rewrite (bind_step _ _ _ _ _ Hlist), (bind_step _ _ _ _ _ Hopen).
  cbn [fst snd]. rewrite (bind_step _ _ _ _ _ Hdetect). reflexivity.
Qed.

End Turns_facts.

(** C2.  Whenever [download_attachments] returns, it returns as many rows
    as it was given attachments, in the order of the attachments: the row
    at position [i] carries file index [i + 1] and the name, URL and
    document of the attachment at position [i], whether that attachment
    was downloaded, skipped or failed.  It returns whenever no call to the
    browser, the file system or the clock raises or hangs and the clock
    moves forward (with fuel for the polls above the timeout).  It does
    not return rows whatever happens: an exception that leaves the turn of
    one attachment leaves [download_attachments], and the rows of the
    attachments before it are lost with it; such is an exception raised
    when the browser opens the window of the download, which nothing
    handles. *)
Theorem download_attachments_rows `{Platform} `{World W}
    (fuel : nat) (attachments : list Attachment) (run_id guarantee_id : Z)
    (attachments_root download_dir : string) (force : bool)
    (timeout stall_seconds : Z) :
  (forall (s : wstate W) (rows : list FileRow) (s' : wstate W),
      download_attachments fuel attachments run_id guarantee_id attachments_root
                           download_dir force timeout stall_seconds s = (Ok rows, s') ->
      List.length rows = List.length attachments
      /\ forall (i : nat) (item : Attachment),
          attachments !! i = Some item ->
          exists row, rows !! i = Some row
                      /\ row_for run_id guarantee_id (1 + Z.of_nat i) item row)
  /\ (forall clk : W -> Z,
        steady clk ->
        Z.max 0 timeout < Z.of_nat fuel ->
        forall s : wstate W,
        exists rows s',
          download_attachments fuel attachments run_id guarantee_id attachments_root
                               download_dir force timeout stall_seconds s = (Ok rows, s'))
  /\ (forall (prefix : list Attachment) (item : Attachment) (rest : list Attachment)
             (s s0 s1 s2 : wstate W) (rows : list FileRow) (e : exn),
        attachments = (prefix ++ item :: rest)%list ->
        perform (MkdirParents (attachments_root // str_int guarantee_id)) s
        = (Ok tt, s0) ->
        download_loop fuel run_id guarantee_id (attachments_root // str_int guarantee_id)
                      download_dir force timeout stall_seconds 1 prefix s0
        = (Ok rows, s1) ->
        download_one fuel run_id guarantee_id (attachments_root // str_int guarantee_id)
                     download_dir force timeout stall_seconds
                     (1 + Z.of_nat (List.length prefix)) item s1
        = (Raise e, s2) ->
        download_attachments fuel attachments run_id guarantee_id attachments_root
                             download_dir force timeout stall_seconds s
        = (Raise e, s2))
  /\ (forall (id_dir : string) (index : Z) (item : Attachment)
             (s s1 s2 s3 s4 s5 : wstate W) (present : bool) (before : list string)
             (main_handle : string) (handles : list string) (e : exn),
        perform (PathExists (id_dir // planned_name guarantee_id index item)) s
        = (Ok present, s1) ->
        present && negb force = false ->
        perform (ListFiles download_dir) s1 = (Ok before, s2) ->
        perform CurrentWindowHandle s2 = (Ok main_handle, s3) ->
        perform WindowHandles s3 = (Ok handles, s4) ->
        perform (WindowOpen (py_strip (att_download_url item))) s4 = (Raise e, s5) ->
        download_one fuel run_id guarantee_id id_dir download_dir force timeout
                     stall_seconds index item s
        = (Raise e, s5)).
Proof.
  split; [| split; [| split]].
  - intros s rows s' Hrun. unfold download_attachments in Hrun.
    apply bind_ok in Hrun as (u & s1 & _ & Hrun).
    eapply download_loop_rows, Hrun.
  - intros clk Hsteady Hfuel s. unfold download_attachments.
    destruct (sound_bind clk (perform (MkdirParents (attachments_root // str_int guarantee_id)))
                (fun _ => download_loop fuel run_id guarantee_id
                            (attachments_root // str_int guarantee_id) download_dir
                            force timeout stall_seconds 1 attachments)
                (sound_perform clk Hsteady _)
                (fun _ => sound_download_loop clk Hsteady fuel run_id guarantee_id
                            _ download_dir force timeout stall_seconds attachments
                            Hfuel 1) s)
      as (rows & s' & Hrun & _).
    exists rows, s'. exact Hrun.
  - intros prefix item rest s s0 s1 s2 rows e -> Hmkdir Hprefix Hone.
    unfold download_attachments. rewrite (bind_step _ _ _ _ _ Hmkdir).
    rewrite (download_loop_app _ _ _ _ _ _ _ _ _ _ _ _ _ _ Hprefix).
    unfold bind at 1. cbn [download_loop]. rewrite (bind_raise _ _ _ _ _ Hone).
    reflexivity.
  - intros id_dir index item s s1 s2 s3 s4 s5 present before main_handle handles e
      Hthere Hkeep Hlist Hmain Hhandles Hopen.
    unfold download_one. cbv zeta. fold (planned_name guarantee_id index item).
    rewrite (bind_step _ _ _ _ _ Hthere). rewrite Hkeep.
    rewrite (bind_step _ _ _ _ _ Hlist).
    apply bind_raise. unfold _open_download.
    rewrite (bind_step _ _ _ _ _ Hmain), (bind_step _ _ _ _ _ Hhandles).
    apply bind_raise. exact Hopen.
Qed.

(** C9.  In [download_attachments], in the turn of an attachment whose
    download was opened without an error page, once the poll has returned
    a downloaded file and the file has been moved to its stored path and
    the download tab closed: if the stored file does not exist or has size
    zero, the row of the attachment has status FAILED_MISSING, empty
    stored file name, stored path, MIME type and hash and page count 0,
    and the turns of the attachments after it follow: the rows
    [download_attachments] returns are those of the attachments before,
    this row, and those of the attachments after. *)
Theorem stored_file_missing_row `{Platform} `{World W}
    (fuel : nat) (run_id guarantee_id index : Z) (id_dir download_dir : string)
    (force : bool) (timeout stall_seconds : Z) (item : Attachment)
    (s s1 s2 s3 s4 s5 s6 s7 : wstate W) (present : bool) (before : list string)
    (main_handle : string) (download_handle : option string) (downloaded : string)
    (st : option DownloadStatus) :
  perform (PathExists (id_dir // planned_name guarantee_id index item)) s
  = (Ok present, s1) ->
  present && negb force = false ->
  perform (ListFiles download_dir) s1 = (Ok before, s2) ->
  _open_download (py_strip (att_download_url item)) s2
  = (Ok (main_handle, download_handle), s3) ->
  _detect_download_error download_handle s3 = (Ok None, s4) ->
  _wait_for_download_result fuel download_handle download_dir before timeout 3
                            stall_seconds s4
  = (Ok (Some downloaded, st), s5) ->
  place_download id_dir
    (id_dir // final_stored_name guarantee_id index (planned_suffix item) downloaded)
    force main_handle download_handle downloaded s5 = (Ok tt, s6) ->
  found_missing_or_empty
    (id_dir // final_stored_name guarantee_id index (planned_suffix item) downloaded)
    s6 s7 ->
  exists row,
    download_one fuel run_id guarantee_id id_dir download_dir force timeout
                 stall_seconds index item s = (Ok row, s7)
    /\ row_for run_id guarantee_id index item row
    /\ f_download_status row = FAILED_MISSING
    /\ f_stored_filename row = EmptyString
    /\ f_stored_path row = EmptyString
    /\ f_sha256 row = EmptyString
    /\ f_mime_type row = EmptyString
    /\ f_page_count row = 0
    /\ (forall rest : list Attachment,
          download_loop fuel run_id guarantee_id id_dir download_dir force timeout
                        stall_seconds index (item :: rest) s
          = bind (download_loop fuel run_id guarantee_id id_dir download_dir force
                                timeout stall_seconds (index + 1) rest)
                 (fun rows => ret (row :: rows)) s7)
    /\ (forall (attachments_root : string) (prefix rest : list Attachment)
               (sa sb s8 : wstate W) (earlier later : list FileRow),
          id_dir = attachments_root // str_int guarantee_id ->
          index = 1 + Z.of_nat (List.length prefix) ->
          perform (MkdirParents id_dir) sa = (Ok tt, sb) ->
          download_loop fuel run_id guarantee_id id_dir download_dir force timeout
                        stall_seconds 1 prefix sb = (Ok earlier, s) ->
          download_loop fuel run_id guarantee_id id_dir download_dir force timeout
                        stall_seconds (index + 1) rest s7 = (Ok later, s8) ->
          download_attachments fuel (prefix ++ item :: rest) run_id guarantee_id
                               attachments_root download_dir force timeout
                               stall_seconds sa
          = (Ok (earlier ++ row :: later)%list, s8)).
Proof.
  intros Hthere Hkeep Hlist Hopen Hdetect Hwait Hplace Hbad.
  set (stored := id_dir // final_stored_name guarantee_id index (planned_suffix item)
                                             downloaded) in *.
  assert (Hmissing : stored_missing_or_empty stored s6 = (Ok true, s7)).
  { unfold stored_missing_or_empty.
    destruct Hbad as [Hnone | (s6' & Hsome & Hsize)].
    - rewrite (bind_step _ _ _ _ _ Hnone). reflexivity.
    - rewrite (bind_step _ _ _ _ _ Hsome). cbn [negb].
      rewrite (bind_step _ _ _ _ _ Hsize). reflexivity. }
  assert (Hone : download_one fuel run_id guarantee_id id_dir download_dir force timeout
                              stall_seconds index item s
                 = (Ok (failed_row run_id guarantee_id index
                          (py_strip (att_original_filename item))
                          (py_strip (att_download_url item))
                          (att_document_index item) (att_document_number item)
                          FAILED_MISSING), s7)).
  { rewrite (download_one_opened fuel run_id guarantee_id id_dir download_dir force
               timeout stall_seconds index item s s1 s2 s3 s4 present before
               main_handle download_handle Hthere Hkeep Hlist Hopen Hdetect).
    rewrite (bind_step _ _ _ _ _ Hwait). cbn [fst].
    unfold store_download. cbv zeta. fold stored.
    rewrite (bind_step _ _ _ _ _ Hplace).
    unfold record_stored. rewrite (bind_step _ _ _ _ _ Hmissing). reflexivity. }
  eexists. split; [exact Hone |].
  split; [repeat split |].
  do 6 (split; [reflexivity |]).
  split.
  - intros rest. apply download_loop_turn. exact Hone.
  - intros attachments_root prefix rest sa sb s8 earlier later Hdir Hindex
      Hmkdir Hprefix Hrest.
    unfold download_attachments. rewrite <- Hdir.
    rewrite (bind_step _ _ _ _ _ Hmkdir).
    rewrite (download_loop_app _ _ _ _ _ _ _ _ _ _ _ _ _ _ Hprefix).
    rewrite <- Hindex. unfold bind at 1.
    rewrite (download_loop_turn _ _ _ _ _ _ _ _ _ _ rest _ _ _ Hone).
    rewrite (bind_step _ _ _ _ _ Hrest). reflexivity.
Qed.

(** ** The poll of the download directory *)

(** ** The most recently modified file *)

Lemma first_max_spec (items : list (string * Z)) :
  forall best : string * Z,
    exists (i : nat) (p : string * Z),
      (best :: items) !! i = Some p
      /\ first_max best items = fst p
      /\ (forall (j : nat) (q : string * Z),
             (best :: items) !! j = Some q -> snd q <= snd p)
      /\ (forall (j : nat) (q : string * Z),
             (j < i)%nat -> (best :: items) !! j = Some q -> snd q < snd p).
Proof.
  induction items as [| it items IH]; intros best.
  - exists 0%nat, best. split; [reflexivity |]. split; [reflexivity |]. split.
    + intros [| j] q Hq; simpl in Hq; [| discriminate].
      injection Hq as <-. lia.
    + intros j q Hj. lia.
  - cbn [first_max].
    destruct (Z.ltb_spec (snd best) (snd it)) as [Hlt | Hge].
    + destruct (IH it) as (i & p & Hi & Hfst & Hmax & Hfirst).
      exists (S i), p. split; [exact Hi |]. split; [exact Hfst |].
      assert (Hit : snd it <= snd p) by (apply (Hmax 0%nat); reflexivity).
      split.
      * intros [| j] q Hq; simpl in Hq.
        -- injection Hq as <-. lia.
        -- apply (Hmax j). exact Hq.
      * intros [| j] q Hj Hq; simpl in Hq.
        -- injection Hq as <-. lia.
        -- apply (Hfirst j); [lia | exact Hq].
    + destruct (IH best) as (i & p & Hi & Hfst & Hmax & Hfirst).
      destruct i as [| i].
      * simpl in Hi. injection Hi as <-.
        exists 0%nat, best. split; [reflexivity |]. split; [exact Hfst |]. split.
        -- intros [| [| j]] q Hq; simpl in Hq.
           ++ injection Hq as <-. lia.
           ++ injection Hq as <-. exact Hge.
           ++ apply (Hmax (S j)). exact Hq.
        -- intros j q Hj. lia.
      * exists (S (S i)), p. split; [exact Hi |]. split; [exact Hfst |].
        assert (Hbest : snd best < snd p)
          by (apply (Hfirst 0%nat); [lia | reflexivity]).
        split.
        -- intros [| [| j]] q Hq; simpl in Hq.
           ++ injection Hq as <-. lia.
           ++ injection Hq as <-. lia.
           ++ apply (Hmax (S j)). exact Hq.
        -- intros [| [| j]] q Hj Hq; simpl in Hq.
           ++ injection Hq as <-. exact Hbest.
           ++ injection Hq as <-. lia.
           ++ apply (Hfirst (S j)); [lia | exact Hq].
Qed.

Lemma combine_lookup {A B} (l : list A) (k : list B) :
  forall (i : nat) (a : A) (b : B),
    combine l k !! i = Some (a, b) -> l !! i = Some a /\ k !! i = Some b.
Proof.
  revert k. induction l as [| x l IH]; intros [| y k] i a b Hi; try discriminate.
  destruct i as [| i]; simpl in Hi.
  - injection Hi as <- <-. split; reflexivity.
  - exact (IH k i a b Hi).
Qed.

Lemma combine_lookup_r {A B} (l : list A) (k : list B) :
  List.length k = List.length l ->
  forall (j : nat) (b : B),
    k !! j = Some b -> exists a, combine l k !! j = Some (a, b).
Proof.
  revert k. induction l as [| x l IH]; intros [| y k] Hlen j b Hj; try discriminate.
  destruct j as [| j]; simpl in Hj.
  - injection Hj as <-. exists x. reflexivity.
  - simpl in Hlen. exact (IH k ltac:(lia) j b Hj).
Qed.

Lemma map_m_length {S A B} (f : A -> SE S B) (l : list A) :
  forall (s s' : S) (ys : list B),
    map_m f l s = (Ok ys, s') -> List.length ys = List.length l.
Proof.
  induction l as [| x l IH]; intros s s' ys Hrun; simpl in Hrun.
  - unfold ret in Hrun. injection Hrun as <- _. reflexivity.
  - apply bind_ok in Hrun as (y & s1 & _ & Hrun).
    apply bind_ok in Hrun as (rest & s2 & Hrest & Hrun).
    unfold ret in Hrun. injection Hrun as <- _. simpl. f_equal.
    eapply IH. exact Hrest.
Qed.

Lemma max_by_mtime_recent `{Platform} `{World W} (dir : string) (names : list string)
    (name : string) (s s' : wstate W) :
  max_by_mtime dir names s = (Ok (Some name), s') ->
  exists mtimes,
    map_m (fun n => perform (StatMtime (dir // n))) names s = (Ok mtimes, s')
    /\ List.length mtimes = List.length names
    /\ most_recent names mtimes name.
Proof.
  unfold max_by_mtime. intros Hrun.
  apply bind_ok in Hrun as (mtimes & s1 & Hstat & Hrun).
  pose proof (map_m_length _ _ _ _ _ Hstat) as Hlen.
  destruct (combine names mtimes) as [| it rest] eqn:Hc; [discriminate |].
  unfold ret in Hrun. injection Hrun as <- <-.
  exists mtimes. split; [exact Hstat |]. split; [exact Hlen |].
  destruct (first_max_spec rest it) as (i & [n t] & Hi & Hfst & Hmax & Hfirst).
  rewrite <- Hc in Hi, Hmax, Hfirst. simpl in Hfst.
  apply combine_lookup in Hi as [Hn Ht].
  exists i, t. rewrite Hfst. split; [exact Hn |]. split; [exact Ht |]. split.
  - intros j t' Hj.
    destruct (combine_lookup_r names mtimes Hlen j t' Hj) as (n' & Hq).
    apply (Hmax j (n', t')). exact Hq.
  - intros j t' Hlt Hj.
    destruct (combine_lookup_r names mtimes Hlen j t' Hj) as (n' & Hq).
    apply (Hfirst j (n', t')); [exact Hlt | exact Hq].
Qed.

(** C7.  One turn of the poll of [_wait_for_download_result], with
    [progress'] the table of last observed sizes and the clock readings of
    their last change, as updated in this turn.
    - When the clock read at the loop test has reached the deadline, the
      attempt fails with FAILED_TIMEOUT.
    - Otherwise, when the page of the download shows an error marker, the
      attempt fails with the status of the marker, FAILED_NOT_FOUND or
      FAILED_ERROR_PAGE.
    - Otherwise, of the new completed files only the most recently
      modified is looked at: when it has had the same observed size for at
      least the stability window it is returned as success, and when it
      has not, no completed file is returned in this turn.
    - Then, of the new in-progress files only the most recently modified
      is looked at: when it has had the same observed size for at least
      the stall window it is unlinked (an OSError of the unlink is
      ignored) and the attempt fails with FAILED_STALLED; when it has not,
      nothing is unlinked.
    - Otherwise the poll sleeps one second and takes the next turn.
    The file [max_by_mtime] picks is the most recently modified: of the
    modification times read in this turn none exceeds its own, and every
    file listed before it has an earlier one.  The table keeps the entry
    of a file whose size is the one it recorded, and gives a file whose
    size differs its new size and the time it was seen.
    [_wait_for_download_result] takes these turns with an empty table at
    first, the deadline [timeout] seconds after the clock it reads at its
    start, and the two windows in seconds. *)
Theorem download_poll_rules `{Platform} `{World W}
    (fuel : nat) (dh : option string) (dir : string) (before : list string)
    (deadline stable stall : Z) (progress : gmap string (Z * Z)) (s : wstate W) :
  (forall t s1,
      perform TimeTime s = (Ok t, s1) ->
      deadline <= t ->
      wait_loop (S fuel) dh dir before deadline stable stall progress s
      = (Ok (None, Some FAILED_TIMEOUT), s1))
  /\ (forall t s1 files s2 s3 progress' s4,
        perform TimeTime s = (Ok t, s1) ->
        t < deadline ->
        _detect_download_error dh s1 = (Ok None, s2) ->
        perform (ListFiles dir) s2 = (Ok files, s3) ->
        update_progress dir (new_files before files) progress s3 = (Ok progress', s4) ->
        (forall name s5 size since fresh s6 now s7,
            max_by_mtime dir (completed_files before files) s4 = (Ok (Some name), s5) ->
            progress' !! name = Some (size, since) ->
            perform TimeTime s5 = (Ok fresh, s6) ->
            perform TimeTime s6 = (Ok now, s7) ->
            stable <= now - since ->
            wait_loop (S fuel) dh dir before deadline stable stall progress s
            = (Ok (Some (dir // name), None), s7))
        /\ (forall s5 name s6 size since fresh s7 now s8 r s9,
              check_completed dir (completed_files before files) progress' stable s4
              = (Ok None, s5) ->
              max_by_mtime dir (in_progress_files before files) s5 = (Ok (Some name), s6) ->
              progress' !! name = Some (size, since) ->
              perform TimeTime s6 = (Ok fresh, s7) ->
              perform TimeTime s7 = (Ok now, s8) ->
              stall <= now - since ->
              perform (Unlink (dir // name)) s8 = (r, s9) ->
              (r = Ok tt \/ exists e, r = Raise e /\ is_os_error e = true) ->
              wait_loop (S fuel) dh dir before deadline stable stall progress s
              = (Ok (None, Some FAILED_STALLED), s9)
              /\ trace s9 = Called (Unlink (dir // name)) :: trace s8)
        /\ (forall s5 s6 s7,
              check_completed dir (completed_files before files) progress' stable s4
              = (Ok None, s5) ->
              check_stalled dir (in_progress_files before files) progress' stall s5
              = (Ok false, s6) ->
              perform (TimeSleep 1000) s6 = (Ok tt, s7) ->
              wait_loop (S fuel) dh dir before deadline stable stall progress s
              = wait_loop fuel dh dir before deadline stable stall progress' s7))
  /\ (forall t s1 s2 source s3 e,
        perform TimeTime s = (Ok t, s1) ->
        t < deadline ->
        match handle_truthy dh with
        | Some h => perform (SwitchToWindow h)
        | None => ret tt
        end s1 = (Ok tt, s2) ->
        perform PageSource s2 = (Ok source, s3) ->
        error_marker (default EmptyString source) = Some e ->
        wait_loop (S fuel) dh dir before deadline stable stall progress s
        = (Ok (None, Some e), s3)
        /\ (e = FAILED_NOT_FOUND \/ e = FAILED_ERROR_PAGE))
  /\ (forall names progress' s4 name s5 size since fresh s6 now s7,
        max_by_mtime dir names s4 = (Ok (Some name), s5) ->
        progress' !! name = Some (size, since) ->
        perform TimeTime s5 = (Ok fresh, s6) ->
        perform TimeTime s6 = (Ok now, s7) ->
        (now - since < stable ->
         check_completed dir names progress' stable s4 = (Ok None, s7))
        /\ (now - since < stall ->
            check_stalled dir names progress' stall s4 = (Ok false, s7)))
  /\ (forall names s4 name s5,
        max_by_mtime dir names s4 = (Ok (Some name), s5) ->
        exists mtimes,
          map_m (fun n => perform (StatMtime (dir // n))) names s4 = (Ok mtimes, s5)
          /\ List.length mtimes = List.length names
          /\ most_recent names mtimes name)
  /\ (forall name rest table s0 size s1 fresh s2,
        perform (StatSize (dir // name)) s0 = (Ok size, s1) ->
        perform TimeTime s1 = (Ok fresh, s2) ->
        (fst (default (-1, fresh) (table !! name)) = size ->
         update_progress dir (name :: rest) table s0
         = update_progress dir rest table s2)
        /\ (fst (default (-1, fresh) (table !! name)) <> size ->
            forall now s3,
              perform TimeTime s2 = (Ok now, s3) ->
              update_progress dir (name :: rest) table s0
              = update_progress dir rest (<[ name := (size, now) ]> table) s3))
  /\ (forall timeout stable_seconds stall_seconds t0 s1,
        perform TimeTime s = (Ok t0, s1) ->
        _wait_for_download_result fuel dh dir before timeout stable_seconds
                                  stall_seconds s
        = wait_loop fuel dh dir before (t0 + 1000 * timeout) (1000 * stable_seconds)
                    (1000 * stall_seconds) ∅ s1).
Proof.
  split; [| split; [| split; [| split; [| split; [| split]]]]].
  - intros t s1 Ht Hdue. cbn [wait_loop]. rewrite (bind_step _ _ _ _ _ Ht).
    destruct (Z.ltb_spec t deadline); [lia | reflexivity].
  - intros t s1 files s2 s3 progress' s4 Ht Hearly Hdet Hls Hup.
    assert (Hhead :
              wait_loop (S fuel) dh dir before deadline stable stall progress s
              = bind (check_completed dir (completed_files before files) progress' stable)
                  (fun done =>
                     match done with
                     | Some latest => ret (Some latest, None)
                     | None =>
                         do stalled <- check_stalled dir (in_progress_files before files)
                                         progress' stall;
                         if stalled then ret (None, Some FAILED_STALLED)
                         else
                           exec perform (TimeSleep 1000);
                           wait_loop fuel dh dir before deadline stable stall progress'
                     end) s4).
    { cbn [wait_loop]. rewrite (bind_step _ _ _ _ _ Ht).
      destruct (Z.ltb_spec t deadline); [| lia]. cbn [negb].
      rewrite (bind_step _ _ _ _ _ Hdet), (bind_step _ _ _ _ _ Hls),
        (bind_step _ _ _ _ _ Hup). reflexivity. }
    rewrite Hhead. clear Hhead. split; [| split].
    + intros name s5 size since fresh s6 now s7 Hmax Hentry Hfresh Hnow Hstill.
      assert (Hne : completed_files before files <> []).
      { intros Hnil. rewrite Hnil in Hmax. unfold max_by_mtime in Hmax.
        simpl in Hmax. unfold bind, ret in Hmax. discriminate. }
      assert (Hcheck : check_completed dir (completed_files before files)
                         progress' stable s4 = (Ok (Some (dir // name)), s7)).
      { unfold check_completed.
        destruct (completed_files before files) as [| c cs] eqn:Hc; [congruence |].
        rewrite <- Hc in *.
        rewrite (bind_step _ _ _ _ _ Hmax), (bind_step _ _ _ _ _ Hfresh).
        rewrite Hentry. simpl. rewrite (bind_step _ _ _ _ _ Hnow).
        destruct (Z.leb_spec stable (now - since)); [reflexivity | lia]. }
      rewrite (bind_step _ _ _ _ _ Hcheck). reflexivity.
    + intros s5 name s6 size since fresh s7 now s8 r s9
        Hdone Hmax Hentry Hfresh Hnow Hstill Hunlink Hr.
      rewrite (bind_step _ _ _ _ _ Hdone).
      assert (Hne : in_progress_files before files <> []).
      { intros Hnil. rewrite Hnil in Hmax. unfold max_by_mtime in Hmax.
        simpl in Hmax. unfold bind, ret in Hmax. discriminate. }
      split.
      * assert (Hcheck : check_stalled dir (in_progress_files before files)
                           progress' stall s5 = (Ok true, s9)).
        { unfold check_stalled.
          destruct (in_progress_files before files) as [| c cs] eqn:Hc; [congruence |].
          rewrite <- Hc in *.
          rewrite (bind_step _ _ _ _ _ Hmax), (bind_step _ _ _ _ _ Hfresh).
          rewrite Hentry. simpl. rewrite (bind_step _ _ _ _ _ Hnow).
          destruct (Z.leb_spec stall (now - since)); [| lia].
          unfold bind, try_. rewrite Hunlink.
          destruct Hr as [-> | (e & -> & He)]; [reflexivity |].
          rewrite He. reflexivity. }
        rewrite (bind_step _ _ _ _ _ Hcheck). reflexivity.
      * rewrite perform_run in Hunlink. inversion Hunlink. reflexivity.
    + intros s5 s6 s7 Hdone Hstalled Hsleep.
      rewrite (bind_step _ _ _ _ _ Hdone), (bind_step _ _ _ _ _ Hstalled),
        (bind_step _ _ _ _ _ Hsleep). reflexivity.
  - intros t s1 s2 source s3 e Ht Hearly Hswitch Hsource Hmark.
    assert (Hdet : _detect_download_error dh s1 = (Ok (Some e), s3)).
    { unfold _detect_download_error. unfold bind at 1. unfold try_. cbv beta.
      rewrite (bind_step _ _ _ _ _ Hswitch), (bind_step _ _ _ _ _ Hsource).
      unfold ret. rewrite Hmark. reflexivity. }
    split.
    + cbn [wait_loop]. rewrite (bind_step _ _ _ _ _ Ht).
      destruct (Z.ltb_spec t deadline); [| lia]. cbn [negb].
      rewrite (bind_step _ _ _ _ _ Hdet). reflexivity.
    + revert Hmark. unfold error_marker.
      destruct (_ || _); [intros Heq; injection Heq as <-; auto |].
      destruct (_ || _); [intros Heq; injection Heq as <-; auto | discriminate].
  - intros names progress' s4 name s5 size since fresh s6 now s7
      Hmax Hentry Hfresh Hnow.
    destruct names as [| c cs].
    { unfold max_by_mtime in Hmax. simpl in Hmax. unfold bind, ret in Hmax.
      discriminate. }
    split; intros Hmoving.
    + unfold check_completed.
      rewrite (bind_step _ _ _ _ _ Hmax), (bind_step _ _ _ _ _ Hfresh).
      rewrite Hentry. simpl. rewrite (bind_step _ _ _ _ _ Hnow).
      destruct (Z.leb_spec stable (now - since)); [lia | reflexivity].
    + unfold check_stalled.
      rewrite (bind_step _ _ _ _ _ Hmax), (bind_step _ _ _ _ _ Hfresh).
      rewrite Hentry. simpl. rewrite (bind_step _ _ _ _ _ Hnow).
      destruct (Z.leb_spec stall (now - since)); [lia | reflexivity].
  - intros names s4 name s5 Hmax. eapply max_by_mtime_recent. exact Hmax.
  - intros name rest table s0 size s1 fresh s2 Hsize Hfresh.
    cbn [update_progress].
    rewrite (bind_step _ _ _ _ _ Hsize), (bind_step _ _ _ _ _ Hfresh).
    split.
    + intros Hsame. rewrite Hsame, Z.eqb_refl. reflexivity.
    + intros Hchanged now s3 Hnow.
      destruct (Z.eqb_spec size (fst (default (-1, fresh) (table !! name))));
        [congruence |].
      cbn [negb]. rewrite (bind_step _ _ _ _ _ Hnow). reflexivity.
  - intros timeout stable_seconds stall_seconds t0 s1 Hstart.
    unfold _wait_for_download_result. rewrite (bind_step _ _ _ _ _ Hstart).
    reflexivity.
Qed.

(** ** Calls made and conditions reached *)

Lemma extends_refl (Q : event -> Prop) (l : list event) : extends Q l l.
Proof. exists []. split; [reflexivity | constructor]. Qed.

Lemma extends_trans (Q : event -> Prop) (a b c : list event) :
  extends Q a b -> extends Q b c -> extends Q a c.
Proof.
  intros (n1 & -> & H1) (n2 & -> & H2). exists (n2 ++ n1)%list.
  split; [apply app_assoc | apply Forall_app; split; assumption].
Qed.

Lemma extends_cons (Q : event -> Prop) (e : event) (l : list event) :
  Q e -> extends Q l (e :: l).
Proof. intros He. exists [e]. split; [reflexivity | repeat constructor; exact He]. Qed.

Section Emits_facts.

Context {S : Type}.
Variable log : S -> list event.
Variable Q : event -> Prop.

Lemma emits_ret {A} (a : A) : emits log Q (ret a).
Proof. intros s. apply extends_refl. Qed.

Lemma emits_raise {A} e : emits log Q (raise (A := A) e).
Proof. intros s. apply extends_refl. Qed.

Lemma emits_no_return {A} : emits log Q (no_return (A := A)).
Proof. intros s. apply extends_refl. Qed.

Lemma emits_pure_call {A} (r : result A) : emits log Q (pure_call r).
Proof. intros s. apply extends_refl. Qed.

Lemma emits_get : emits log Q get_state.
Proof. intros s. apply extends_refl. Qed.

Lemma emits_modify (g : S -> S) : (forall s, log (g s) = log s) -> emits log Q (modify g).
Proof. intros Hg s. simpl. rewrite Hg. apply extends_refl. Qed.

Lemma emits_bind {A B} (c : SE S A) (k : A -> SE S B) :
  emits log Q c -> (forall a, emits log Q (k a)) -> emits log Q (bind c k).
Proof.
  intros Hc Hk s. unfold bind. specialize (Hc s).
  destruct (c s) as [[a | e |] s1]; simpl in *; try exact Hc.
  eapply extends_trans; [exact Hc | apply Hk].
Qed.

Lemma emits_try {A} (c : SE S A) : emits log Q c -> emits log Q (try_ c).
Proof.
  intros Hc s. unfold try_. specialize (Hc s).
  destruct (c s) as [[a | e |] s1]; exact Hc.
Qed.

Lemma emits_finally {A} (c : SE S A) (fin : SE S unit) :
  emits log Q c -> emits log Q fin -> emits log Q (finally_ c fin).
Proof.
  intros Hc Hf s. unfold finally_. specialize (Hc s).
  destruct (c s) as [[a | e |] s1]; simpl in *; try exact Hc;
    specialize (Hf s1); destruct (fin s1) as [[u | e' |] s2]; simpl in *;
    eapply extends_trans; eassumption.
Qed.

Lemma emits_for_each {A} (l : list A) (body : A -> SE S unit) :
  (forall a, emits log Q (body a)) -> emits log Q (for_each l body).
Proof.
  intros Hb. induction l as [| a l IH]; simpl.
  - apply emits_ret.
  - apply emits_bind; auto.
Qed.

Lemma emits_map_m {A B} (f : A -> SE S B) (l : list A) :
  (forall a, emits log Q (f a)) -> emits log Q (map_m f l).
Proof.
  intros Hf. induction l as [| a l IH]; simpl.
  - apply emits_ret.
  - apply emits_bind; [auto |]. intros b. apply emits_bind; [auto |].
    intros bs. apply emits_ret.
Qed.

End Emits_facts.

Lemma emits_perform `{World W} (Q : event -> Prop) {A} (c : call A) :
  Q (Called c) -> emits (trace (W := W)) Q (perform c).
Proof.
  intros Hq s. rewrite perform_run. simpl. apply extends_cons. exact Hq.
Qed.

(** ** Triples *)

Section Triple_facts.

Context {S : Type}.

Lemma triple_ret {A} (Pre : S -> Prop) (a : A) (Post : A -> S -> Prop) Exc :
  (forall s, Pre s -> Post a s) -> triple Pre (ret a) Post Exc.
Proof. intros HP s Hs. simpl. auto. Qed.

Lemma triple_bind {A B} (Pre : S -> Prop) (c : SE S A) (k : A -> SE S B)
    (Mid : A -> S -> Prop) (Post : B -> S -> Prop) (Exc : S -> Prop) :
  triple Pre c Mid Exc ->
  (forall a, triple (Mid a) (k a) Post Exc) ->
  triple Pre (bind c k) Post Exc.
Proof.
  intros Hc Hk s Hs. unfold bind. specialize (Hc s Hs).
  destruct (c s) as [[a | e |] s1]; try exact Hc.
  apply Hk. exact Hc.
Qed.

Lemma triple_conseq {A} (Pre Pre' : S -> Prop) (c : SE S A)
    (Post Post' : A -> S -> Prop) (Exc Exc' : S -> Prop) :
  triple Pre' c Post' Exc' ->
  (forall s, Pre s -> Pre' s) ->
  (forall a s, Post' a s -> Post a s) ->
  (forall s, Exc' s -> Exc s) ->
  triple Pre c Post Exc.
Proof.
  intros Hc Hpre Hpost Hexc s Hs. specialize (Hc s (Hpre s Hs)).
  destruct (c s) as [[a | e |] s1]; auto.
Qed.

Lemma triple_keeps {A X} (f : S -> X) (x : X) (c : SE S A) :
  keeps f c ->
  triple (fun s => f s = x) c (fun _ s => f s = x) (fun s => f s = x).
Proof.
  intros Hk s Hs. specialize (Hk s). destruct (c s) as [[a | e |] s1];
    simpl in *; congruence.
Qed.

Lemma triple_modify (Pre : S -> Prop) (g : S -> S) (Post : unit -> S -> Prop) Exc :
  (forall s, Pre s -> Post tt (g s)) -> triple Pre (modify g) Post Exc.
Proof. intros HP s Hs. simpl. auto. Qed.

Lemma triple_get (Pre : S -> Prop) (Post : S -> S -> Prop) Exc :
  (forall s, Pre s -> Post s s) -> triple Pre get_state Post Exc.
Proof. intros HP s Hs. simpl. auto. Qed.

Lemma triple_pure_call {A} (Pre : S -> Prop) (r : result A)
    (Post : A -> S -> Prop) (Exc : S -> Prop) :
  (forall a s, Pre s -> Post a s) -> (forall s, Pre s -> Exc s) ->
  triple Pre (pure_call r) Post Exc.
Proof. intros HP HE s Hs. unfold pure_call. destruct r; auto. Qed.

Lemma triple_try {A} (Pre : S -> Prop) (c : SE S A) (Post : A -> S -> Prop)
    (Raised Exc : S -> Prop) (Post' : result A -> S -> Prop) :
  triple Pre c Post Raised ->
  (forall a s, Post a s -> Post' (Ok a) s) ->
  (forall e s, Raised s -> Post' (Raise e) s) ->
  (forall s, Raised s -> Exc s) ->
  triple Pre (try_ c) Post' Exc.
Proof.
  intros Hc Hok Hraise Hexc s Hs. unfold try_. specialize (Hc s Hs).
  destruct (c s) as [[a | e |] s1]; auto.
Qed.

Lemma triple_finally {A} (Pre : S -> Prop) (c : SE S A) (fin : SE S unit)
    (Post : A -> S -> Prop) (Exc : S -> Prop) (Post' : A -> S -> Prop)
    (Exc' : S -> Prop) :
  triple Pre c Post Exc ->
  (forall a, triple (Post a) fin (fun _ => Post' a) Exc') ->
  triple Exc fin (fun _ => Exc') Exc' ->
  (forall s, Exc s -> Exc' s) ->
  triple Pre (finally_ c fin) Post' Exc'.
Proof.
  intros Hc Hok Hraise Himp s Hs. unfold finally_. specialize (Hc s Hs).
  destruct (c s) as [[a | e |] s1].
  - specialize (Hok a s1 Hc). destruct (fin s1) as [[u | e' |] s2]; exact Hok.
  - specialize (Hraise s1 Hc). destruct (fin s1) as [[u | e' |] s2]; exact Hraise.
  - auto.
Qed.

End Triple_facts.

(** ** Paths and URLs *)

Lemma append_assoc (a b c : string) : ((a ++ b) ++ c = a ++ (b ++ c))%string.
Proof.
  induction a as [| x a IH]; [reflexivity |].
  change (String x ((a ++ b) ++ c) = String x (a ++ (b ++ c))). rewrite IH. reflexivity.
Qed.

Lemma eqb_app_head (p a b : string) :
  String.eqb (p ++ a) (p ++ b) = String.eqb a b.
Proof.
  induction p as [| x p IH]; [reflexivity |].
  change (String.eqb (String x (p ++ a)) (String x (p ++ b)) = String.eqb a b).
  simpl. rewrite Ascii.eqb_refl. exact IH.
Qed.

Section Path_facts.

Context `{Platform}.

Lemma general_url_not_documents (id : Z) :
  String.eqb (GENERAL_INFO_URL id) (DOCUMENTS_URL id) = false.
Proof. reflexivity. Qed.

Lemma general_sample_not_document (id : Z) :
  String.eqb (sample_path id GENERAL_KIND) (sample_path id DOCUMENT_KIND) = false.
Proof.
  unfold sample_path, path_join. rewrite eqb_app_head. reflexivity.
Qed.

Lemma snapshot_not_sample (id : Z) (name : string) :
  String.eqb (RAW_HTML_DIR // name) (sample_path id DOCUMENT_KIND) = false.
Proof.
  unfold sample_path, RAW_HTML_DIR, SAMPLES_DIR, path_join.
  rewrite !append_assoc, eqb_app_head. reflexivity.
Qed.

End Path_facts.

(** ** Calls of the steps of a worker *)

Ltac emit :=
  repeat first
    [ apply emits_ret
    | apply emits_raise
    | apply emits_no_return
    | apply emits_pure_call
    | apply emits_get
    | apply emits_perform; reflexivity
    | apply emits_try
    | apply emits_finally
    | apply emits_for_each; intros ?
    | apply emits_map_m; intros ?
    | apply emits_bind; [| intros ?]
    | match goal with
      | |- emits _ _ (if ?b then _ else _) => destruct b
      | |- emits _ _ (match ?x with _ => _ end) => destruct x
      end ].

Section Worker_facts.

Context `{Platform} `{World W}.

Local Abbreviation M := (SE (wstate W)).
Local Abbreviation Wk := (SE (wkstate (W := W))).
Local Abbreviation St := (wkstate (W := W)).

Lemma emits_io (Q : event -> Prop) {A} (c : M A) :
  emits trace Q c -> emits wk_log Q (io c).
Proof.
  intros Hc s. unfold io, zoom, wk_log. specialize (Hc (ws s)).
  destruct (c (ws s)) as [r v]. exact Hc.
Qed.

Lemma emits_assign (Q : event -> Prop) (g : Locals -> Locals) :
  emits (wk_log (W := W)) Q (assign g).
Proof. intros s. apply extends_refl. Qed.

Lemma emits_locals (Q : event -> Prop) : emits (wk_log (W := W)) Q locals.
Proof. intros s. apply extends_refl. Qed.

(** A step on the world keeps what is stable under more calls. *)
Lemma triple_io (Q : event -> Prop) {A} (c : M A) (P : St -> Prop) :
  emits trace Q c ->
  (forall s v, P s -> extends Q (trace (ws s)) (trace v) -> P (set_ws v s)) ->
  triple P (io c) (fun _ => P) P.
Proof.
  intros Hc Hstable s Hs. unfold io, zoom. specialize (Hc (ws s)).
  destruct (c (ws s)) as [[a | e |] v]; simpl in *; apply Hstable; assumption.
Qed.

Lemma triple_assign (Pre : St -> Prop) (g : Locals -> Locals)
    (Post : unit -> St -> Prop) Exc :
  (forall s, Pre s -> Post tt (set_loc (g (loc s)) s)) ->
  triple Pre (assign g) Post Exc.
Proof. intros HP s Hs. simpl. auto. Qed.

Lemma triple_locals (Pre : St -> Prop)
    (Post : Locals -> St -> Prop) Exc :
  (forall s, Pre s -> Post (loc s) s) -> triple Pre locals Post Exc.
Proof. intros HP s Hs. simpl. auto. Qed.

Lemma at_locals_stable (Q : event -> Prop) (L : Locals) (s0 s : St) v :
  at_locals Q L s0 s -> extends Q (trace (ws s)) (trace v) ->
  at_locals Q L s0 (set_ws v s).
Proof.
  intros [Hl He] Hv. split; [exact Hl |].
  eapply extends_trans; [exact He | exact Hv].
Qed.

Lemma missing_found_stable (id : Z) (s0 s : St) v :
  missing_found id s0 s -> extends (no_secondary_fetch id) (trace (ws s)) (trace v) ->
  missing_found id s0 (set_ws v s).
Proof.
  intros Hm Hv Hmiss. destruct (Hm Hmiss) as (? & ? & ? & He).
  repeat split; try assumption.
  eapply extends_trans; [exact He | exact Hv].
Qed.

Lemma missing_kept_stable (id : Z) (s0 s : St) v :
  missing_kept id s0 s -> extends (no_secondary_fetch id) (trace (ws s)) (trace v) ->
  missing_kept id s0 (set_ws v s).
Proof.
  intros Hm Hv Hmiss. destruct (Hm Hmiss) as (? & ? & He).
  repeat split; try assumption.
  eapply extends_trans; [exact He | exact Hv].
Qed.

Lemma emits_ensure_time_left (Q : event -> Prop) (deadline : option Z) :
  Q (Called TimeMonotonic) -> emits trace Q (_ensure_time_left (W := W) deadline).
Proof.
  intros Hq. unfold _ensure_time_left. destruct deadline; [| apply emits_ret].
  apply emits_bind; [apply emits_perform; exact Hq |]. intros now.
  destruct (Z.leb _ _); [apply emits_raise | apply emits_ret].
Qed.

Lemma emits_remaining_seconds (Q : event -> Prop) (deadline : option Z) (d : Z) :
  Q (Called TimeMonotonic) -> emits trace Q (_remaining_seconds (W := W) deadline d).
Proof.
  intros Hq. unfold _remaining_seconds. destruct deadline; [| apply emits_ret].
  apply emits_bind; [apply emits_perform; exact Hq |]. intros now.
  destruct (Z.leb _ _); apply emits_ret.
Qed.

Lemma emits_load_general (id : Z) :
  emits trace (no_secondary_fetch id) (_load_sample_html (W := W) id GENERAL_KIND).
Proof.
  unfold _load_sample_html.
  apply emits_bind; [apply emits_perform; apply general_sample_not_document |].
  intros present. destruct (negb present); [apply emits_ret |].
  apply emits_bind; [apply emits_perform; apply general_sample_not_document |].
  intros text. apply emits_ret.
Qed.

Lemma emits_clean_download_dir (id : Z) (dir : string) :
  emits trace (no_secondary_fetch id) (clean_download_dir (W := W) dir).
Proof. unfold clean_download_dir. emit. Qed.

Lemma emits_save_html_snapshot (id id' : Z) (html kind : string) :
  emits trace (no_secondary_fetch id) (save_html_snapshot (W := W) id' html kind).
Proof.
  unfold save_html_snapshot.
  apply emits_bind; [apply emits_perform; reflexivity |]. intros _.
  apply emits_bind; [apply emits_perform; apply snapshot_not_sample |].
  intros present. destruct present; [apply emits_ret |].
  apply emits_bind; [apply emits_perform; reflexivity |]. intros _. apply emits_ret.
Qed.

Lemma emits_reconcile_windows (id : Z) :
  emits trace (no_secondary_fetch id) (reconcile_windows (W := W)).
Proof. unfold reconcile_windows. emit. Qed.

Lemma emits_restart_driver (id : Z) (args : Args) (dir : string) :
  emits trace (no_secondary_fetch id) (_restart_driver (W := W) args dir).
Proof. unfold _restart_driver. emit. Qed.

End Worker_facts.

(** ** The guarded block on a missing primary page *)

Lemma empty_page_not_missing : is_missing_page EmptyString = false.
Proof. reflexivity. Qed.

Ltac keep_field :=
  repeat first
    [ apply keeps_ret
    | apply keeps_get
    | apply keeps_raise
    | apply keeps_pure_call
    | apply keeps_locals
    | apply keeps_io; intros; reflexivity
    | apply keeps_modify; intros; reflexivity
    | apply keeps_assign_field; intros ?;
      first [ reflexivity
            | unfold partial_if_ok; match goal with
                                    | |- context [if ?b then _ else _] => destruct b
                                    end; reflexivity ]
    | apply keeps_try
    | apply keeps_finally
    | apply keeps_bind; [| intros ?]
    | match goal with
      | |- keeps _ (if ?b then _ else _) => destruct b
      | |- keeps _ (match ?x with _ => _ end) => destruct x
      end ].

Section Missing_page.

Context `{Platform} `{World W}.

Local Abbreviation M := (SE (wstate W)).
Local Abbreviation St := (wkstate (W := W)).

Variable guarantee_id : Z.
Variable s0 : St.

Local Abbreviation Q := (no_secondary_fetch guarantee_id).

Lemma not_missing_found (L : Locals) (s : St) :
  is_missing_page (l_general_html L) = false ->
  loc s = L -> missing_found guarantee_id s0 s.
Proof. intros Hnot Hl Hmiss. rewrite Hl in Hmiss. congruence. Qed.

(** A step on the world before the primary page is known. *)
Lemma before_page {A} (c : M A) (L : Locals) :
  emits trace Q c ->
  is_missing_page (l_general_html L) = false ->
  triple (at_locals Q L s0) (io c) (fun _ => at_locals Q L s0)
         (missing_found guarantee_id s0).
Proof.
  intros Hc Hnot.
  eapply triple_conseq;
    [ apply (triple_io Q c (at_locals Q L s0) Hc); intros; apply at_locals_stable;
      assumption
    | auto | auto |].
  intros s [Hl _]. eapply not_missing_found; eassumption.
Qed.

(** What follows a primary page that is not missing. *)
Lemma after_other_page {A} (c : SE St A) (L : Locals) :
  keeps (fun s : St => l_general_html (loc s)) c ->
  is_missing_page (l_general_html L) = false ->
  triple (at_locals Q L s0) c (fun _ => missing_found guarantee_id s0)
         (missing_found guarantee_id s0).
Proof.
  intros Hk Hnot.
  eapply triple_conseq;
    [ apply (triple_keeps (fun s : St => l_general_html (loc s)) (l_general_html L) c Hk)
    | | | ].
  - intros s [Hl _]. rewrite Hl. reflexivity.
  - intros a s Hs Hmiss. simpl in Hs. rewrite Hs in Hmiss. congruence.
  - intros s Hs Hmiss. simpl in Hs. rewrite Hs in Hmiss. congruence.
Qed.

(** What follows a primary page that is missing. *)
Lemma after_missing_page (rest : Locals -> SE St unit) (L : Locals) :
  l_attributes_rows L = [] -> l_files_rows L = [] ->
  triple (at_locals Q L s0)
         (exec assign (set_status MISSING);
          do l <- locals;
          if status_eqb (l_status l) MISSING then ret tt else rest l)
         (fun _ => missing_found guarantee_id s0)
         (missing_found guarantee_id s0).
Proof.
  intros Hattrs Hfiles s [Hl Hext]. unfold bind, assign, modify, locals. simpl.
  unfold missing_found. simpl. intros _. rewrite Hl. auto.
Qed.

Lemma at_locals_assign (g : Locals -> Locals) (L : Locals) Exc :
  triple (at_locals Q L s0) (assign g) (fun _ => at_locals Q (g L) s0) Exc.
Proof.
  apply triple_assign. intros s [Hl Hext]. split; [simpl; congruence | exact Hext].
Qed.

Lemma offline_block_missing (run_id : Z) (deadline : option Z) :
  triple (at_locals Q fresh_locals s0)
         (offline_block run_id guarantee_id deadline)
         (fun _ => missing_found guarantee_id s0)
         (missing_found guarantee_id s0).
Proof.
  unfold offline_block.
  eapply triple_bind;
    [apply before_page; [apply emits_ensure_time_left |]; reflexivity |].
  intros ?.
  eapply triple_bind; [apply before_page; [apply emits_load_general | reflexivity] |].
  intros loaded.
  eapply triple_bind; [apply at_locals_assign |]. intros ?.
  destruct (is_empty (default EmptyString loaded)) eqn:Hempty.
  { apply after_other_page; [keep_field |].
    simpl. destruct (default EmptyString loaded); [reflexivity | discriminate]. }
  destruct (is_missing_page (default EmptyString loaded)) eqn:Hmissing.
  - apply after_missing_page; reflexivity.
  - apply after_other_page; [keep_field | exact Hmissing].
Qed.

Lemma live_block_missing (fuel : nat) (args : Args) (run_id : Z)
    (download_dir : string) (deadline : option Z) :
  triple (at_locals Q fresh_locals s0)
         (live_block fuel args run_id guarantee_id download_dir deadline)
         (fun _ => missing_found guarantee_id s0)
         (missing_found guarantee_id s0).
Proof.
  unfold live_block.
  eapply triple_bind;
    [apply before_page; [apply emits_ensure_time_left |]; reflexivity |].
  intros ?.
  eapply triple_bind;
    [apply before_page; [apply emits_clean_download_dir | reflexivity] |].
  intros ?.
  eapply triple_bind;
    [apply before_page; [apply emits_perform; apply general_url_not_documents
                        | reflexivity] |].
  intros ?.
  eapply triple_bind;
    [apply before_page; [apply emits_remaining_seconds |]; reflexivity |].
  intros t.
  eapply triple_bind;
    [apply before_page; [apply emits_perform |]; reflexivity |].
  intros ?.
  eapply triple_bind;
    [apply before_page; [apply emits_perform |]; reflexivity |].
  intros source.
  eapply triple_bind; [apply at_locals_assign |]. intros ?.
  destruct (is_missing_page (default EmptyString source)) eqn:Hmissing.
  - apply after_missing_page; reflexivity.
  - apply after_other_page; [keep_field | exact Hmissing].
Qed.

Lemma found_kept (s : St) :
  missing_found guarantee_id s0 s -> missing_kept guarantee_id s0 s.
Proof. intros Hf Hm. destruct (Hf Hm) as (_ & ? & ? & ?). auto. Qed.

Lemma found_io {A} (c : M A) :
  emits trace Q c ->
  triple (missing_found guarantee_id s0) (io c)
         (fun _ => missing_found guarantee_id s0) (missing_found guarantee_id s0).
Proof.
  intros Hc. apply (triple_io Q c _ Hc). intros s v. apply missing_found_stable.
Qed.

Lemma snapshot_block_missing (args : Args) :
  triple (missing_found guarantee_id s0) (snapshot_block args guarantee_id)
         (fun _ => missing_found guarantee_id s0) (missing_found guarantee_id s0).
Proof.
  unfold snapshot_block.
  eapply triple_bind;
    [apply (triple_get _ (fun _ s => missing_found guarantee_id s0 s)); auto |].
  intros st.
  destruct (save_html args || _ || _); [| apply triple_ret; auto].
  eapply triple_bind with (Mid := fun _ => missing_found guarantee_id s0).
  { destruct (negb _); [| apply triple_ret; auto].
    eapply triple_bind; [apply found_io, emits_save_html_snapshot |].
    intros ?. apply triple_ret. auto. }
  intros ?.
  eapply triple_bind with (Mid := fun _ => missing_found guarantee_id s0).
  { destruct (negb _); [| apply triple_ret; auto].
    eapply triple_bind; [apply found_io, emits_save_html_snapshot |].
    intros ?. apply triple_ret. auto. }
  intros ?. apply triple_modify. intros s Hs. exact Hs.
Qed.

Lemma guarded_block_missing (fuel : nat) (args : Args) (in_main_thread : bool)
    (run_id : Z) (download_dir : string) (deadline : option Z) :
  triple (at_locals Q fresh_locals s0)
         (guarded_block fuel args in_main_thread run_id guarantee_id download_dir
                        deadline)
         (fun _ => missing_found guarantee_id s0)
         (missing_found guarantee_id s0).
Proof.
  unfold guarded_block, with_per_id_timeout.
  eapply triple_bind with (Mid := fun _ => at_locals Q fresh_locals s0).
  { destruct (Z.leb _ _ || _).
    - apply triple_ret. auto.
    - apply before_page; [apply emits_perform |]; reflexivity. }
  intros ?.
  eapply triple_finally with (Post := fun _ => missing_found guarantee_id s0)
                             (Exc := missing_found guarantee_id s0).
  - eapply triple_bind with (Mid := fun _ => missing_found guarantee_id s0).
    + destruct (mode args);
        [apply offline_block_missing | apply live_block_missing].
    + intros ?. apply snapshot_block_missing.
  - intros ?. destruct (Z.ltb _ _ && _).
    + apply found_io, emits_perform. reflexivity.
    + apply triple_ret. auto.
  - destruct (Z.ltb _ _ && _).
    + apply found_io, emits_perform. reflexivity.
    + apply triple_ret. auto.
  - auto.
Qed.

Lemma on_timeout_missing (args : Args) (e : exn) :
  triple (missing_found guarantee_id s0) (on_timeout args e)
         (fun _ s => missing_kept guarantee_id s0 s /\ l_status (loc s) = TIMEOUT)
         (missing_kept guarantee_id s0).
Proof.
  intros s Hs. apply found_kept in Hs.
  unfold on_timeout, bind, assign, modify. simpl.
  destruct (is_live args); [| split; [exact Hs | reflexivity]].
  unfold try_, io, zoom. simpl.
  match goal with
  | |- context [reconcile_windows ?v] =>
      pose proof (emits_reconcile_windows guarantee_id v) as Hext;
      destruct (reconcile_windows v) as [[u | e' |] v'] eqn:Hrun
  end; simpl in *.
  - split; [| reflexivity]. intros Hm. destruct (Hs Hm) as (? & ? & He).
    repeat split; try assumption. eapply extends_trans; [exact He | exact Hext].
  - split; [| reflexivity]. intros Hm. destruct (Hs Hm) as (? & ? & He).
    repeat split; try assumption. eapply extends_trans; [exact He | exact Hext].
  - intros Hm. destruct (Hs Hm) as (? & ? & He).
    repeat split; try assumption. eapply extends_trans; [exact He | exact Hext].
Qed.

Lemma on_error_missing (args : Args) (download_dir : string) (e : exn) :
  triple (missing_found guarantee_id s0) (on_error args download_dir e)
         (fun _ s => missing_kept guarantee_id s0 s /\ l_status (loc s) = ERROR)
         (missing_kept guarantee_id s0).
Proof.
  intros s Hs. apply found_kept in Hs.
  unfold on_error, bind, assign, modify. simpl.
  destruct (is_live args && _); [| split; [exact Hs | reflexivity]].
  unfold io, zoom. simpl.
  match goal with
  | |- context [_restart_driver args download_dir ?v] =>
      pose proof (emits_restart_driver guarantee_id args download_dir v) as Hext;
      destruct (_restart_driver args download_dir v) as [[u | e' |] v'] eqn:Hrun
  end; simpl in *.
  - split; [| reflexivity]. intros Hm. destruct (Hs Hm) as (? & ? & He).
    repeat split; try assumption. eapply extends_trans; [exact He | exact Hext].
  - intros Hm. destruct (Hs Hm) as (? & ? & He).
    repeat split; try assumption. eapply extends_trans; [exact He | exact Hext].
  - intros Hm. destruct (Hs Hm) as (? & ? & He).
    repeat split; try assumption. eapply extends_trans; [exact He | exact Hext].
Qed.

Lemma attempt_missing (fuel : nat) (args : Args) (in_main_thread : bool)
    (run_id worker_id : Z) :
  triple (fun s => s = s0)
         (attempt fuel args in_main_thread run_id worker_id guarantee_id)
         (attempt_post guarantee_id s0)
         (missing_kept guarantee_id s0).
Proof.
  unfold attempt.
  eapply triple_bind with (Mid := fun _ => at_locals Q fresh_locals s0).
  { apply triple_assign. intros s ->. split; [reflexivity | apply extends_refl]. }
  intros ?.
  eapply triple_bind with (Mid := fun _ => at_locals Q fresh_locals s0).
  { destruct (Z.ltb _ _).
    - eapply triple_bind with (Mid := fun _ => at_locals Q fresh_locals s0).
      + eapply triple_conseq;
          [ apply (before_page (perform TimeMonotonic) fresh_locals);
            [apply emits_perform |]; reflexivity
          | auto | auto |].
        apply found_kept.
      + intros now. apply triple_ret. auto.
    - apply triple_ret. auto. }
  intros deadline.
  eapply triple_bind with (Mid := fun _ => missing_found guarantee_id s0).
  { eapply triple_try; [apply guarded_block_missing | | | apply found_kept].
    - intros ? s Hs. exact Hs.
    - intros ? s Hs. exact Hs. }
  intros outcome.
  eapply triple_bind with (Mid := fun _ => attempt_post guarantee_id s0 outcome).
  - destruct outcome as [u | e |].
    + apply triple_ret. intros s Hs. split; [apply found_kept, Hs |].
      intros Hm. apply (Hs Hm).
    + destruct (is_processing_timeout e) eqn:Htimeout.
      * eapply triple_conseq; [apply on_timeout_missing | auto | | auto].
        intros ? s [Hk Hst]. split; [exact Hk |]. intros _. rewrite Htimeout. exact Hst.
      * eapply triple_conseq; [apply on_error_missing | auto | | auto].
        intros ? s [Hk Hst]. split; [exact Hk |]. intros _. rewrite Htimeout. exact Hst.
    + apply triple_ret. intros s Hs. split; [apply found_kept, Hs | auto].
  - intros ?. apply triple_ret. auto.
Qed.

End Missing_page.


Lemma classify_no_files (l : Locals) :
  l_files_rows l = [] ->
  l_attributes_rows (classify l) = l_attributes_rows l
  /\ l_files_rows (classify l) = []
  /\ (l_status l <> OK -> l_status (classify l) = l_status l).
Proof.
  intros Hfiles. unfold classify, classify_files, downgrade_on_message.
  rewrite Hfiles. destruct l as [st msg warns attrs rows atts ghtml dhtml].
  simpl in *. destruct st; simpl; try (repeat split; congruence).
  destruct (negb (is_empty msg)); simpl; repeat split; congruence.
Qed.

(** C1. When the primary page an attempt obtained is classified as missing
    by [is_missing_page], the attempt hands no attribute row and no file row
    to the writers and none of its calls fetches the secondary page of the
    record.  The status after classification is MISSING when the guarded
    block returned; when it raised (saving the snapshot of the page, or the
    deadline alarm) the status is the one of the handler, TIMEOUT for the
    deadline exception and ERROR otherwise. *)
Theorem missing_primary_page `{Platform} `{World W} (fuel : nat) (args : Args)
    (in_main_thread : bool) (run_id worker_id guarantee_id : Z)
    (s : wkstate (W := W)) :
  let run := attempt fuel args in_main_thread run_id worker_id guarantee_id s in
  let l := classify (loc (snd run)) in
  is_missing_page (l_general_html (loc (snd run))) = true ->
  l_attributes_rows l = []
  /\ l_files_rows l = []
  /\ extends (no_secondary_fetch guarantee_id) (wk_log s) (wk_log (snd run))
  /\ match fst run with
     | Ok (Ok _) => l_status l = MISSING
     | Ok (Raise e) =>
         l_status l = (if is_processing_timeout e then TIMEOUT else ERROR)
     | _ => True
     end.
Proof.
  intros run l Hmiss.
  pose proof (attempt_missing guarantee_id s fuel args in_main_thread run_id
                worker_id s eq_refl) as Hrun.
  fold run in Hrun. subst l.
  assert (Hkept : missing_kept guarantee_id s (snd run)).
  { destruct run as [[outcome | e |] s1]; simpl in *; [apply Hrun | exact Hrun ..]. }
  destruct (Hkept Hmiss) as (Hattrs & Hfiles & Hext).
  destruct (classify_no_files _ Hfiles) as (Hattrs' & Hfiles' & Hstatus').
  rewrite Hattrs', Hfiles'. repeat split; try assumption.
  destruct run as [[[u | e |] | e |] s1]; simpl in *; try exact I.
  - destruct Hrun as [_ Hstatus]. specialize (Hstatus Hmiss).
    rewrite Hstatus' ; [exact Hstatus | rewrite Hstatus; discriminate].
  - destruct Hrun as [_ Hstatus]. specialize (Hstatus Hmiss).
    rewrite Hstatus'; [exact Hstatus |].
    rewrite Hstatus. destruct (is_processing_timeout e); discriminate.
Qed.


(** ** Exceptions of the guarded block *)

Section Guard_facts.

Context `{Platform} `{World W}.

Local Abbreviation St := (wkstate (W := W)).

Lemma restart_driver_raises (args : Args) (download_dir : string) (w v : wstate W)
    (e' : exn) :
  _restart_driver args download_dir w = (Raise e', v) ->
  is_live args = true
  /\ exists w1 : wstate W,
       fst (perform (BuildDriver download_dir (headless args) (block_images args)) w1)
       = Raise e'.
Proof.
  unfold _restart_driver. destruct (is_live args); simpl; [| discriminate].
  unfold bind, try_. destruct (perform DriverQuit w) as [[u | e |] w1]; simpl.
  - intros Hrun. split; [reflexivity |]. exists w1. rewrite Hrun. reflexivity.
  - intros Hrun. split; [reflexivity |]. exists w1. rewrite Hrun. reflexivity.
  - discriminate.
Qed.

Lemma caught_value (args : Args) (download_dir : string) (u : unit) (s : St) :
  caught args download_dir (Ok (Ok u), s).
Proof. repeat split; simpl; intros; discriminate. Qed.

Lemma caught_no_return (args : Args) (download_dir : string) (s : St) :
  caught args download_dir (NoReturn, s).
Proof. repeat split; simpl; intros; discriminate. Qed.

Lemma on_timeout_caught (args : Args) (download_dir : string) (e : exn) (s : St) :
  is_processing_timeout e = true ->
  caught args download_dir ((exec on_timeout args e; ret (Raise e)) s).
Proof.
  intros Htimeout. unfold on_timeout, bind, assign, modify. simpl.
  assert (Hok : forall v : wstate W,
             caught args download_dir
               (Ok (Raise e),
                set_ws v
                  (set_loc
                     (add_warnings [exn_msg e]
                        (set_error_message
                           ("Timeout after " ++ str_int (per_id_timeout args) ++ "s")
                           (set_status TIMEOUT (loc s)))) s))).
  { intros v. repeat split; simpl; try discriminate.
    intros e0 He0. injection He0 as <-. unfold classified. rewrite Htimeout.
    simpl. repeat split. apply in_or_app. right. left. reflexivity. }
  destruct (is_live args).
  - unfold try_, io, zoom. simpl.
    destruct (reconcile_windows _) as [[u | e2 |] v]; simpl;
      [apply Hok | apply Hok | apply caught_no_return].
  - simpl. repeat split; simpl; try discriminate.
    intros e0 He0. injection He0 as <-. unfold classified. rewrite Htimeout.
    simpl. repeat split. apply in_or_app. right. left. reflexivity.
Qed.

Lemma on_error_caught (args : Args) (download_dir : string) (e : exn) (s : St) :
  is_processing_timeout e = false ->
  caught args download_dir ((exec on_error args download_dir e; ret (Raise e)) s).
Proof.
  intros Htimeout. unfold on_error, bind, assign, modify. simpl.
  assert (Hok : forall v : wstate W,
             caught args download_dir
               (Ok (Raise e),
                set_ws v
                  (set_loc
                     (set_error_message (exn_msg e) (set_status ERROR (loc s))) s))).
  { intros v. repeat split; simpl; try discriminate.
    intros e0 He0. injection He0 as <-. unfold classified. rewrite Htimeout.
    simpl. split; reflexivity. }
  destruct (is_live args && _).
  - unfold io, zoom. simpl.
    destruct (_restart_driver args download_dir _) as [[u | e2 |] v] eqn:Hrestart;
      simpl; [apply Hok | | apply caught_no_return].
    repeat split; simpl; try discriminate.
    intros e' He'. injection He' as <-. right.
    exact (restart_driver_raises _ _ _ _ _ Hrestart).
  - simpl. repeat split; simpl; try discriminate.
    intros e0 He0. injection He0 as <-. unfold classified. rewrite Htimeout.
    simpl. split; reflexivity.
Qed.

Lemma attempt_caught (fuel : nat) (args : Args) (in_main_thread : bool)
    (run_id worker_id guarantee_id : Z) (s : St) :
  caught args (worker_download_dir worker_id)
         (attempt fuel args in_main_thread run_id worker_id guarantee_id s).
Proof.
  unfold attempt.
  assert (Htail : forall deadline (s2 : St),
             caught args (worker_download_dir worker_id)
               ((do outcome <- try_ (guarded_block fuel args in_main_thread run_id
                                       guarantee_id (worker_download_dir worker_id)
                                       deadline);
                 exec match outcome with
                      | Raise e =>
                          if is_processing_timeout e then on_timeout args e
                          else on_error args (worker_download_dir worker_id) e
                      | _ => ret tt
                      end;
                 ret outcome) s2)).
  { intros deadline s2. unfold bind at 1. unfold try_ at 1.
    destruct (guarded_block _ _ _ _ _ _ _ s2) as [[u | e |] s3].
    - destruct u. apply caught_value.
    - destruct (is_processing_timeout e) eqn:Htimeout.
      + apply on_timeout_caught. exact Htimeout.
      + apply on_error_caught. exact Htimeout.
    - apply caught_no_return. }
  unfold bind at 1. unfold assign, modify. cbv beta iota.
  unfold bind at 1.
  destruct (Z.ltb 0 (per_id_timeout args)).
  - unfold bind at 1. unfold io at 1. unfold zoom.
    destruct (perform TimeMonotonic _) as [[now | e |] v] eqn:Hclock.
    + apply Htail.
    + repeat split; simpl; try discriminate.
      intros e' He'. injection He' as <-. left. eexists. rewrite Hclock. reflexivity.
    + apply caught_no_return.
  - apply Htail.
Qed.

End Guard_facts.

(** C8. An exception raised by the guarded block of an ID (fetching,
    extracting, downloading, saving the snapshots) is caught and classified:
    TIMEOUT with the message "Timeout after Ns" and the text of the
    exception among the warnings for the deadline exception, ERROR with the
    text of the exception as message otherwise.  The attempt itself raises
    only from reading the clock for the deadline or from building the new
    driver in the [except] clause.  After an attempt that returned, the
    turn goes on to classify and persist, and when these return the loop
    goes on with the next ID. *)
Theorem guarded_exceptions_classified `{Platform} `{World W} (fuel : nat)
    (args : Args) (in_main_thread : bool) (run_id worker_id index guarantee_id : Z)
    (rest : list Z) (s : wkstate (W := W)) :
  let run := attempt fuel args in_main_thread run_id worker_id guarantee_id s in
  (forall e, fst run = Ok (Raise e) -> classified args e (loc (snd run)))
  /\ fst run <> Ok NoReturn
  /\ (forall e', fst run = Raise e' ->
        raised_outside_guard args (worker_download_dir worker_id) e')
  /\ (forall outcome,
        fst run = Ok outcome ->
        bool_decide (guarantee_id ∈ processed_ids s) && negb (force args) = false ->
        process_loop fuel args in_main_thread run_id worker_id index
                     (guarantee_id :: rest) s
        = (exec (exec assign classify;
                 exec persist args run_id worker_id guarantee_id;
                 do l <- locals;
                 politeness_sleep args index (l_status l));
           process_loop fuel args in_main_thread run_id worker_id (index + 1) rest)
            (snd run)).
Proof.
  intros run.
  destruct (attempt_caught fuel args in_main_thread run_id worker_id guarantee_id s)
    as (Hclass & Hreturn & Hraise).
  fold run in Hclass, Hreturn, Hraise.
  repeat split; try assumption.
  intros outcome Hrun Hskip. simpl. unfold process_id.
  unfold bind at 1. unfold bind at 1. unfold get_state. rewrite Hskip.
  unfold bind at 1. fold run.
  destruct run as [[o | e |] s1]; simpl in Hrun; try discriminate.
  reflexivity.
Qed.


(** ** A run that finds every ID processed *)

Lemma extends_weaken (Q Q' : event -> Prop) (a b : list event) :
  (forall e, Q e -> Q' e) -> extends Q a b -> extends Q' a b.
Proof.
  intros Hq (new & -> & Hnew). exists new. split; [reflexivity |].
  eapply Forall_impl; [exact Hnew | exact Hq].
Qed.

Lemma every_nth_in (k : nat) (l : list Z) :
  forall skip id, In id (every_nth k skip l) -> In id l.
Proof.
  induction l as [| x l IH]; intros skip id Hin; [exact Hin |].
  destruct skip as [| skip']; simpl in Hin.
  - destruct Hin as [-> | Hin]; [left; reflexivity | right; eapply IH; exact Hin].
  - right. eapply IH. exact Hin.
Qed.

Section Rerun_facts.

Context `{Platform} `{World W}.

Local Abbreviation M := (SE (wstate W)).
Local Abbreviation St := (wkstate (W := W)).

Variable args : Args.
Hypothesis not_forced : force args = false.

Lemma io_run {A} (c : M A) (s : St) r v :
  c (ws s) = (r, v) -> io c s = (r, set_ws v s).
Proof. intros Hc. unfold io, zoom. rewrite Hc. reflexivity. Qed.

Lemma process_loop_skips (fuel : nat) (in_main_thread : bool)
    (run_id worker_id : Z) (ids : list Z) :
  forall (index : Z) (s : St),
    (forall id, In id ids -> id ∈ processed_ids s) ->
    process_loop fuel args in_main_thread run_id worker_id index ids s = (Ok tt, s).
Proof.
  induction ids as [| id ids IH]; intros index s Hin; [reflexivity |].
  simpl. unfold bind at 1. unfold process_id. unfold bind at 1. unfold get_state.
  rewrite bool_decide_true by (apply Hin; left; reflexivity).
  rewrite not_forced. simpl.
  apply IH. intros id' Hid'. apply Hin. right. exact Hid'.
Qed.

Lemma writer_flush_empty {R} (getb : St -> list R) (setb : list R -> St -> St)
    (mk : list R -> batch) (output_dir prefix : string) (s : St) :
  getb s = [] -> writer_flush getb setb mk output_dir prefix s = (Ok tt, s).
Proof. intros He. unfold writer_flush, bind, get_state. rewrite He. reflexivity. Qed.

Variable P : gset Z.
Variable R : pydict Z.
Variable s0 : St.

Local Abbreviation resting := (fun s : St => idle P R s0 s /\ drained s).

Lemma resting_io {A} (c : M A) :
  emits trace idle_call c ->
  triple resting (io c) (fun _ => resting) resting.
Proof.
  intros Hc. apply (triple_io idle_call c _ Hc).
  intros s v [(Hp & Hr & He) Hd] Hv. split; [| exact Hd].
  repeat split; try assumption. eapply extends_trans; [exact He | exact Hv].
Qed.

Lemma process_ids_idle (fuel : nat) (ids : list Z) (worker_id run_id : Z)
    (in_main_thread : bool) :
  (forall id, In id ids -> id ∈ P) ->
  triple (idle P R s0) (_process_ids fuel ids worker_id run_id args in_main_thread)
         (fun _ => idle P R s0) (idle P R s0).
Proof.
  intros Hin.
  eapply triple_conseq with (Pre' := idle P R s0) (Post' := fun _ => resting)
                            (Exc' := fun s => idle P R s0 s);
    [| auto | intros ? ? [? ?]; assumption | auto].
  unfold _process_ids.
  eapply triple_bind with (Mid := fun _ => idle P R s0);
    [apply triple_modify; intros s Hs; exact Hs |]. intros ?.
  eapply triple_bind with (Mid := fun _ => idle P R s0);
    [apply triple_modify; intros s Hs; exact Hs |]. intros ?.
  eapply triple_bind
    with (Mid := fun _ s => idle P R s0 s /\ guarantees_batch s = []);
    [apply triple_modify; intros s Hs; split; [exact Hs | reflexivity] |]. intros ?.
  eapply triple_bind
    with (Mid := fun _ s => idle P R s0 s /\ guarantees_batch s = []
                            /\ attributes_batch s = []);
    [apply triple_modify; intros s [Hs Hg];
     split; [exact Hs | split; [exact Hg | reflexivity]] |].
  intros ?.
  eapply triple_bind with (Mid := fun _ => resting);
    [apply triple_modify; intros s (Hs & Hg & Ha);
     split; [exact Hs | split; [exact Hg | split; [exact Ha | reflexivity]]] |].
  intros ?.
  eapply triple_conseq with (Pre' := resting) (Post' := fun _ => resting)
                            (Exc' := resting);
    [| auto | auto | intros ? [? ?]; assumption].
  eapply triple_bind with (Mid := fun _ => resting).
  { destruct (Z.ltb _ _); [| apply triple_ret; auto].
    apply resting_io, emits_perform. reflexivity. }
  intros ?.
  eapply triple_bind with (Mid := fun _ => resting).
  { destruct (is_live args); [| apply triple_ret; auto].
    apply resting_io, emits_perform. reflexivity. }
  intros ?.
  eapply triple_bind with (Mid := fun _ => resting).
  { eapply triple_finally with (Post := fun _ => resting) (Exc := resting).
    - intros s [Hs Hd].
      assert (Hloop : process_loop fuel args in_main_thread run_id worker_id 1 ids s
                      = (Ok tt, s)).
      { apply process_loop_skips. intros id Hid. destruct Hs as (-> & _). auto. }
      rewrite (bind_step _ _ _ _ _ Hloop).
      destruct Hd as (Hg & Ha & Hf).
      unfold guarantees_flush, attributes_flush, files_flush.
      rewrite (bind_step _ _ _ _ _ (writer_flush_empty _ _ _ _ _ s Hg)).
      rewrite (bind_step _ _ _ _ _ (writer_flush_empty _ _ _ _ _ s Ha)).
      rewrite (writer_flush_empty _ _ _ _ _ s Hf).
      split; [exact Hs | repeat split; assumption].
    - intros ?. destruct (is_live args); [| apply triple_ret; auto].
      apply resting_io, emits_perform. reflexivity.
    - destruct (is_live args); [| apply triple_ret; auto].
      apply resting_io, emits_perform. reflexivity.
    - auto. }
  intros ?.
  eapply triple_bind;
    [apply (triple_get _ (fun _ s => resting s)); auto |].
  intros ?. apply triple_ret. auto.
Qed.

Lemma run_pool_idle (fuel : nat) (run_id : Z) (slices : list (list Z)) :
  forall worker_id,
    (forall slice id, In slice slices -> In id slice -> id ∈ P) ->
    triple (idle P R s0) (run_pool fuel args run_id worker_id slices)
           (fun _ => idle P R s0) (idle P R s0).
Proof.
  induction slices as [| slice slices IH]; intros worker_id Hin; simpl.
  - apply triple_ret. auto.
  - assert (Hrest : forall slice' id, In slice' slices -> In id slice' -> id ∈ P).
    { intros slice' id Hs Hid. eapply Hin; [right; exact Hs | exact Hid]. }
    assert (Hslice : forall id, In id slice -> id ∈ P).
    { intros id Hid. eapply Hin; [left; reflexivity | exact Hid]. }
    destruct slice as [| id slice'].
    + apply IH. exact Hrest.
    + eapply triple_bind with (Mid := fun _ => idle P R s0).
      * eapply triple_try; [apply process_ids_idle; exact Hslice | auto | auto | auto].
      * intros r. eapply triple_bind; [apply IH; exact Hrest |].
        intros rs. apply triple_ret. auto.
Qed.

Lemma collect_stats_idle (results : list (result Stats)) :
  forall acc,
    triple (idle P R s0) (collect_stats acc results) (fun _ => idle P R s0)
           (idle P R s0).
Proof.
  induction results as [| r results IH]; intros acc; simpl.
  - apply triple_ret. auto.
  - eapply triple_bind with (Mid := fun _ => idle P R s0);
      [apply triple_pure_call; auto |].
    intros ?. apply IH.
Qed.

Lemma run_workers_idle (fuel : nat) (run_id : Z) (ids : list Z) :
  (forall id, In id ids -> id ∈ P) ->
  triple (idle P R s0) (run_workers fuel args run_id ids) (fun _ => idle P R s0)
         (idle P R s0).
Proof.
  intros Hin. unfold run_workers. destruct (Z.leb _ _).
  - apply process_ids_idle. exact Hin.
  - eapply triple_bind; [apply run_pool_idle | intros ?; apply collect_stats_idle].
    intros slice id Hslice Hid. apply in_map_iff in Hslice as (i & <- & _).
    apply Hin. eapply every_nth_in. exact Hid.
Qed.

End Rerun_facts.


Lemma next_run_id_writes `{Platform} `{World W} (path : string) (v v' : wstate W)
    (run_id : Z) :
  next_run_id path v = (Ok run_id, v') ->
  exists now,
    head (trace v')
    = Some (Called (JsonDump KRunState path
                      {| last_run_id := Some run_id; rs_updated_at := Some now |})).
Proof.
  unfold next_run_id. intros Hrun. inv_bind Hrun. run_simple.
  unfold save_json in Hstep1. rewrite perform_run in Hstep1.
  inversion Hstep1; subst. exists a0. reflexivity.
Qed.

(** C6. A run with [force] off whose worklist lies within the processed IDs
    read from the log processes nothing: from the moment the log is read,
    its only calls are the waits of the workers, starting and stopping the
    browser, and saving the retry map as it was loaded; no record is
    written, no ID is added to the log, no checkpoint is saved, and the
    processed set and the retry map end as they were.  Before that, the run
    takes a new run ID and writes it, with the time, to the run-counter
    file. *)
Theorem rerun_processes_nothing `{Platform} `{World W} (fuel : nat) (args : Args)
    (ids : list Z) (s : wkstate (W := W)) (run_id : Z) (processed : gset Z) :
  let r1 := next_run_id run_state_path (ws s) in
  let r2 := perform (MkdirParents LOGS_DIR) (snd r1) in
  let r3 := load_processed_ids processed_ids_path (snd r2) in
  let run := main_with fuel args ids s in
  force args = false ->
  fst r1 = Ok run_id -> fst r2 = Ok tt -> fst r3 = Ok processed ->
  (forall id, In id ids -> id ∈ processed) ->
  processed_ids (snd run) = processed
  /\ retry_state (snd run) = retry_state s
  /\ extends (idle_or_resave (retry_state s)) (trace (snd r3)) (wk_log (snd run))
  /\ exists now,
       head (trace (snd r1))
       = Some (Called (JsonDump KRunState run_state_path
                         {| last_run_id := Some run_id; rs_updated_at := Some now |})).
Proof.
  cbv zeta.
  destruct (next_run_id run_state_path (ws s)) as [o1 v1] eqn:E1. simpl fst. simpl snd.
  destruct (perform (MkdirParents LOGS_DIR) v1) as [o2 v2] eqn:E2. simpl fst. simpl snd.
  destruct (load_processed_ids processed_ids_path v2) as [o3 v3] eqn:E3.
  simpl fst. simpl snd.
  intros Hforce -> -> -> Hin.
  remember (main_with fuel args ids s) as run eqn:Hrun.
  unfold main_with in Hrun.
  rewrite (bind_step _ _ _ _ _ (io_run _ s _ _ E1)) in Hrun.
  rewrite (bind_step _ _ _ _ _ (io_run _ (set_ws v1 s) _ _ E2)) in Hrun.
  rewrite (bind_step _ _ _ _ _ (io_run _ (set_ws v2 (set_ws v1 s)) _ _ E3)) in Hrun.
  rewrite (bind_step (modify _) _ _ tt _ eq_refl) in Hrun.
  set (s3 := set_processed_ids processed (set_ws v3 (set_ws v2 (set_ws v1 s)))) in Hrun.
  assert (Hstart : idle processed (retry_state s) s3 s3).
  { repeat split. apply extends_refl. }
  pose proof (run_workers_idle args Hforce processed (retry_state s) s3 fuel run_id
                ids Hin s3 Hstart) as Hworkers.
  assert (Hlog : wk_log s3 = trace v3) by reflexivity.
  assert (Hweak : forall s4 : wkstate,
             idle processed (retry_state s) s3 s4 ->
             processed_ids s4 = processed
             /\ retry_state s4 = retry_state s
             /\ extends (idle_or_resave (retry_state s)) (trace v3) (wk_log s4)).
  { intros s4 (Hp & Hr & He). repeat split; try assumption.
    rewrite <- Hlog. eapply extends_weaken; [| exact He]. intros e Hq. left. exact Hq. }
  assert (Hcounter := next_run_id_writes _ _ _ _ E1).
  unfold bind at 1 in Hrun.
  destruct (run_workers fuel args run_id ids s3) as [[st | e |] s4];
    destruct (Hweak s4 Hworkers) as (Hp & Hr & He).
  - unfold bind, get_state, io, zoom, save_json in Hrun.
    rewrite perform_run in Hrun. simpl in Hrun.
    assert (Hext : extends (idle_or_resave (retry_state s)) (trace v3)
                     (Called (JsonDump KRetry retry_queue_path (retry_state s4))
                      :: trace (ws s4))).
    { eapply extends_trans; [exact He |]. apply extends_cons. right.
      rewrite Hr. reflexivity. }
    destruct (fst (handle _ _ _)) as [u | e |]; subst run;
      (split; [exact Hp | split; [exact Hr | split; [exact Hext | exact Hcounter]]]).
  - subst run.
    split; [exact Hp | split; [exact Hr | split; [exact He | exact Hcounter]]].
  - subst run.
    split; [exact Hp | split; [exact Hr | split; [exact He | exact Hcounter]]].
Qed.


(** ** Retried IDs *)

Section Retry_facts.

Context `{Platform} `{World W}.

Lemma parse_ids_retries_first {S} (args : Args) (retry_ids ids : list Z) (s s' : S) :
  skip_retries args = false -> retry_ids <> [] ->
  parse_ids args retry_ids s = (Ok ids, s') ->
  exists rest, ids = (retry_ids ++ rest)%list.
Proof.
  intros Hskip Hne Hrun. unfold parse_ids in Hrun.
  apply bind_ok in Hrun as (base & s1 & _ & Hrun).
  rewrite Hskip in Hrun. destruct retry_ids as [| r rs]; [congruence |].
  simpl in Hrun. inversion Hrun. eexists. reflexivity.
Qed.

Lemma process_id_skips (fuel : nat) (args : Args) (in_main_thread : bool)
    (run_id worker_id index guarantee_id : Z) (s : wkstate (W := W)) :
  force args = false -> guarantee_id ∈ processed_ids s ->
  process_id fuel args in_main_thread run_id worker_id index guarantee_id s
  = (Ok tt, s).
Proof.
  intros Hforce Hin. unfold process_id. unfold bind at 1. unfold get_state.
  rewrite bool_decide_true by exact Hin. rewrite Hforce. reflexivity.
Qed.

End Retry_facts.

(** C4. What the code does with an ID of the retry map.  The IDs of the
    retry map open the worklist.  Persisting an ID, whatever its status,
    puts it among the processed IDs, and with [force] off a turn of the
    loop on a processed ID returns at once: nothing is fetched, no row is
    added to a batch and the retry map stays as it is.  So an ID that a run
    recorded for retry is skipped by the next run. *)
Theorem retry_ids_first_then_skipped `{Platform} `{World W} (fuel : nat)
    (args : Args) (in_main_thread : bool) (run_id worker_id index guarantee_id : Z)
    (retry_ids ids : list Z) (s s1 s2 : wkstate (W := W)) :
  (skip_retries args = false -> retry_ids <> [] ->
   parse_ids args retry_ids s = (Ok ids, s1) ->
   exists rest, ids = (retry_ids ++ rest)%list)
  /\ (persist args run_id worker_id guarantee_id s = (Ok tt, s2) ->
      guarantee_id ∈ processed_ids s2)
  /\ (force args = false -> guarantee_id ∈ processed_ids s ->
      process_id fuel args in_main_thread run_id worker_id index guarantee_id s
      = (Ok tt, s)).
Proof.
  split; [| split].
  - apply parse_ids_retries_first.
  - intros Hrun. rewrite (persist_processed_ids _ _ _ _ _ _ Hrun). set_solver.
  - apply process_id_skips.
Qed.

(** * Further properties of the code *)

(** ** The partitions of the workers (main, line 560) *)

Lemma every_nth_nil (k skip : nat) : every_nth k skip [] = [].
Proof. destruct skip; reflexivity. Qed.

Lemma concat_map_nil {A B} (l : list A) : concat (List.map (fun _ => @nil B) l) = [].
Proof. induction l; simpl; auto. Qed.

Lemma slices_permutation (k : nat) (l : list Z) :
  Permutation (concat (List.map (fun i => every_nth (S k) i l) (seq 0 (S k)))) l.
Proof.
  induction l as [| x l IH].
  - rewrite (List.map_ext _ (fun _ => @nil Z)) by (intros; apply every_nth_nil).
    rewrite concat_map_nil. constructor.
  - change (seq 0 (S k)) with (0%nat :: seq 1 k).
    rewrite List.map_cons, concat_cons.
    change (every_nth (S k) 0 (x :: l)) with (x :: every_nth (S k) (S k - 1) l).
    replace (S k - 1)%nat with k by lia.
    rewrite <- seq_shift, List.map_map.
    change (fun j => every_nth (S k) (S j) (x :: l))
      with (fun j => every_nth (S k) j l).
    simpl. constructor.
    rewrite seq_S, List.map_app, concat_app in IH. simpl in IH.
    rewrite app_nil_r in IH.
    etransitivity; [apply Permutation_app_comm | exact IH].
Qed.

(** X1.  With [workers] = n >= 1 the slices [ids[i::n]], i = 0 .. n-1, that
    [main] hands to the workers hold every ID of the worklist exactly once
    between them: put one after the other they are a permutation of the
    worklist. *)
Theorem worker_slices_partition (n : Z) (ids : list Z) :
  1 <= n ->
  Permutation
    (concat (List.map (fun i => stride i (Z.to_nat n) ids) (seq 0 (Z.to_nat n))))
    ids.
Proof.
  intros Hn. destruct (Z.to_nat n) as [| k] eqn:E; [lia |].
  unfold stride. apply slices_permutation.
Qed.

(** ** Classification (lines 306-319) *)

(** X2.  A record that leaves the classification with status OK entered it
    with status OK, has no error message, and none of its file rows has a
    FAILED status. *)
Theorem classified_ok_is_clean (l : Locals) :
  l_status (classify l) = OK ->
  l_status l = OK
  /\ is_empty (l_error_message l) = true
  /\ failed_rows (l_files_rows l) = [].
Proof.
  unfold classify, classify_files, downgrade_on_message.
  rewrite filter_failed_rows.
  destruct l as [st msg warns attrs rows atts ghtml dhtml]. simpl.
  destruct rows as [| row rows].
  - simpl. destruct st; simpl; try discriminate.
    destruct (is_empty msg); simpl; [auto | discriminate].
  - destruct (failed_rows (row :: rows)) as [| f fs] eqn:E.
    + simpl. destruct st; simpl; try discriminate.
      destruct (is_empty msg); simpl; [auto | discriminate].
    + destruct (Nat.eqb _ _); simpl; [discriminate |].
      destruct st; simpl; discriminate.
Qed.

(** ** The retry map (lines 345-352) *)

(** X3.  The update of the retry map for one ID leaves the entry of every
    other ID as it was. *)
Theorem retry_update_is_local (st : Status) (guarantee_id other max_retries : Z)
    (retry_state : pydict Z) :
  other <> guarantee_id ->
  dict_get (str_int other)
           (update_retry_state st guarantee_id max_retries retry_state)
  = dict_get (str_int other) retry_state.
Proof.
  intros Hne.
  assert (Hkey : str_int guarantee_id <> str_int other).
  { unfold str_int. intros Heq. apply Hne. symmetry.
    exact (pretty_Z_inj _ _ Heq). }
  unfold update_retry_state.
  destruct st; try destruct (Z.ltb _ _);
    auto using dict_get_set_ne, dict_get_pop_ne.
Qed.

(** ** Time left (lines 75-88) *)

(** X4.  [_remaining_seconds] without a deadline returns the default and
    reads no clock.  With a deadline it returns 0 when the deadline has been
    reached; otherwise at least 1, at most the larger of 1 and the default,
    and no more than the whole seconds left unless less than a second is
    left, when it returns 1. *)
Theorem remaining_seconds_bounds `{Platform} `{World W} (deadline : option Z)
    (default : Z) (s s' : wstate W) (r : Z) :
  _remaining_seconds deadline default s = (Ok r, s') ->
  match deadline with
  | None => r = default /\ s' = s
  | Some d =>
      exists now,
        perform TimeMonotonic s = (Ok now, s')
        /\ (d <= now -> r = 0)
        /\ (now < d ->
            1 <= r <= Z.max 1 default
            /\ (1000 * r <= d - now \/ r = 1))
  end.
Proof.
  unfold _remaining_seconds. destruct deadline as [d |].
  - intros Hrun. apply bind_ok in Hrun as (now & s1 & Hclock & Hrun).
    exists now.
    destruct (Z.leb_spec (d - now) 0) as [Hle | Hgt];
      inversion Hrun; subst; clear Hrun.
    + split; [exact Hclock |]. split; [reflexivity | lia].
    + split; [exact Hclock |]. split; [lia |]. intros _.
      pose proof (Z.div_pos (d - now) 1000 ltac:(lia) ltac:(lia)) as Hdiv.
      pose proof (Z.mul_div_le (d - now) 1000 ltac:(lia)) as Hfloor.
      split; [lia |].
      destruct (Z.max_spec 1 (Z.min default ((d - now) / 1000)))
        as [[_ ->] | [_ ->]]; [| right; reflexivity].
      left. lia.
  - intros Hrun. inversion Hrun. auto.
Qed.

(** ** The worklist (parse_ids, lines 390-404) *)

Lemma in_list_In (i : Z) (l : list Z) : in_list i l = true <-> In i l.
Proof.
  unfold in_list. rewrite existsb_exists. split.
  - intros (x & Hx & Heq). apply Z.eqb_eq in Heq. subst. exact Hx.
  - intros Hin. exists i. split; [exact Hin | apply Z.eqb_refl].
Qed.

Lemma retries_merge_members (retry_ids requested : list Z) (i : Z) :
  In i (retry_ids ++ List.filter (fun i => negb (in_list i retry_ids)) requested)%list
  <-> In i retry_ids \/ In i requested.
Proof.
  rewrite in_app_iff, filter_In. split.
  - intros [Hr | [Hq _]]; auto.
  - intros [Hr | Hq]; [auto |].
    destruct (in_list i retry_ids) eqn:E.
    + left. apply in_list_In. exact E.
    + right. split; [exact Hq | reflexivity].
Qed.

Lemma retries_merge_nodup (retry_ids requested : list Z) :
  NoDup retry_ids -> NoDup requested ->
  NoDup (retry_ids ++ List.filter (fun i => negb (in_list i retry_ids)) requested)%list.
Proof.
  intros Hr Hq. apply NoDup_app. split; [exact Hr |]. split.
  - intros i Hi Hf. apply list_elem_of_In in Hi. apply list_elem_of_In in Hf.
    apply filter_In in Hf as [_ Hf].
    apply in_list_In in Hi. rewrite Hi in Hf. discriminate.
  - apply NoDup_ListNoDup, List.NoDup_filter, NoDup_ListNoDup, Hq.
Qed.

(** X5.  The worklist [parse_ids] returns is made of the IDs asked for on
    the command line (what it returns when there is no retry ID) and the
    retry IDs.  With [skip_retries], or without retry IDs, it is the IDs
    asked for.  Otherwise the retry IDs come first, followed by the IDs
    asked for that are no retry IDs: an ID is in the worklist exactly when
    it is a retry ID or was asked for, and when neither list repeats an ID
    the worklist repeats none. *)
Theorem parse_ids_merges_retries `{Platform} {S} (args : Args) (retry_ids ids : list Z)
    (s s' : S) :
  parse_ids args retry_ids s = (Ok ids, s') ->
  exists requested,
    parse_ids args [] s = (Ok requested, s')
    /\ ids = (if skip_retries args then requested
              else match retry_ids with
                   | [] => requested
                   | _ :: _ =>
                       (retry_ids
                        ++ List.filter (fun i => negb (in_list i retry_ids)) requested)%list
                   end)
    /\ (forall i, In i ids
                  <-> (skip_retries args = false /\ In i retry_ids) \/ In i requested)
    /\ (NoDup retry_ids -> NoDup requested -> NoDup ids).
Proof.
  unfold parse_ids. intros Hrun.
  apply bind_ok in Hrun as (base & s1 & Hbase & Hrun).
  exists (match max_ids args with Some n => py_take n base | None => base end).
  rewrite (bind_step _ _ _ _ _ Hbase).
  assert (Hnone : negb (skip_retries args) && negb (Nat.eqb (List.length (@nil Z)) 0)
                  = false) by (destruct (skip_retries args); reflexivity).
  rewrite Hnone.
  destruct (skip_retries args); cbn [negb andb] in Hrun.
  - unfold ret in Hrun. injection Hrun as <- <-.
    split; [reflexivity |]. split; [reflexivity |].
    split; [| auto]. intros i. split; [auto |]. intros [[? _] | ?]; [discriminate | auto].
  - destruct retry_ids as [| r rs]; cbn [List.length Nat.eqb negb] in Hrun;
      unfold ret in Hrun; injection Hrun as <- <-.
    + split; [reflexivity |]. split; [reflexivity |]. split; [| auto].
      intros i. split; [auto |]. intros [[_ []] | ?]. assumption.
    + split; [reflexivity |]. split; [reflexivity |]. split.
      * intros i. etransitivity; [apply (retries_merge_members (r :: rs)) |]. split.
        -- intros [? | ?]; auto.
        -- intros [[_ ?] | ?]; auto.
      * apply (retries_merge_nodup (r :: rs)).
Qed.

Lemma map_m_raises {S A B} (f : A -> SE S B) (l : list A) (P : exn -> Prop) (s : S) :
  (forall x, In x l ->
             (exists y, f x s = (Ok y, s)) \/ (exists e, f x s = (Raise e, s) /\ P e)) ->
  (exists x, In x l /\ exists e, f x s = (Raise e, s)) ->
  exists e, map_m f l s = (Raise e, s) /\ P e.
Proof.
  induction l as [| x l IH]; intros Hall (bad & Hin & Hbad); [destruct Hin |].
  simpl. destruct (Hall x (or_introl eq_refl)) as [(y & Hy) | (e & He & HP)].
  - rewrite (bind_step _ _ _ _ _ Hy).
    destruct IH as (e & He & HP).
    + intros x' Hx'. apply Hall. right. exact Hx'.
    + destruct Hin as [<- | Hin].
      * destruct Hbad as (e & He). congruence.
      * exists bad. auto.
    + exists e. split; [| exact HP]. rewrite (bind_raise _ _ _ _ _ He). reflexivity.
  - exists e. split; [| exact HP]. rewrite (bind_raise _ _ _ _ _ He). reflexivity.
Qed.

(** X6.  When [--ids] is given and one of its comma-separated items is not
    blank and is no integer, [parse_ids] raises ValueError and returns no
    worklist. *)
Theorem parse_ids_rejects_bad_item `{Platform} {S} (args : Args)
    (retry_ids : list Z) (text item : string) (s : S) :
  ids args = Some text ->
  is_empty text = false ->
  In item (split_on "," text) ->
  is_empty (py_strip item) = false ->
  py_int (py_strip item) = None ->
  exists e, parse_ids args retry_ids s = (Raise e, s) /\ exn_cls e = ValueError.
Proof.
  intros Hids Htext Hin Hblank Hint. unfold parse_ids. rewrite Hids, Htext.
  destruct (map_m_raises
              (fun x => pure_call (S := S) (int_of (py_strip x)))
              (List.filter (fun x => negb (is_empty (py_strip x))) (split_on "," text))
              (fun e => exn_cls e = ValueError) s) as (e & He & Hcls).
  - intros x _. unfold pure_call, int_of. destruct (py_int (py_strip x)).
    + left. eauto.
    + right. eexists. split; reflexivity.
  - exists item. split.
    + apply filter_In. split; [exact Hin | rewrite Hblank; reflexivity].
    + unfold pure_call, int_of. rewrite Hint. eauto.
  - exists e. split; [| exact Hcls]. rewrite (bind_raise _ _ _ _ _ He). reflexivity.
Qed.

(** ** The run counter (storage.py, lines 83-88) *)

(** X7.  [next_run_id] returns one more than the [last_run_id] of the
    document it loads, 1 when the file does not exist or holds no
    [last_run_id], and its last call writes the ID it returns to the
    file. *)
Theorem next_run_id_counts `{Platform} `{World W} (path : string)
    (s s' : wstate W) (run_id : Z) :
  next_run_id path s = (Ok run_id, s') ->
  exists state now,
    fst (load_json KRunState path empty_run_state s) = Ok state
    /\ run_id = default 0 (last_run_id state) + 1
    /\ (fst (perform (PathExists path) s) = Ok false -> run_id = 1)
    /\ head (trace s')
       = Some (Called (JsonDump KRunState path
                         {| last_run_id := Some run_id; rs_updated_at := Some now |})).
Proof.
  unfold next_run_id. intros Hrun. inv_bind Hrun. run_simple.
  exists a, a0. rewrite Hstep. split; [reflexivity |]. split; [reflexivity |].
  split.
  - intros Hmissing. unfold load_json in Hstep.
    destruct (perform (PathExists path) s) as [[present | e |] v1] eqn:Hexists;
      simpl in Hmissing; try discriminate.
    injection Hmissing as ->.
    rewrite (bind_step _ _ _ _ _ Hexists) in Hstep. simpl in Hstep.
    injection Hstep as <- _. reflexivity.
  - unfold save_json in Hstep1. rewrite perform_run in Hstep1.
    inversion Hstep1; subst. reflexivity.
Qed.

(** ** The union of attribute names (storage.py, lines 91-104) *)

Lemma union_add_fields (union : gmap string (gset string)) (row : AttributeRow)
    (section field : string) :
  field ∈ default ∅ (union_add union row !! section)
  <-> field ∈ default ∅ (union !! section)
      \/ (a_section row = section /\ a_field_name row = field
          /\ is_empty section = false /\ is_empty field = false).
Proof.
  unfold union_add.
  destruct (is_empty (a_section row)) eqn:Hs; simpl.
  - split; [auto |]. intros [? | (<- & _ & Hne & _)]; [assumption | congruence].
  - destruct (is_empty (a_field_name row)) eqn:Hf; simpl.
    + split; [auto |]. intros [? | (_ & <- & _ & Hne)]; [assumption | congruence].
    + destruct (decide (a_section row = section)) as [<- | Hne].
      * rewrite lookup_insert_eq. simpl. rewrite elem_of_union, elem_of_singleton.
        split.
        -- intros [-> | ?]; [right; auto | left; assumption].
        -- intros [? | (_ & <- & _)]; auto.
      * rewrite lookup_insert_ne by exact Hne. split; [auto |].
        intros [? | (? & _)]; [assumption | congruence].
Qed.

Lemma union_fold_fields (rows : list AttributeRow) :
  forall (union : gmap string (gset string)) (section field : string),
    field ∈ default ∅ (fold_left union_add rows union !! section)
    <-> field ∈ default ∅ (union !! section)
        \/ exists row, In row rows /\ a_section row = section
                       /\ a_field_name row = field
                       /\ is_empty section = false /\ is_empty field = false.
Proof.
  induction rows as [| row rows IH]; intros union section field; simpl.
  - split; [auto |]. intros [? | (? & [] & _)]. assumption.
  - rewrite IH, union_add_fields. split.
    + intros [[? | ?] | (row' & ? & ?)]; [auto | right; exists row; tauto |].
      right. exists row'. tauto.
    + intros [? | (row' & [<- | ?] & ?)]; [auto | left; right; tauto |].
      right. exists row'. tauto.
Qed.

(** X8.  [update_attribute_union] saves, as its last call, a union in which
    a field name is listed under a section exactly when it was listed there
    in the document it loaded or one of the new rows has that section and
    that field name, both non-empty: no name is ever dropped, and rows with
    an empty section or field name add nothing. *)
Theorem attribute_union_grows `{Platform} `{World W} (path : string)
    (new_fields : list AttributeRow) (s s' : wstate W) :
  update_attribute_union path new_fields s = (Ok tt, s') ->
  exists existing saved,
    fst (load_json KUnion path (∅ : gmap string (gset string)) s) = Ok existing
    /\ head (trace s') = Some (Called (JsonDump KUnion path saved))
    /\ forall section field : string,
         field ∈ default ∅ (saved !! section)
         <-> field ∈ default ∅ (existing !! section)
             \/ exists row, In row new_fields /\ a_section row = section
                            /\ a_field_name row = field
                            /\ is_empty section = false /\ is_empty field = false.
Proof.
  unfold update_attribute_union. intros Hrun. inv_bind Hrun.
  exists a, (fold_left union_add new_fields a). rewrite Hstep.
  split; [reflexivity |]. split.
  - unfold save_json in Hrun. rewrite perform_run in Hrun.
    inversion Hrun; subst. reflexivity.
  - apply union_fold_fields.
Qed.

(** ** The batch writers (storage.py, lines 107-127) *)

Lemma rows_written_cons {R} (sel : batch -> list R) (e : event) (log : list event) :
  rows_written sel (e :: log)
  = (rows_written sel log
     ++ match e with
        | Called c => match c with ToParquet _ _ b => sel b | _ => [] end
        end)%list.
Proof.
  unfold rows_written. simpl. rewrite flat_map_app. simpl.
  rewrite app_nil_r. reflexivity.
Qed.

Section Writer_facts.

Context `{Platform} `{World W}.

Local Abbreviation St := (wkstate (W := W)).

Context {R : Type}.
Variable getb : St -> list R.
Variable setb : list R -> St -> St.
Variable mk : list R -> batch.
Variable sel : batch -> list R.
Hypothesis get_set : forall v s, getb (setb v s) = v.
Hypothesis log_set : forall v s, ws (setb v s) = ws s.
Hypothesis get_ws : forall v s, getb (set_ws v s) = getb s.
Hypothesis sel_mk : forall rows, sel (mk rows) = rows.

Lemma writer_flush_rows (dir prefix : string) :
  flush_keeps_rows getb sel (writer_flush getb setb mk dir prefix).
Proof.
  intros s. unfold writer_flush, bind, get_state.
  destruct (getb s) as [| x rows] eqn:Hbatch.
  - simpl. rewrite app_nil_r. auto.
  - unfold io, zoom. rewrite perform_run.
    destruct (fst (handle _ _ _)) as [u | e |]; simpl.
    + unfold wk_log. rewrite log_set, get_set. simpl.
      rewrite rows_written_cons, sel_mk.
      split; [reflexivity |]. split; [reflexivity | discriminate].
    + rewrite get_ws. exact Hbatch.
    + rewrite get_ws. exact Hbatch.
Qed.

Lemma writer_add_rows (dir prefix : string) :
  add_keeps_rows getb sel (writer_add getb setb mk dir prefix).
Proof.
  intros records s. unfold writer_add, bind, modify, get_state.
  rewrite get_set.
  destruct (Nat.leb BATCH_SIZE (List.length (getb s ++ records))) eqn:Hfull.
  - pose proof (writer_flush_rows dir prefix (setb (getb s ++ records)%list s))
      as Hflush.
    destruct (writer_flush getb setb mk dir prefix _) as [[u | e |] s'].
    + destruct Hflush as (Hwritten & Hempty & _).
      rewrite get_set in Hwritten. unfold wk_log in Hwritten at 2.
      rewrite log_set in Hwritten. fold (wk_log s) in Hwritten.
      rewrite Hwritten, Hempty, app_nil_r.
      split; [reflexivity |]. unfold BATCH_SIZE. simpl. lia.
    + rewrite Hflush. apply get_set.
    + rewrite Hflush. apply get_set.
  - simpl. rewrite get_set. unfold wk_log. rewrite log_set.
    split; [reflexivity |]. apply Nat.leb_gt. exact Hfull.
Qed.

End Writer_facts.

(** X9.  Each of the three batch writers loses no row and writes none
    twice.  After [add] returns, the rows handed to [to_parquet] so far
    followed by the rows waiting in the batch are those before followed by
    the new rows, and fewer than 200 rows are waiting; after [flush]
    returns nothing is waiting, and a flush of an empty batch does nothing.
    When the write raises, the rows stay in the batch. *)
Theorem writers_keep_rows `{Platform} `{World W} (run_id worker_id : Z) :
  add_keeps_rows (W := W) guarantees_batch guarantee_rows_of
                 (guarantees_add run_id worker_id)
  /\ add_keeps_rows (W := W) attributes_batch attribute_rows_of
                    (attributes_add run_id worker_id)
  /\ add_keeps_rows (W := W) files_batch file_rows_of (files_add run_id worker_id)
  /\ flush_keeps_rows (W := W) guarantees_batch guarantee_rows_of
                      (guarantees_flush run_id worker_id)
  /\ flush_keeps_rows (W := W) attributes_batch attribute_rows_of
                      (attributes_flush run_id worker_id)
  /\ flush_keeps_rows (W := W) files_batch file_rows_of
                      (files_flush run_id worker_id).
Proof.
  repeat split;
    first [ apply writer_add_rows | apply writer_flush_rows ]; reflexivity.
Qed.

(** ** Offline file rows (lines 477-504) *)

Lemma offline_rows_from_spec `{Platform} (run_id guarantee_id : Z)
    (attachments : list Attachment) :
  forall (index : Z) (i : nat) (item : Attachment),
    attachments !! i = Some item ->
    exists row,
      offline_rows_from run_id guarantee_id index attachments !! i = Some row
      /\ f_file_index row = index + Z.of_nat i
      /\ f_download_status row = SKIPPED_OFFLINE
      /\ f_original_filename row = py_strip (att_original_filename item)
      /\ f_stored_filename row
         = stored_name guarantee_id (index + Z.of_nat i)
             (if is_empty (py_strip (att_original_filename item)) then EmptyString
              else path_suffix (py_strip (att_original_filename item)))
      /\ f_stored_path row
         = RAW_ATTACHMENTS_DIR // str_int guarantee_id // f_stored_filename row
      /\ f_page_count row = 0
      /\ f_sha256 row = EmptyString.
Proof.
  induction attachments as [| a rest IH]; intros index i item Hi; [discriminate |].
  destruct i as [| i]; simpl in Hi.
  - injection Hi as ->. eexists. split; [reflexivity |].
    replace (index + Z.of_nat 0) with index by lia. simpl. repeat split.
  - destruct (IH (index + 1) i item Hi) as (row & Hrow & Hfacts).
    exists row. split; [exact Hrow |].
    replace (index + Z.of_nat (S i)) with (index + 1 + Z.of_nat i) by lia.
    exact Hfacts.
Qed.

(** X10.  Offline, [_offline_files_rows] gives one row per attachment, in
    order: row i (from 0) has file index i+1, status SKIPPED_OFFLINE, no
    page count and no hash, and names the file as the downloader would
    store it, [<id>_<index><suffix of the stripped name>] under the
    directory of the record. *)
Theorem offline_rows_one_per_attachment `{Platform} (run_id guarantee_id : Z)
    (attachments : list Attachment) :
  List.length (_offline_files_rows run_id guarantee_id attachments)
  = List.length attachments
  /\ forall (i : nat) (item : Attachment),
       attachments !! i = Some item ->
       exists row,
         _offline_files_rows run_id guarantee_id attachments !! i = Some row
         /\ f_file_index row = Z.of_nat i + 1
         /\ f_download_status row = SKIPPED_OFFLINE
         /\ f_original_filename row = py_strip (att_original_filename item)
         /\ f_stored_filename row
            = stored_name guarantee_id (Z.of_nat i + 1)
                (if is_empty (py_strip (att_original_filename item)) then EmptyString
                 else path_suffix (py_strip (att_original_filename item)))
         /\ f_stored_path row
            = RAW_ATTACHMENTS_DIR // str_int guarantee_id // f_stored_filename row
         /\ f_page_count row = 0
         /\ f_sha256 row = EmptyString.
Proof.
  unfold _offline_files_rows. split.
  - generalize 1. induction attachments as [| a rest IH]; intros index; simpl;
      [reflexivity | f_equal; apply IH].
  - intros i item Hi.
    destruct (offline_rows_from_spec run_id guarantee_id attachments 1 i item Hi)
      as (row & Hrow & Hfacts).
    exists row. split; [exact Hrow |].
    replace (Z.of_nat i + 1) with (1 + Z.of_nat i) by lia. exact Hfacts.
Qed.

(** ** What a worker leaves in the processed set and in its summary *)

Ltac keep_state :=
  repeat first
    [ apply keeps_ret
    | apply keeps_get
    | apply keeps_raise
    | apply keeps_pure_call
    | apply keeps_locals
    | apply keeps_io; intros; reflexivity
    | apply keeps_modify; intros; reflexivity
    | apply keeps_assign; intros; reflexivity
    | apply keeps_try
    | apply keeps_finally
    | apply keeps_bind; [| intros ?]
    | match goal with
      | |- keeps _ (if ?b then _ else _) => destruct b
      | |- keeps _ (match ?x with _ => _ end) => destruct x
      end ].

Lemma finally_ok {S A} (c : SE S A) (fin : SE S unit) (s s' : S) (a : A) :
  finally_ c fin s = (Ok a, s') ->
  exists s1, c s = (Ok a, s1) /\ fin s1 = (Ok tt, s').
Proof.
  unfold finally_. destruct (c s) as [[a' | e |] s1]; try discriminate;
    destruct (fin s1) as [[[] | e' |] s2] eqn:Hfin; intros Hrun;
    inversion Hrun; subst; eauto.
Qed.

Lemma stats_total_bump (st : Status) (k : Z) (sts : Stats) :
  stats_total (stats_add_files k (stats_bump st sts)) = stats_total sts + 1.
Proof. unfold stats_total. destruct st; simpl; lia. Qed.

Section Turn_facts.

Context `{Platform} `{World W}.

Local Abbreviation St := (wkstate (W := W)).

Variable fuel : nat.
Variable args : Args.
Variable in_main_thread : bool.
Variable run_id worker_id : Z.

Lemma keeps_attempt {X} (f : St -> X) (guarantee_id : Z) :
  (forall v s, f (set_ws v s) = f s) ->
  (forall v s, f (set_loc v s) = f s) ->
  (forall v s, f (set_save_html_count v s) = f s) ->
  keeps f (attempt fuel args in_main_thread run_id worker_id guarantee_id).
Proof.
  intros Hws Hloc Hcount.
  assert (Hio : forall A (c : SE (wstate W) A), keeps f (io c))
    by (intros; apply keeps_io; exact Hws).
  assert (Hassign : forall g, keeps f (assign g))
    by (intros; apply keeps_assign; exact Hloc).
  unfold attempt, guarded_block, with_per_id_timeout, offline_block, live_block,
    snapshot_block, on_timeout, on_error.
  repeat first
    [ apply keeps_ret
    | apply keeps_get
    | apply keeps_raise
    | apply keeps_pure_call
    | apply keeps_locals
    | apply Hio
    | apply Hassign
    | apply keeps_modify; intros; apply Hcount
    | apply keeps_try
    | apply keeps_finally
    | apply keeps_bind; [| intros ?]
    | match goal with
      | |- keeps _ (if ?b then _ else _) => destruct b
      | |- keeps _ (match ?x with _ => _ end) => destruct x
      end ].
Qed.

Lemma keeps_politeness_sleep {X} (f : St -> X) (index : Z) (st : Status) :
  (forall v s, f (set_ws v s) = f s) ->
  keeps f (politeness_sleep args index st).
Proof.
  intros Hws. unfold politeness_sleep.
  repeat first [ apply keeps_ret | apply keeps_io; exact Hws
               | match goal with
                 | |- keeps _ (if ?b then _ else _) => destruct b
                 end ].
Qed.

(** A turn of the loop that returns: either the ID was skipped and nothing
    changed, or it was persisted after an attempt. *)
Lemma process_id_turn (index guarantee_id : Z) (s s' : St) :
  process_id fuel args in_main_thread run_id worker_id index guarantee_id s
  = (Ok tt, s') ->
  (bool_decide (guarantee_id ∈ processed_ids s) && negb (force args) = true
   /\ s' = s)
  \/ (bool_decide (guarantee_id ∈ processed_ids s) && negb (force args) = false
      /\ processed_ids s' = {[ guarantee_id ]} ∪ processed_ids s
      /\ stats_total (stats s') = stats_total (stats s) + 1).
Proof.
  unfold process_id. unfold bind at 1. unfold get_state.
  destruct (bool_decide _ && negb _) eqn:Hskip.
  - intros Hrun. inversion Hrun. left. auto.
  - intros Hrun. right. split; [reflexivity |].
    apply bind_ok in Hrun as (outcome & s1 & Hattempt & Hrun).
    apply bind_ok in Hrun as ([] & s2 & Hclassify & Hrun).
    apply bind_ok in Hrun as ([] & s3 & Hpersist & Hrun).
    apply bind_ok in Hrun as (l & s4 & Hlocals & Hrun).
    unfold locals in Hlocals. inversion Hlocals; subst; clear Hlocals.
    unfold assign, modify in Hclassify. inversion Hclassify; subst; clear Hclassify.
    pose proof (persist_processed_ids _ _ _ _ _ _ Hpersist) as Hp.
    pose proof (persist_stats _ _ _ _ _ _ Hpersist) as Hst.
    simpl in Hp, Hst.
    split.
    + rewrite (keeps_run processed_ids _ _ _ _
                 (keeps_politeness_sleep processed_ids _ _ (fun _ _ => eq_refl)) Hrun).
      rewrite Hp.
      rewrite (keeps_run processed_ids _ _ _ _
                 (keeps_attempt processed_ids _ (fun _ _ => eq_refl)
                                (fun _ _ => eq_refl) (fun _ _ => eq_refl)) Hattempt).
      reflexivity.
    + rewrite (keeps_run stats _ _ _ _
                 (keeps_politeness_sleep stats _ _ (fun _ _ => eq_refl)) Hrun).
      rewrite Hst, stats_total_bump.
      rewrite (keeps_run stats _ _ _ _
                 (keeps_attempt stats _ (fun _ _ => eq_refl)
                                (fun _ _ => eq_refl) (fun _ _ => eq_refl)) Hattempt).
      reflexivity.
Qed.

Lemma process_loop_processed (ids : list Z) :
  forall (index : Z) (s s' : St),
    process_loop fuel args in_main_thread run_id worker_id index ids s = (Ok tt, s') ->
    processed_ids s' = processed_ids s ∪ list_to_set ids
    /\ (force args = false ->
        stats_total (stats s') - stats_total (stats s)
        = Z.of_nat (size (processed_ids s')) - Z.of_nat (size (processed_ids s))).
Proof.
  induction ids as [| id ids IH]; intros index s s' Hrun; simpl in Hrun.
  - inversion Hrun; subst. split; [| lia].
    rewrite list_to_set_nil, union_empty_r_L. reflexivity.
  - apply bind_ok in Hrun as ([] & s1 & Hturn & Hrun).
    destruct (IH _ _ _ Hrun) as [Hset Hcount].
    destruct (process_id_turn _ _ _ _ Hturn)
      as [[Hskip ->] | (Hskip & Hp & Hst)].
    + apply andb_true_iff in Hskip as [Hin _]. apply bool_decide_eq_true in Hin.
      split; [| exact Hcount]. rewrite Hset, list_to_set_cons.
      rewrite (union_assoc_L (processed_ids s)).
      rewrite (union_comm_L (processed_ids s) {[id]}).
      rewrite (subseteq_union_1_L {[id]} (processed_ids s)); [reflexivity |].
      apply singleton_subseteq_l. exact Hin.
    + split.
      { rewrite Hset, Hp, list_to_set_cons.
        rewrite (union_comm_L {[id]} (processed_ids s)).
        rewrite <- (union_assoc_L (processed_ids s)). reflexivity. }
      intros Hforce. specialize (Hcount Hforce).
      rewrite Hforce, andb_true_r in Hskip. apply bool_decide_eq_false in Hskip.
      assert (Hsize : size (processed_ids s1) = S (size (processed_ids s))).
      { rewrite Hp, size_union by (apply disjoint_singleton_l; exact Hskip).
        rewrite size_singleton. reflexivity. }
      lia.
Qed.

Lemma process_ids_returns (ids : list Z) (s s' : St) (st : Stats) :
  _process_ids fuel ids worker_id run_id args in_main_thread s = (Ok st, s') ->
  st = stats s'
  /\ processed_ids s' = processed_ids s ∪ list_to_set ids
  /\ (force args = false ->
      stats_total st
      = Z.of_nat (size (processed_ids s')) - Z.of_nat (size (processed_ids s))).
Proof.
  unfold _process_ids. intros Hrun.
  do 5 (apply bind_ok in Hrun as ([] & ? & Hm & Hrun);
        unfold modify in Hm; inversion Hm; subst; clear Hm).
  apply bind_ok in Hrun as ([] & s1 & Hdelay & Hrun).
  apply bind_ok in Hrun as ([] & s2 & Hbuild & Hrun).
  apply bind_ok in Hrun as ([] & s3 & Hbody & Hrun).
  unfold bind, get_state, ret in Hrun. inversion Hrun; subst; clear Hrun.
  apply finally_ok in Hbody as (s4 & Hbody & Hquit).
  apply bind_ok in Hbody as ([] & s5 & Hloop & Hflush).
  destruct (process_loop_processed _ _ _ _ Hloop) as [Hset Hcount].
  set (s0 := set_files_batch []
               (set_attributes_batch []
                  (set_guarantees_batch []
                     (set_save_html_count 0 (set_stats stats_zero s))))) in Hdelay.
  assert (Hf : forall X (f : St -> X),
             (forall v s, f (set_ws v s) = f s) ->
             (forall v s, f (set_guarantees_batch v s) = f s) ->
             (forall v s, f (set_attributes_batch v s) = f s) ->
             (forall v s, f (set_files_batch v s) = f s) ->
             f s' = f s5 /\ f s2 = f s0).
  { intros X f Hws Hg Ha Hfb. split.
    - transitivity (f s4).
      + eapply keeps_run; [| exact Hquit].
        destruct (is_live args); [apply keeps_io; exact Hws | apply keeps_ret].
      + eapply keeps_run; [| exact Hflush].
        unfold guarantees_flush, attributes_flush, files_flush.
        repeat first [ apply keeps_writer_flush; assumption
                     | apply keeps_bind; [| intros ?] ].
    - transitivity (f s1).
      + eapply keeps_run; [| exact Hbuild].
        destruct (is_live args); [apply keeps_io; exact Hws | apply keeps_ret].
      + eapply keeps_run; [| exact Hdelay].
        destruct (Z.ltb _ _); [apply keeps_io; exact Hws | apply keeps_ret]. }
  destruct (Hf _ processed_ids) as [Hp5 Hp2]; try (intros; reflexivity).
  destruct (Hf _ stats) as [Hs5 Hs2]; try (intros; reflexivity).
  subst s0. simpl in Hp2, Hs2.
  split; [reflexivity |]. split.
  - rewrite Hp5, Hset, Hp2. reflexivity.
  - intros Hforce. specialize (Hcount Hforce).
    rewrite Hs5, Hp5. rewrite Hs2, Hp2 in Hcount.
    change (stats_total stats_zero) with 0 in Hcount. lia.
Qed.

End Turn_facts.

(** X11.  When [_process_ids] returns, the processed set is the one it
    started with together with every ID of its partition. *)
Theorem partition_ends_processed `{Platform} `{World W} (fuel : nat)
    (ids : list Z) (worker_id run_id : Z) (args : Args) (in_main_thread : bool)
    (s s' : wkstate (W := W)) (st : Stats) :
  _process_ids fuel ids worker_id run_id args in_main_thread s = (Ok st, s') ->
  processed_ids s' = processed_ids s ∪ list_to_set ids.
Proof.
  intros Hrun.
  exact (proj1 (proj2 (process_ids_returns _ _ _ _ _ _ _ _ _ Hrun))).
Qed.

(** X12.  With [force] off, the summary [_process_ids] returns counts, over
    its five statuses, exactly as many records as the call added IDs to the
    processed set: every ID newly processed is counted once, under one
    status, and a skipped ID is not counted. *)
Theorem summary_counts_new_ids `{Platform} `{World W} (fuel : nat)
    (ids : list Z) (worker_id run_id : Z) (args : Args) (in_main_thread : bool)
    (s s' : wkstate (W := W)) (st : Stats) :
  force args = false ->
  _process_ids fuel ids worker_id run_id args in_main_thread s = (Ok st, s') ->
  stats_total st
  = Z.of_nat (size (processed_ids s')) - Z.of_nat (size (processed_ids s)).
Proof.
  intros Hforce Hrun.
  exact (proj2 (proj2 (process_ids_returns _ _ _ _ _ _ _ _ _ Hrun)) Hforce).
Qed.

(** ** The calls of an attempt *)

(** [call] shows that a call is allowed, [known] applies the lemmas of the
    recursive functions. *)
Ltac emit_with call known :=
  repeat first
    [ apply emits_ret
    | apply emits_raise
    | apply emits_no_return
    | apply emits_pure_call
    | apply emits_get
    | apply emits_locals
    | apply emits_assign
    | apply emits_modify; intros; reflexivity
    | apply emits_perform; call
    | apply emits_io
    | known
    | apply emits_try
    | apply emits_finally
    | apply emits_for_each; intros ?
    | apply emits_map_m; intros ?
    | apply emits_bind; [| intros ?]
    | match goal with
      | |- emits _ _ (if ?b then _ else _) => destruct b
      | |- emits _ _ (match ?x with _ => _ end) => destruct x
      end ].

Section Fetch_calls.

Context `{Platform} `{World W}.

Local Abbreviation M := (SE (wstate W)).
Local Abbreviation St := (wkstate (W := W)).

Variable Q : event -> Prop.
Hypothesis fetch_allowed : forall e, is_fetch_call e = true -> Q e.

Ltac fetch := emit_with ltac:(apply fetch_allowed; reflexivity) fail.

Lemma fetch_pdf_read_retry (n : nat) (path : string) (delay : Z) :
  emits trace Q (pdf_read_retry (W := W) n path delay).
Proof.
  induction n as [| n IH]; simpl;
    emit_with ltac:(apply fetch_allowed; reflexivity) ltac:(exact IH).
Qed.

Lemma fetch_update_progress (dir : string) (names : list string) :
  forall progress, emits trace Q (update_progress (W := W) dir names progress).
Proof.
  induction names as [| name names IH]; intros progress; simpl;
    emit_with ltac:(apply fetch_allowed; reflexivity) ltac:(apply IH).
Qed.

Lemma fetch_detect_download_error (dh : option string) :
  emits trace Q (_detect_download_error (W := W) dh).
Proof. unfold _detect_download_error. fetch. Qed.

Lemma fetch_check_completed (dir : string) (completed : list string)
    (progress : gmap string (Z * Z)) (stable : Z) :
  emits trace Q (check_completed (W := W) dir completed progress stable).
Proof. unfold check_completed, max_by_mtime. fetch. Qed.

Lemma fetch_check_stalled (dir : string) (in_progress : list string)
    (progress : gmap string (Z * Z)) (stall : Z) :
  emits trace Q (check_stalled (W := W) dir in_progress progress stall).
Proof. unfold check_stalled, max_by_mtime. fetch. Qed.

Lemma fetch_wait_loop (fuel : nat) (dh : option string) (dir : string)
    (before : list string) (deadline stable stall : Z) :
  forall progress,
    emits trace Q (wait_loop (W := W) fuel dh dir before deadline stable stall progress).
Proof.
  induction fuel as [| fuel IH]; intros progress; simpl;
    emit_with ltac:(apply fetch_allowed; reflexivity)
              ltac:(first [ apply IH | apply fetch_detect_download_error
                          | apply fetch_update_progress | apply fetch_check_completed
                          | apply fetch_check_stalled ]).
Qed.

Lemma fetch_close_download_tab (main_handle : string) (dh : option string) :
  emits trace Q (_close_download_tab (W := W) main_handle dh).
Proof. unfold _close_download_tab. fetch. Qed.

Lemma fetch_download_one (fuel : nat) (run_id guarantee_id : Z)
    (id_dir download_dir : string) (force : bool) (timeout stall_seconds : Z)
    (index : Z) (item : Attachment) :
  emits trace Q (download_one (W := W) fuel run_id guarantee_id id_dir download_dir
                              force timeout stall_seconds index item).
Proof.
  unfold download_one, store_download, place_download, record_stored,
    stored_missing_or_empty, pdf_page_count, sha256_file, _open_download,
    _wait_for_download_result.
  emit_with ltac:(apply fetch_allowed; reflexivity)
            ltac:(first [ apply fetch_pdf_read_retry | apply fetch_detect_download_error
                        | apply fetch_wait_loop | apply fetch_close_download_tab ]).
Qed.

Lemma fetch_download_attachments (fuel : nat) (attachments : list Attachment)
    (run_id guarantee_id : Z) (attachments_root download_dir : string)
    (force : bool) (timeout stall_seconds : Z) :
  emits trace Q (download_attachments (W := W) fuel attachments run_id guarantee_id
                                      attachments_root download_dir force timeout
                                      stall_seconds).
Proof.
  unfold download_attachments.
  apply emits_bind; [apply emits_perform, fetch_allowed; reflexivity |]. intros _.
  generalize 1.
  induction attachments as [| item rest IH]; intros index; simpl;
    emit_with ltac:(apply fetch_allowed; reflexivity)
              ltac:(first [ apply IH | apply fetch_download_one ]).
Qed.

Lemma fetch_offline_block (run_id guarantee_id : Z) (deadline : option Z) :
  emits wk_log Q (offline_block (W := W) run_id guarantee_id deadline).
Proof.
  unfold offline_block, _ensure_time_left, _load_sample_html. fetch.
Qed.

Lemma fetch_live_block (fuel : nat) (args : Args) (run_id guarantee_id : Z)
    (download_dir : string) (deadline : option Z) :
  emits wk_log Q (live_block (W := W) fuel args run_id guarantee_id download_dir
                             deadline).
Proof.
  unfold live_block, _ensure_time_left, _remaining_seconds, clean_download_dir.
  emit_with ltac:(apply fetch_allowed; reflexivity)
            ltac:(apply fetch_download_attachments).
Qed.

Lemma fetch_snapshot_block (args : Args) (guarantee_id : Z) :
  emits wk_log Q (snapshot_block (W := W) args guarantee_id).
Proof. unfold snapshot_block, save_html_snapshot. fetch. Qed.

Lemma fetch_on_timeout (args : Args) (e : exn) :
  emits wk_log Q (on_timeout (W := W) args e).
Proof. unfold on_timeout, reconcile_windows. fetch. Qed.

Lemma fetch_on_error (args : Args) (download_dir : string) (e : exn) :
  emits wk_log Q (on_error (W := W) args download_dir e).
Proof. unfold on_error, _restart_driver. fetch. Qed.

Lemma fetch_attempt (fuel : nat) (args : Args) (in_main_thread : bool)
    (run_id worker_id guarantee_id : Z) :
  (in_main_thread = true -> forall n, Q (Called (SignalAlarm n))) ->
  emits wk_log Q (attempt (W := W) fuel args in_main_thread run_id worker_id
                          guarantee_id).
Proof.
  intros Halarm. unfold attempt, guarded_block, with_per_id_timeout.
  destruct in_main_thread.
  - cbn [negb].
    emit_with ltac:(first [ apply fetch_allowed; reflexivity | apply Halarm; reflexivity ])
              ltac:(first [ apply fetch_offline_block | apply fetch_live_block
                          | apply fetch_snapshot_block | apply fetch_on_timeout
                          | apply fetch_on_error ]).
  - cbn [negb]. rewrite !orb_true_r, !andb_false_r.
    emit_with ltac:(apply fetch_allowed; reflexivity)
              ltac:(first [ apply fetch_offline_block | apply fetch_live_block
                          | apply fetch_snapshot_block | apply fetch_on_timeout
                          | apply fetch_on_error ]).
Qed.

End Fetch_calls.


(** ** The calls of a run *)

Section Run_calls.

Context `{Platform} `{World W}.

Local Abbreviation M := (SE (wstate W)).
Local Abbreviation St := (wkstate (W := W)).

Variable Q : event -> Prop.
Variable fuel : nat.
Variable args : Args.

Hypothesis state_allowed :
  forall e, is_fetch_call e = false -> is_alarm_call e = false -> Q e.
Hypothesis files_allowed :
  forall e, is_fetch_call e = true -> is_browser_call e = false -> Q e.
Hypothesis driver_allowed :
  is_live args = true -> forall e, is_browser_call e = true -> Q e.
Hypothesis attempt_allowed :
  forall in_main_thread : bool,
    Z.leb (workers args) 1 = in_main_thread ->
    forall run_id worker_id guarantee_id,
      emits wk_log Q (attempt (W := W) fuel args in_main_thread run_id worker_id
                              guarantee_id).

Ltac run_call :=
  first [ apply files_allowed; reflexivity | apply state_allowed; reflexivity ].

Lemma run_persist (run_id worker_id guarantee_id : Z) :
  emits wk_log Q (persist (W := W) args run_id worker_id guarantee_id).
Proof.
  unfold persist, guarantees_add, attributes_add, files_add, writer_add, writer_flush,
    utc_now_iso, update_attribute_union, append_processed_id, load_json, save_json.
  emit_with run_call fail.
Qed.

Lemma run_process_loop (in_main_thread : bool) (run_id worker_id : Z)
    (ids : list Z) :
  Z.leb (workers args) 1 = in_main_thread ->
  forall index,
    emits wk_log Q (process_loop (W := W) fuel args in_main_thread run_id worker_id
                                 index ids).
Proof.
  intros Hthread. induction ids as [| id ids IH]; intros index; simpl.
  - apply emits_ret.
  - apply emits_bind; [| intros _; apply IH].
    unfold process_id, politeness_sleep, human_sleep.
    emit_with run_call
              ltac:(first [ apply attempt_allowed; exact Hthread | apply run_persist ]).
Qed.

Lemma run_driver_call (c : call unit) :
  is_browser_call (Called c) = true ->
  emits wk_log Q (if is_live args then io (perform (W := W) c) else ret tt).
Proof.
  intros Hc. pose proof driver_allowed as Hallowed. revert Hallowed.
  destruct (is_live args); intros Hallowed; [| apply emits_ret].
  apply emits_io, emits_perform, Hallowed; [reflexivity | exact Hc].
Qed.

Lemma run_process_ids (in_main_thread : bool) (ids : list Z)
    (worker_id run_id : Z) :
  Z.leb (workers args) 1 = in_main_thread ->
  emits wk_log Q (_process_ids (W := W) fuel ids worker_id run_id args in_main_thread).
Proof.
  intros Hthread. unfold _process_ids, guarantees_flush, attributes_flush, files_flush,
    writer_flush.
  emit_with run_call
            ltac:(first [ apply run_process_loop; exact Hthread
                        | apply run_driver_call; reflexivity ]).
Qed.

Lemma run_pool_calls (run_id : Z) (slices : list (list Z)) :
  Z.leb (workers args) 1 = false ->
  forall worker_id,
    emits wk_log Q (run_pool (W := W) fuel args run_id worker_id slices).
Proof.
  intros Hpool. induction slices as [| slice slices IH]; intros worker_id; simpl.
  - apply emits_ret.
  - destruct slice as [| id slice]; [apply IH |].
    emit_with run_call
              ltac:(first [ apply IH | apply run_process_ids; exact Hpool ]).
Qed.

Lemma run_collect_stats (results : list (result Stats)) :
  forall acc, emits wk_log Q (collect_stats (S := St) acc results).
Proof.
  induction results as [| r results IH]; intros acc; simpl;
    emit_with run_call ltac:(apply IH).
Qed.

Lemma run_workers_calls (run_id : Z) (ids : list Z) :
  emits wk_log Q (run_workers (W := W) fuel args run_id ids).
Proof.
  pose proof (run_process_ids true ids 1 run_id) as Hmain.
  pose proof (run_pool_calls run_id) as Hpool.
  unfold run_workers. revert Hmain Hpool.
  destruct (Z.leb (workers args) 1); intros Hmain Hpool.
  - apply Hmain. reflexivity.
  - apply emits_bind; [apply Hpool; reflexivity |].
    intros results. apply run_collect_stats.
Qed.

Lemma run_main : emits wk_log Q (main (W := W) fuel args).
Proof.
  unfold main, worklist, retry_ids_of, parse_ids, main_with, next_run_id,
    load_processed_ids, load_json, save_json, utc_now_iso.
  emit_with run_call ltac:(apply run_workers_calls).
Qed.

End Run_calls.

Lemma no_alarm_in_fetch (e : event) : is_fetch_call e = true -> no_alarm_call e.
Proof. destruct e as [A c]. destruct c; simpl; intros; first [reflexivity | discriminate]. Qed.

(** X14.  With more than one worker no call of a run arms or cancels the
    alarm: the workers of the pool are not on the main thread, where alone
    [PerIdTimeout] sets it. *)
Theorem pool_never_arms_alarm `{Platform} `{World W} (fuel : nat) (args : Args) :
  1 < workers args ->
  emits (wk_log (W := W)) no_alarm_call (main fuel args).
Proof.
  intros Hworkers. apply run_main.
  - intros e _ Ha. exact Ha.
  - intros e He _. apply no_alarm_in_fetch. exact He.
  - intros _ e He. destruct e as [A c]. destruct c; simpl in *; first [reflexivity | discriminate].
  - intros in_main_thread Hthread run_id worker_id guarantee_id.
    apply fetch_attempt; [apply no_alarm_in_fetch |].
    intros ->. apply Z.leb_le in Hthread. lia.
Qed.

Section Offline_calls.

Context `{Platform} `{World W}.

Variable args : Args.
Hypothesis Hmode : mode args = offline.

Lemma offline_not_live : is_live args = false.
Proof. unfold is_live. rewrite Hmode. reflexivity. Qed.

Lemma offline_attempt_calls (fuel : nat) (in_main_thread : bool)
    (run_id worker_id guarantee_id : Z) :
  emits wk_log no_browser_call
        (attempt (W := W) fuel args in_main_thread run_id worker_id guarantee_id).
Proof.
  unfold attempt, guarded_block, with_per_id_timeout, on_timeout, on_error.
  rewrite Hmode, !offline_not_live. cbn [andb].
  unfold offline_block, snapshot_block, _ensure_time_left, _load_sample_html,
    save_html_snapshot.
  emit_with ltac:(exact eq_refl) fail.
Qed.

End Offline_calls.

(** X15.  In offline mode no call of a run goes to the browser: no driver
    is built, no page is loaded, no window is opened. *)
Theorem offline_never_browses `{Platform} `{World W} (fuel : nat) (args : Args) :
  mode args = offline ->
  emits (wk_log (W := W)) no_browser_call (main fuel args).
Proof.
  intros Hmode. apply run_main.
  - intros e He _. destruct e as [A c]. destruct c; simpl in *; first [reflexivity | discriminate].
  - intros e _ Hb. exact Hb.
  - intros Hlive. rewrite (offline_not_live args Hmode) in Hlive. discriminate.
  - intros in_main_thread _ run_id worker_id guarantee_id.
    apply offline_attempt_calls. exact Hmode.
Qed.

(** ** The alarm of PerIdTimeout (lines 55-72) *)

(** X16.  Off the main thread, or with a timeout of zero or less,
    [PerIdTimeout] does nothing: the block runs as it would alone.  On the
    main thread with a positive timeout, once the alarm has been armed, the
    last call made when the block is left, by return or by exception, is the
    one that cancels the alarm. *)
Theorem per_id_timeout_brackets `{Platform} `{World W} {A} (seconds : Z)
    (body : SE (wkstate (W := W)) A) (s : wkstate (W := W)) :
  with_per_id_timeout seconds false body s = body s
  /\ (seconds <= 0 -> with_per_id_timeout seconds true body s = body s)
  /\ (0 < seconds ->
      fst (perform (SignalAlarm seconds) (ws s)) = Ok tt ->
      fst (with_per_id_timeout seconds true body s) <> NoReturn ->
      head (wk_log (snd (with_per_id_timeout seconds true body s)))
      = Some (Called (SignalAlarm 0))).
Proof.
  assert (Hplain : forall s0 : wkstate,
             finally_ body (ret tt) s0 = body s0).
  { intros s0. unfold finally_, ret. destruct (body s0) as [[a | e |] s1]; reflexivity. }
  split; [| split].
  - unfold with_per_id_timeout. rewrite orb_true_r, andb_false_r.
    unfold bind, ret. apply Hplain.
  - intros Hle. unfold with_per_id_timeout.
    replace (Z.leb seconds 0) with true by (symmetry; apply Z.leb_le; lia).
    replace (Z.ltb 0 seconds) with false by (symmetry; apply Z.ltb_ge; lia).
    simpl. unfold bind, ret. apply Hplain.
  - intros Hpos Harm.
    remember (with_per_id_timeout seconds true body s) as run eqn:Hrun.
    unfold with_per_id_timeout in Hrun.
    replace (Z.leb seconds 0) with false in Hrun by (symmetry; apply Z.leb_gt; lia).
    replace (Z.ltb 0 seconds) with true in Hrun by (symmetry; apply Z.ltb_lt; lia).
    cbn [negb orb andb] in Hrun.
    unfold bind at 1 in Hrun. unfold io at 1 in Hrun. unfold zoom in Hrun.
    destruct (perform (SignalAlarm seconds) (ws s)) as [r v] eqn:Hperform.
    simpl in Harm. subst r.
    unfold finally_ in Hrun.
    destruct (body (set_ws v s)) as [[a | e |] s1];
      [| | subst run; simpl; congruence];
      unfold io, zoom in Hrun; rewrite perform_run in Hrun;
      destruct (fst (handle _ _ _)) as [u | e' |]; subst run; simpl;
      first [congruence | intros _; reflexivity].
Qed.

(** ** The driver of a worker (lines 115-126 and 384-386) *)

(** X17.  In live mode a worker that has built its driver quits it before
    [_process_ids] is left, by return or by exception: unless a call never
    returns, the last call of [_process_ids] is [driver.quit()], or else the
    call that builds the driver or the start delay before it, which then
    raised. *)
Theorem worker_quits_driver `{Platform} `{World W} (fuel : nat) (ids : list Z)
    (worker_id run_id : Z) (args : Args) (in_main_thread : bool)
    (s : wkstate (W := W)) :
  is_live args = true ->
  fst (_process_ids fuel ids worker_id run_id args in_main_thread s) <> NoReturn ->
  head (wk_log (snd (_process_ids fuel ids worker_id run_id args in_main_thread s)))
  = Some (Called DriverQuit)
  \/ exists e c,
       fst (_process_ids fuel ids worker_id run_id args in_main_thread s) = Raise e
       /\ head (wk_log (snd (_process_ids fuel ids worker_id run_id args
                                          in_main_thread s)))
          = Some (Called c)
       /\ (c = BuildDriver (worker_download_dir worker_id) (headless args)
                           (block_images args)
           \/ c = TimeSleep (worker_start_delay args * Z.max 0 (worker_id - 1))).
Proof.
  intros Hlive.
  remember (_process_ids fuel ids worker_id run_id args in_main_thread s) as run
    eqn:Hrun.
  unfold _process_ids in Hrun. rewrite Hlive in Hrun.
  do 5 (unfold bind at 1 in Hrun; unfold modify at 1 in Hrun).
  assert (Hrest : forall (s1 : wkstate) run',
             run' = (exec io (perform (BuildDriver (worker_download_dir worker_id)
                                                   (headless args) (block_images args)));
                     exec finally_
                            (exec process_loop fuel args in_main_thread run_id
                                               worker_id 1 ids;
                             exec guarantees_flush run_id worker_id;
                             exec attributes_flush run_id worker_id;
                             files_flush run_id worker_id)
                            (io (perform DriverQuit));
                     do s <- get_state;
                     ret (stats s)) s1 ->
             fst run' <> NoReturn ->
             head (wk_log (snd run')) = Some (Called DriverQuit)
             \/ exists e c,
                  fst run' = Raise e /\ head (wk_log (snd run')) = Some (Called c)
                  /\ (c = BuildDriver (worker_download_dir worker_id) (headless args)
                                      (block_images args)
                      \/ c = TimeSleep (worker_start_delay args
                                        * Z.max 0 (worker_id - 1)))).
  { intros s1 run' Hrun'. unfold bind at 1 in Hrun'. unfold io at 1 in Hrun'.
    unfold zoom in Hrun'. rewrite perform_run in Hrun'.
    destruct (fst (handle _ _ _)) as [u | e |]; simpl in Hrun'.
    - unfold bind at 1 in Hrun'. unfold finally_ in Hrun'.
      match type of Hrun' with
      | context [bind (process_loop _ _ _ _ _ _ _) ?k ?st] =>
          destruct (bind (process_loop fuel args in_main_thread run_id worker_id 1 ids)
                         k st) as [[u' | e |] s2]
      end;
        [| | subst run'; simpl; congruence];
        unfold io, zoom in Hrun'; rewrite perform_run in Hrun';
        destruct (fst (handle _ _ _)) as [u'' | e' |]; subst run'; simpl;
        first [congruence | intros _; left; reflexivity].
    - subst run'. simpl. intros _. right. exists e. eexists.
      split; [reflexivity |]. split; [reflexivity |]. left. reflexivity.
    - subst run'. simpl. congruence. }
  destruct (Z.ltb 0 (worker_start_delay args)).
  - unfold bind at 1 in Hrun. unfold io at 1 in Hrun. unfold zoom in Hrun.
    rewrite perform_run in Hrun.
    destruct (fst (handle _ _ _)) as [u | e |]; simpl in Hrun.
    + eapply Hrest. exact Hrun.
    + subst run. simpl. intros _. right. exists e. eexists.
      split; [reflexivity |]. split; [reflexivity |]. right. reflexivity.
    + subst run. simpl. congruence.
  - unfold bind at 1 in Hrun. unfold ret at 1 in Hrun. eapply Hrest. exact Hrun.
Qed.

(** ** An empty worklist (main, lines 538-550) *)

Lemma worklist_calls `{Platform} `{World W} (args : Args) :
  emits (wk_log (W := W)) worklist_call (worklist args).
Proof.
  unfold worklist, load_json, retry_ids_of, parse_ids.
  emit_with ltac:(unfold worklist_call; auto) fail.
Qed.

(** X18.  When the worklist is empty [main] returns at once with an empty
    summary: its only calls are those that make the worklist (creating the
    state directory, reading the retry map); no run ID is taken and nothing
    is written. *)
Theorem empty_worklist_ends_run `{Platform} `{World W} (fuel : nat) (args : Args)
    (s : wkstate (W := W)) :
  fst (worklist args s) = Ok [] ->
  main fuel args s = (Ok stats_zero, snd (worklist args s))
  /\ extends worklist_call (wk_log s) (wk_log (snd (main fuel args s))).
Proof.
  intros Hempty.
  assert (Hmain : main fuel args s = (Ok stats_zero, snd (worklist args s))).
  { unfold main, bind. destruct (worklist args s) as [r s1]. simpl in Hempty.
    subst r. reflexivity. }
  split; [exact Hmain |]. rewrite Hmain. apply worklist_calls.
Qed.

(** ** The page count of a stored file (downloader.py, lines 30-50) *)

Section Pdf_facts.

Context `{Platform} `{World W}.

Lemma pdf_read_retry_step (n : nat) (path : string) (delay : Z) (s : wstate W) :
  pdf_read_retry (S n) path delay s
  = let s1 := {| world := snd (handle Z (PdfReaderPages path) (world s));
                 trace := Called (PdfReaderPages path) :: trace s |} in
    match fst (handle Z (PdfReaderPages path) (world s)) with
    | Ok pages => (Ok pages, s1)
    | Raise _ =>
        match fst (handle unit (TimeSleep delay) (world s1)) with
        | Ok _ =>
            pdf_read_retry n path delay
              {| world := snd (handle unit (TimeSleep delay) (world s1));
                 trace := Called (TimeSleep delay) :: trace s1 |}
        | Raise e =>
            (Raise e, {| world := snd (handle unit (TimeSleep delay) (world s1));
                         trace := Called (TimeSleep delay) :: trace s1 |})
        | NoReturn =>
            (NoReturn, {| world := snd (handle unit (TimeSleep delay) (world s1));
                          trace := Called (TimeSleep delay) :: trace s1 |})
        end
    | NoReturn => (NoReturn, s1)
    end.
Proof.
  simpl. unfold bind at 1. unfold try_. rewrite perform_run.
  destruct (fst (handle Z (PdfReaderPages path) (world s))); try reflexivity.
  unfold bind. rewrite perform_run. simpl.
  destruct (fst (handle unit (TimeSleep delay) _)); reflexivity.
Qed.

Lemma pdf_read_retry_spec (n : nat) (path : string) (delay : Z) :
  forall s : wstate W,
    (forall e, fst (pdf_read_retry n path delay s) = Raise e ->
               exists w : wstate W, fst (perform (TimeSleep delay) w) = Raise e)
    /\ exists new,
         trace (snd (pdf_read_retry n path delay s)) = (new ++ trace s)%list
         /\ (List.length (List.filter is_pdf_read new) <= n)%nat.
Proof.
  induction n as [| n IH]; intros s.
  - simpl. split; [discriminate |]. exists []. split; [reflexivity | simpl; lia].
  - rewrite pdf_read_retry_step. cbv zeta.
    set (s1 := {| world := snd (handle Z (PdfReaderPages path) (world s));
                  trace := Called (PdfReaderPages path) :: trace s |}).
    destruct (fst (handle Z (PdfReaderPages path) (world s))) as [pages | e |].
    + split; [discriminate |]. exists [Called (PdfReaderPages path)].
      split; [reflexivity | simpl; lia].
    + set (s2 := {| world := snd (handle unit (TimeSleep delay) (world s1));
                    trace := Called (TimeSleep delay) :: trace s1 |}).
      destruct (fst (handle unit (TimeSleep delay) (world s1))) as [[] | e' |] eqn:Hsleep.
      * destruct (IH s2) as [Hraise (new & Hnew & Hcount)]. split; [exact Hraise |].
        exists (new ++ [Called (TimeSleep delay); Called (PdfReaderPages path)])%list.
        split.
        -- rewrite Hnew. subst s2 s1. simpl. rewrite <- app_assoc. reflexivity.
        -- rewrite List.filter_app, length_app. simpl. lia.
      * split.
        -- intros e0 He0. injection He0 as <-. exists s1.
           rewrite perform_run. exact Hsleep.
        -- exists [Called (TimeSleep delay); Called (PdfReaderPages path)].
           split; [reflexivity | simpl; lia].
      * split; [discriminate |].
        exists [Called (TimeSleep delay); Called (PdfReaderPages path)].
        split; [reflexivity | simpl; lia].
    + split; [discriminate |]. exists [Called (PdfReaderPages path)].
      split; [reflexivity | simpl; lia].
Qed.

End Pdf_facts.

(** X19.  [pdf_page_count] of a file whose suffix, in lower case, is not
    [.pdf] is 0 without a call.  Otherwise it opens the file with the
    reader at most three times, no exception of the reader leaves it, and
    an exception that does leave it was raised by the sleep between two
    tries. *)
Theorem pdf_page_count_swallows `{Platform} `{World W} (path : string)
    (s : wstate W) :
  (String.eqb (py_lower (path_suffix path)) ".pdf" = false ->
   pdf_page_count path s = (Ok 0, s))
  /\ (forall e, fst (pdf_page_count path s) = Raise e ->
                exists w : wstate W, fst (perform (TimeSleep 1000) w) = Raise e)
  /\ exists new,
       trace (snd (pdf_page_count path s)) = (new ++ trace s)%list
       /\ (List.length (List.filter is_pdf_read new) <= 3)%nat.
Proof.
  unfold pdf_page_count.
  destruct (String.eqb (py_lower (path_suffix path)) ".pdf"); simpl.
  - split; [discriminate |]. apply (pdf_read_retry_spec 3).
  - split; [reflexivity |]. split; [discriminate |].
    exists []. split; [reflexivity | simpl; lia].
Qed.

(** ** Looking for an error page (downloader.py, lines 87-100) *)

Lemma error_marker_failed (source : string) (st : DownloadStatus) :
  error_marker source = Some st -> st = FAILED_NOT_FOUND \/ st = FAILED_ERROR_PAGE.
Proof.
  unfold error_marker.
  destruct (_ || _); [intros Heq; injection Heq as <-; auto |].
  destruct (_ || _); [intros Heq; injection Heq as <-; auto | discriminate].
Qed.

Lemma detect_error_outcomes `{Platform} `{World W} (download_handle : option string)
    (s s' : wstate W) (r : result (option DownloadStatus)) :
  _detect_download_error download_handle s = (r, s') ->
  match r with
  | Ok (Some st) => st = FAILED_NOT_FOUND \/ st = FAILED_ERROR_PAGE
  | Ok None => True
  | Raise e => is_webdriver_exn e = false
  | NoReturn => True
  end.
Proof.
  unfold _detect_download_error. unfold bind at 1. unfold try_. cbv beta.
  match goal with
  | |- context [bind ?c ?k s] => destruct (bind c k s) as [[st0 | e0 |] s1] eqn:Hbody
  end.
  - unfold ret. intros Heq. injection Heq as <- <-.
    destruct st0 as [st |]; [| exact I].
    apply bind_ok in Hbody as ([] & s2 & _ & Hbody).
    apply bind_ok in Hbody as (source & s3 & _ & Hbody).
    unfold ret in Hbody. injection Hbody as Hmark _.
    eapply error_marker_failed. exact Hmark.
  - destruct (is_webdriver_exn e0) eqn:Hcls.
    + unfold ret. intros Heq. injection Heq as <- <-. exact I.
    + unfold raise. intros Heq. injection Heq as <- <-. exact Hcls.
  - unfold no_return. intros Heq. injection Heq as <- <-. exact I.
Qed.


(** ** The result of the poll (downloader.py, lines 103-193) *)

Section Poll_facts.

Context `{Platform} `{World W}.

Lemma first_max_in (items : list (string * Z)) :
  forall best, In (first_max best items) (fst best :: List.map fst items).
Proof.
  induction items as [| it items IH]; intros best; simpl; [auto |].
  destruct (IH (if Z.ltb (snd best) (snd it) then it else best)) as [Heq | Hin].
  - destruct (Z.ltb _ _); simpl in Heq; auto.
  - auto.
Qed.

Lemma max_by_mtime_in (dir : string) (names : list string) (name : string)
    (s s' : wstate W) :
  max_by_mtime dir names s = (Ok (Some name), s') -> In name names.
Proof.
  unfold max_by_mtime. intros Hrun.
  apply bind_ok in Hrun as (mtimes & s1 & _ & Hrun).
  destruct (combine names mtimes) as [| it rest] eqn:Hc; [discriminate |].
  inversion Hrun; subst.
  assert (Hsub : forall x, In x (List.map fst (it :: rest)) -> In x names).
  { intros x Hx. apply in_map_iff in Hx as ([a b] & <- & Hab).
    rewrite <- Hc in Hab. eapply in_combine_l. exact Hab. }
  apply Hsub. apply first_max_in.
Qed.

Lemma check_completed_some (dir : string) (completed : list string)
    (progress : gmap string (Z * Z)) (stable : Z) (path : string) (s s' : wstate W) :
  check_completed dir completed progress stable s = (Ok (Some path), s') ->
  exists name, In name completed /\ path = dir // name.
Proof.
  unfold check_completed. destruct completed as [| c cs]; [discriminate |].
  intros Hrun. apply bind_ok in Hrun as (latest & s1 & Hmax & Hrun).
  destruct latest as [name |]; [| discriminate].
  apply bind_ok in Hrun as (fresh & s2 & _ & Hrun).
  apply bind_ok in Hrun as (now & s3 & _ & Hrun).
  destruct (Z.leb _ _); [| discriminate].
  inversion Hrun; subst. exists name. split; [| reflexivity].
  eapply max_by_mtime_in. exact Hmax.
Qed.

Lemma completed_file_is_new (dir : string) (before files : list string)
    (name : string) :
  In name (completed_files before files) ->
  new_complete_file dir before (dir // name).
Proof.
  unfold completed_files, new_files. intros Hin.
  apply filter_In in Hin as [Hin Hdone]. apply filter_In in Hin as [_ Hnew].
  exists name. split; [reflexivity |]. split; [exact Hnew |].
  apply negb_true_iff. exact Hdone.
Qed.

Lemma wait_loop_shape (fuel : nat) (dh : option string) (dir : string)
    (before : list string) (deadline stable stall : Z) :
  forall progress (s s' : wstate W) path st,
    wait_loop fuel dh dir before deadline stable stall progress s
    = (Ok (path, st), s') ->
    match path with
    | Some p => st = None /\ new_complete_file dir before p
    | None => exists status, st = Some status /\ is_failure status = true
    end.
Proof.
  induction fuel as [| fuel IH]; intros progress s s' path st Hrun; simpl in Hrun;
    [discriminate |].
  apply bind_ok in Hrun as (t & s1 & _ & Hrun).
  destruct (negb (Z.ltb t deadline)).
  { inversion Hrun; subst. eexists. split; reflexivity. }
  apply bind_ok in Hrun as (error_status & s2 & Herr & Hrun).
  destruct error_status as [e |].
  { inversion Hrun; subst. exists e. split; [reflexivity |].
    destruct (detect_error_outcomes _ _ _ _ Herr) as [-> | ->]; reflexivity. }
  apply bind_ok in Hrun as (files & s3 & _ & Hrun).
  apply bind_ok in Hrun as (progress' & s4 & _ & Hrun).
  apply bind_ok in Hrun as (done & s5 & Hdone & Hrun).
  destruct done as [latest |].
  { inversion Hrun; subst. split; [reflexivity |].
    apply check_completed_some in Hdone as (name & Hin & ->).
    eapply completed_file_is_new. exact Hin. }
  apply bind_ok in Hrun as (stalled & s6 & _ & Hrun).
  destruct stalled.
  { inversion Hrun; subst. eexists. split; reflexivity. }
  apply bind_ok in Hrun as ([] & s7 & _ & Hrun).
  eapply IH. exact Hrun.
Qed.

Lemma new_file_loop_shape (fuel : nat) (dir : string) (before : list string)
    (deadline stable stall : Z) :
  forall progress (s s' : wstate W) path,
    new_file_loop fuel dir before deadline stable stall progress s
    = (Ok (Some path), s') ->
    new_complete_file dir before path.
Proof.
  induction fuel as [| fuel IH]; intros progress s s' path Hrun; simpl in Hrun;
    [discriminate |].
  apply bind_ok in Hrun as (t & s1 & _ & Hrun).
  destruct (negb (Z.ltb t deadline)); [discriminate |].
  apply bind_ok in Hrun as (files & s3 & _ & Hrun).
  apply bind_ok in Hrun as (progress' & s4 & _ & Hrun).
  apply bind_ok in Hrun as (done & s5 & Hdone & Hrun).
  destruct done as [latest |].
  { inversion Hrun; subst.
    apply check_completed_some in Hdone as (name & Hin & ->).
    eapply completed_file_is_new. exact Hin. }
  apply bind_ok in Hrun as (stalled & s6 & _ & Hrun).
  destruct stalled; [discriminate |].
  apply bind_ok in Hrun as ([] & s7 & _ & Hrun).
  eapply IH. exact Hrun.
Qed.

End Poll_facts.

(** X21.  What [_wait_for_download_result] returns is either a path and no
    status, or no path and a FAILED status.  The path is a file of the
    download directory that was not there before the download began and
    does not carry the in-progress extension. *)
Theorem download_result_shape `{Platform} `{World W} (fuel : nat)
    (download_handle : option string) (download_dir : string) (before : list string)
    (timeout stable_seconds stall_seconds : Z) (s s' : wstate W)
    (path : option string) (st : option DownloadStatus) :
  _wait_for_download_result fuel download_handle download_dir before timeout
                            stable_seconds stall_seconds s
  = (Ok (path, st), s') ->
  match path with
  | Some p => st = None /\ new_complete_file download_dir before p
  | None => exists status, st = Some status /\ is_failure status = true
  end.
Proof.
  unfold _wait_for_download_result. intros Hrun.
  apply bind_ok in Hrun as (t0 & s1 & _ & Hrun).
  eapply wait_loop_shape. exact Hrun.
Qed.

(** X22.  A path [_wait_for_new_file] returns is a file of the download
    directory that was not there before and does not carry the in-progress
    extension. *)
Theorem new_file_is_new `{Platform} `{World W} (fuel : nat) (download_dir : string)
    (before : list string) (timeout stable_seconds stall_seconds : Z)
    (s s' : wstate W) (path : string) :
  _wait_for_new_file fuel download_dir before timeout stable_seconds stall_seconds s
  = (Ok (Some path), s') ->
  new_complete_file download_dir before path.
Proof.
  unfold _wait_for_new_file. intros Hrun.
  apply bind_ok in Hrun as (t0 & s1 & _ & Hrun).
  eapply new_file_loop_shape. exact Hrun.
Qed.

(** ** Files already stored (downloader.py, lines 218-239) *)

Section Stored_facts.

Context `{Platform} `{World W}.

Lemma quiet_pdf_read_retry (n : nat) (path : string) (delay : Z) :
  emits trace no_browser_call (pdf_read_retry (W := W) n path delay).
Proof.
  induction n as [| n IH]; simpl;
    emit_with ltac:(exact eq_refl) ltac:(exact IH).
Qed.

Lemma quiet_pdf_page_count (path : string) :
  emits trace no_browser_call (pdf_page_count (W := W) path).
Proof.
  unfold pdf_page_count.
  emit_with ltac:(exact eq_refl) ltac:(apply quiet_pdf_read_retry).
Qed.

End Stored_facts.

(** X23.  Without [force], an attachment whose planned file is already in
    the directory of the guarantee is not downloaded again: no call goes to
    the browser, and the row, when one is returned, has the status
    SKIPPED_EXISTS and the path of that file. *)
Theorem existing_file_kept `{Platform} `{World W} (fuel : nat)
    (run_id guarantee_id : Z) (id_dir download_dir : string)
    (timeout stall_seconds index : Z) (item : Attachment) (s : wstate W) :
  fst (handle bool (PathExists (id_dir // planned_name guarantee_id index item))
              (world s)) = Ok true ->
  extends no_browser_call (trace s)
    (trace (snd (download_one fuel run_id guarantee_id id_dir download_dir false
                              timeout stall_seconds index item s)))
  /\ forall row,
       fst (download_one fuel run_id guarantee_id id_dir download_dir false
                         timeout stall_seconds index item s) = Ok row ->
       f_download_status row = SKIPPED_EXISTS
       /\ f_stored_path row = id_dir // planned_name guarantee_id index item
       /\ f_file_index row = index.
Proof.
  intros Hthere.
  remember (download_one fuel run_id guarantee_id id_dir download_dir false
                         timeout stall_seconds index item s) as run eqn:Hrun.
  unfold download_one in Hrun. cbv zeta in Hrun. fold (planned_name guarantee_id index item) in Hrun.
  unfold bind at 1 in Hrun. rewrite perform_run in Hrun. rewrite Hthere in Hrun.
  cbn [andb negb] in Hrun.
  match type of Hrun with
  | run = bind _ _ ?s1 => set (s1' := s1) in Hrun
  end.
  pose proof (quiet_pdf_page_count
                (id_dir // planned_name guarantee_id index item) s1') as Hpages.
  unfold bind at 1 in Hrun.
  destruct (pdf_page_count (id_dir // planned_name guarantee_id index item) s1')
    as [[pages | e |] s2]; simpl in Hpages.
  - unfold bind at 1 in Hrun. unfold sha256_file in Hrun. rewrite perform_run in Hrun.
    destruct (fst (handle string (Sha256File _) (world s2))) as [sha | e |];
      subst run; simpl.
    + split; [| intros row Hrow; injection Hrow as <-; simpl; auto].
      refine (extends_trans _ _ _ _
                (extends_cons _ (Called (PathExists _)) _ eq_refl) _).
      exact (extends_trans _ _ _ _ Hpages
               (extends_cons _ (Called (Sha256File _)) _ eq_refl)).
    + split; [| discriminate].
      refine (extends_trans _ _ _ _
                (extends_cons _ (Called (PathExists _)) _ eq_refl) _).
      exact (extends_trans _ _ _ _ Hpages
               (extends_cons _ (Called (Sha256File _)) _ eq_refl)).
    + split; [| discriminate].
      refine (extends_trans _ _ _ _
                (extends_cons _ (Called (PathExists _)) _ eq_refl) _).
      exact (extends_trans _ _ _ _ Hpages
               (extends_cons _ (Called (Sha256File _)) _ eq_refl)).
  - subst run. simpl. split; [| discriminate].
    exact (extends_trans _ _ _ _
             (extends_cons _ (Called (PathExists _)) _ eq_refl) Hpages).
  - subst run. simpl. split; [| discriminate].
    exact (extends_trans _ _ _ _
             (extends_cons _ (Called (PathExists _)) _ eq_refl) Hpages).
Qed.

(** ** The rows a worker writes and its summary *)

Lemma rows_written_silent {R} (sel : batch -> list R) (earlier later : list event) :
  extends (silent sel) earlier later ->
  rows_written sel later = rows_written sel earlier.
Proof.
  intros (new & -> & Hnew). induction Hnew as [| e new He _ IH]; [reflexivity |].
  simpl. rewrite rows_written_cons, IH. unfold silent in He. rewrite He.
  apply app_nil_r.
Qed.

Lemma silent_fetch {R} (sel : batch -> list R) (e : event) :
  is_fetch_call e = true -> silent sel e.
Proof. destruct e as [A c]. destruct c; simpl; intros; first [reflexivity | discriminate]. Qed.

Ltac quiet := emit_with ltac:(exact eq_refl) fail.

Section Rows_facts.

Context `{Platform} `{World W}.

Local Abbreviation St := (wkstate (W := W)).

Variable fuel : nat.
Variable args : Args.
Variable in_main_thread : bool.
Variable run_id worker_id : Z.

Lemma keeps_recorded {R A} (sel : batch -> list R) (getb : St -> list R)
    (c : SE St A) :
  emits wk_log (silent sel) c -> keeps getb c -> keeps (recorded sel getb) c.
Proof.
  intros Hc Hb s. unfold recorded. rewrite (Hb s).
  rewrite (rows_written_silent sel _ _ (Hc s)). reflexivity.
Qed.

Lemma silent_attempt {R} (sel : batch -> list R) (guarantee_id : Z) :
  emits wk_log (silent sel)
        (attempt (W := W) fuel args in_main_thread run_id worker_id guarantee_id).
Proof.
  apply fetch_attempt; [apply silent_fetch | intros _ n; reflexivity].
Qed.

Lemma silent_politeness_sleep {R} (sel : batch -> list R) (index : Z) (st : Status) :
  emits wk_log (silent sel) (politeness_sleep (W := W) args index st).
Proof. unfold politeness_sleep, human_sleep. quiet. Qed.

Lemma silent_driver_call {R} (sel : batch -> list R) (c : call unit) :
  silent sel (Called c) ->
  emits wk_log (silent sel) (if is_live args then io (perform (W := W) c) else ret tt).
Proof.
  intros Hc. destruct (is_live args); [| apply emits_ret].
  apply emits_io, emits_perform, Hc.
Qed.

Lemma keeps_driver_call {X} (f : St -> X) (c : call unit) :
  (forall v s, f (set_ws v s) = f s) ->
  keeps f (if is_live args then io (perform (W := W) c) else ret tt).
Proof.
  intros Hws. destruct (is_live args); [apply keeps_io; exact Hws | apply keeps_ret].
Qed.

(** Steps of [persist] and of the flushes that leave a batch alone. *)
Ltac keep_batch :=
  repeat first
    [ apply keeps_ret
    | apply keeps_get
    | apply keeps_locals
    | apply keeps_io; intros; reflexivity
    | apply keeps_modify; intros; reflexivity
    | apply keeps_guarantees_add; intros; reflexivity
    | apply keeps_attributes_add; intros; reflexivity
    | apply keeps_files_add; intros; reflexivity
    | apply keeps_writer_flush; intros; reflexivity
    | apply keeps_bind; [| intros ?] ].

Ltac quiet_storage :=
  unfold guarantees_add, attributes_add, files_add, guarantees_flush,
    attributes_flush, files_flush, writer_add, writer_flush,
    utc_now_iso, update_attribute_union, append_processed_id, load_json, save_json;
  quiet.

Ltac keep_recorded :=
  apply keeps_recorded; [quiet_storage | keep_batch].

Lemma persist_guarantee_row (guarantee_id : Z) (s s' : St) :
  persist args run_id worker_id guarantee_id s = (Ok tt, s') ->
  exists row,
    recorded guarantee_rows_of guarantees_batch s'
    = (recorded guarantee_rows_of guarantees_batch s ++ [row])%list
    /\ g_id row = guarantee_id /\ g_run_id row = run_id
    /\ g_status row = l_status (loc s).
Proof.
  unfold persist. intros Hrun.
  apply bind_ok in Hrun as (l & s1 & Hl & Hrun).
  unfold locals in Hl. injection Hl as <- <-.
  apply bind_ok in Hrun as (fetched_at & s2 & Hat & Hrun).
  apply bind_ok in Hrun as ([] & s3 & Hadd & Hrun).
  apply (keeps_run (recorded guarantee_rows_of guarantees_batch)) in Hrun;
    [| keep_recorded].
  apply (keeps_run (recorded guarantee_rows_of guarantees_batch)) in Hat;
    [| keep_recorded].
  unfold guarantees_add in Hadd.
  match type of Hadd with
  | writer_add _ _ _ ?dir ?prefix ?rows _ = _ =>
      pose proof (writer_add_rows guarantees_batch set_guarantees_batch GuaranteeBatch
                    guarantee_rows_of (fun _ _ => eq_refl) (fun _ _ => eq_refl)
                    (fun _ _ => eq_refl) (fun _ => eq_refl) dir prefix rows s2)
        as Hrows
  end.
  rewrite Hadd in Hrows. destruct Hrows as [Hrows _].
  match type of Hrows with
  | _ = (_ ++ _ ++ [?row])%list => exists row
  end.
  split; [| repeat split; reflexivity].
  rewrite Hrun, <- Hat. unfold recorded. rewrite Hrows, app_assoc. reflexivity.
Qed.

Lemma persist_file_rows (guarantee_id : Z) (s s' : St) :
  persist args run_id worker_id guarantee_id s = (Ok tt, s') ->
  recorded file_rows_of files_batch s'
  = (recorded file_rows_of files_batch s ++ l_files_rows (loc s))%list.
Proof.
  unfold persist. intros Hrun.
  apply bind_ok in Hrun as (l & s1 & Hl & Hrun).
  unfold locals in Hl. injection Hl as <- <-.
  apply bind_ok in Hrun as (fetched_at & s2 & Hat & Hrun).
  apply bind_ok in Hrun as ([] & s3 & Hg & Hrun).
  apply bind_ok in Hrun as ([] & s4 & Ha & Hrun).
  apply bind_ok in Hrun as ([] & s5 & Hadd & Hrun).
  apply (keeps_run (recorded file_rows_of files_batch)) in Hrun; [| keep_recorded].
  apply (keeps_run (recorded file_rows_of files_batch)) in Hat; [| keep_recorded].
  apply (keeps_run (recorded file_rows_of files_batch)) in Hg; [| keep_recorded].
  apply (keeps_run (recorded file_rows_of files_batch)) in Ha; [| keep_recorded].
  rewrite Hrun, <- Hat, <- Hg, <- Ha.
  unfold files_add in Hadd.
  match type of Hadd with
  | writer_add _ _ _ ?dir ?prefix ?rows _ = _ =>
      pose proof (writer_add_rows files_batch set_files_batch FileBatch
                    file_rows_of (fun _ _ => eq_refl) (fun _ _ => eq_refl)
                    (fun _ _ => eq_refl) (fun _ => eq_refl) dir prefix rows s4)
        as Hrows
  end.
  rewrite Hadd in Hrows.
  destruct Hrows as [Hrows _]. unfold recorded. rewrite Hrows, app_assoc.
  reflexivity.
Qed.

Lemma files_total_bump (st : Status) (k : Z) (sts : Stats) :
  n_FILES (stats_add_files k (stats_bump st sts)) = n_FILES sts + k.
Proof. destruct st; reflexivity. Qed.

(** A turn of the loop that returns: the ID was skipped and nothing
    changed, or one guarantee row and the file rows of the record were
    recorded and counted. *)
Lemma process_id_rows (index guarantee_id : Z) (s s' : St) :
  process_id fuel args in_main_thread run_id worker_id index guarantee_id s
  = (Ok tt, s') ->
  s' = s
  \/ exists row frows,
       recorded guarantee_rows_of guarantees_batch s'
       = (recorded guarantee_rows_of guarantees_batch s ++ [row])%list
       /\ g_id row = guarantee_id /\ g_run_id row = run_id
       /\ recorded file_rows_of files_batch s'
          = (recorded file_rows_of files_batch s ++ frows)%list
       /\ stats_total (stats s') = stats_total (stats s) + 1
       /\ n_FILES (stats s') = n_FILES (stats s) + Z.of_nat (List.length frows).
Proof.
  unfold process_id. unfold bind at 1. unfold get_state.
  destruct (bool_decide _ && negb _).
  - intros Hrun. inversion Hrun. left. reflexivity.
  - intros Hrun. right.
    apply bind_ok in Hrun as (outcome & s1 & Hattempt & Hrun).
    apply bind_ok in Hrun as ([] & s2 & Hclassify & Hrun).
    apply bind_ok in Hrun as ([] & s3 & Hpersist & Hrun).
    apply bind_ok in Hrun as (l & s4 & Hlocals & Hrun).
    unfold locals in Hlocals. inversion Hlocals; subst; clear Hlocals.
    unfold assign, modify in Hclassify. inversion Hclassify; subst; clear Hclassify.
    destruct (persist_guarantee_row _ _ _ Hpersist) as (row & Hrow & Hid & Hrid & _).
    pose proof (persist_file_rows _ _ _ Hpersist) as Hfiles.
    pose proof (persist_stats _ _ _ _ _ _ Hpersist) as Hst.
    assert (Hkeep : forall X (f : St -> X),
               (forall A (c : SE St A), emits wk_log (silent guarantee_rows_of) c ->
                                        emits wk_log (silent file_rows_of) c ->
                                        keeps guarantees_batch c -> keeps files_batch c ->
                                        keeps stats c -> keeps f c) ->
               (forall v s, f (set_loc v s) = f s) ->
               f s' = f s4
               /\ f (set_loc (classify (loc s1)) s1) = f s).
    { intros X f Hf Hloc. split.
      - eapply keeps_run; [| exact Hrun]. apply Hf.
        + apply silent_politeness_sleep.
        + apply silent_politeness_sleep.
        + apply keeps_politeness_sleep. intros; reflexivity.
        + apply keeps_politeness_sleep. intros; reflexivity.
        + apply keeps_politeness_sleep. intros; reflexivity.
      - rewrite Hloc. eapply keeps_run; [| exact Hattempt]. apply Hf.
        + apply silent_attempt.
        + apply silent_attempt.
        + apply keeps_attempt; intros; reflexivity.
        + apply keeps_attempt; intros; reflexivity.
        + apply keeps_attempt; intros; reflexivity. }
    destruct (Hkeep _ (recorded guarantee_rows_of guarantees_batch)) as [Hg4 Hg1];
      [intros; apply keeps_recorded; assumption | intros; reflexivity |].
    destruct (Hkeep _ (recorded file_rows_of files_batch)) as [Hf4 Hf1];
      [intros; apply keeps_recorded; assumption | intros; reflexivity |].
    destruct (Hkeep _ stats) as [Hs4 Hs1];
      [intros; assumption | intros; reflexivity |].
    exists row, (l_files_rows (classify (loc s1))).
    split; [rewrite Hg4, Hrow, Hg1; reflexivity |].
    split; [exact Hid |]. split; [exact Hrid |].
    split; [rewrite Hf4, Hfiles, Hf1; reflexivity |].
    rewrite Hs4, Hst, stats_total_bump, files_total_bump, Hs1.
    split; reflexivity.
Qed.

Lemma process_loop_rows (ids : list Z) :
  forall (index : Z) (s s' : St),
    process_loop fuel args in_main_thread run_id worker_id index ids s = (Ok tt, s') ->
    exists grows frows,
      recorded guarantee_rows_of guarantees_batch s'
      = (recorded guarantee_rows_of guarantees_batch s ++ grows)%list
      /\ recorded file_rows_of files_batch s'
         = (recorded file_rows_of files_batch s ++ frows)%list
      /\ Z.of_nat (List.length grows) = stats_total (stats s') - stats_total (stats s)
      /\ Z.of_nat (List.length frows) = n_FILES (stats s') - n_FILES (stats s)
      /\ Forall (fun row => In (g_id row) ids /\ g_run_id row = run_id) grows.
Proof.
  induction ids as [| id ids IH]; intros index s s' Hrun; simpl in Hrun.
  - inversion Hrun; subst. exists [], []. rewrite !app_nil_r.
    repeat split; try reflexivity; try (simpl; lia). constructor.
  - apply bind_ok in Hrun as ([] & s1 & Hturn & Hrun).
    destruct (IH _ _ _ Hrun) as (grows & frows & Hg & Hf & Hgn & Hfn & Hall).
    assert (Hrest : Forall (fun row => In (g_id row) (id :: ids) /\ g_run_id row = run_id)
                           grows).
    { eapply Forall_impl; [exact Hall |]. intros row [Hin Hr]. split; [right |]; assumption. }
    destruct (process_id_rows _ _ _ _ Hturn)
      as [-> | (row & frows1 & Hg1 & Hid & Hrid & Hf1 & Hst & Hfs)].
    + exists grows, frows. repeat split; assumption.
    + exists (row :: grows), (frows1 ++ frows)%list.
      split; [rewrite Hg, Hg1, <- app_assoc; reflexivity |].
      split; [rewrite Hf, Hf1, <- app_assoc; reflexivity |].
      split; [simpl List.length; lia |].
      split; [rewrite length_app; lia |].
      constructor; [split; [left; symmetry; exact Hid | exact Hrid] | exact Hrest].
Qed.

Lemma process_ids_rows (ids : list Z) (s s' : St) (st : Stats) :
  _process_ids fuel ids worker_id run_id args in_main_thread s = (Ok st, s') ->
  exists grows frows,
    rows_written guarantee_rows_of (wk_log s')
    = (rows_written guarantee_rows_of (wk_log s) ++ grows)%list
    /\ rows_written file_rows_of (wk_log s')
       = (rows_written file_rows_of (wk_log s) ++ frows)%list
    /\ Z.of_nat (List.length grows) = stats_total st
    /\ Z.of_nat (List.length frows) = n_FILES st
    /\ Forall (fun row => In (g_id row) ids /\ g_run_id row = run_id) grows
    /\ guarantees_batch s' = [] /\ files_batch s' = [].
Proof.
  unfold _process_ids. intros Hrun.
  do 5 (apply bind_ok in Hrun as ([] & ? & Hm & Hrun);
        unfold modify in Hm; inversion Hm; subst; clear Hm).
  apply bind_ok in Hrun as ([] & s1 & Hdelay & Hrun).
  apply bind_ok in Hrun as ([] & s2 & Hbuild & Hrun).
  apply bind_ok in Hrun as ([] & s3 & Hbody & Hrun).
  unfold bind, get_state, ret in Hrun. inversion Hrun; subst; clear Hrun.
  apply finally_ok in Hbody as (s4 & Hbody & Hquit).
  apply bind_ok in Hbody as ([] & s5 & Hloop & Hflush).
  apply bind_ok in Hflush as ([] & s6 & Hgflush & Hflush).
  apply bind_ok in Hflush as ([] & s7 & Haflush & Hfflush).
  destruct (process_loop_rows _ _ _ _ Hloop) as (grows & frows & Hg & Hf & Hgn & Hfn & Hall).
  set (s0 := set_files_batch []
               (set_attributes_batch []
                  (set_guarantees_batch []
                     (set_save_html_count 0 (set_stats stats_zero s))))) in Hdelay.
  assert (Hstart : forall X (f : St -> X),
             (forall A (c : SE St A), emits wk_log (silent guarantee_rows_of) c ->
                                      emits wk_log (silent file_rows_of) c ->
                                      keeps guarantees_batch c -> keeps files_batch c ->
                                      keeps stats c -> keeps f c) ->
             f s2 = f s0 /\ f s' = f s4).
  { intros X f Hkeep. split.
    - transitivity (f s1).
      + eapply keeps_run; [| exact Hbuild].
        apply Hkeep; first [ apply silent_driver_call; reflexivity
                           | apply keeps_driver_call; intros; reflexivity ].
      + eapply keeps_run; [| exact Hdelay].
        apply Hkeep; destruct (Z.ltb _ _);
          first [ apply emits_ret | apply keeps_ret
                | apply emits_io, emits_perform; reflexivity
                | apply keeps_io; intros; reflexivity ].
    - eapply keeps_run; [| exact Hquit].
      apply Hkeep; first [ apply silent_driver_call; reflexivity
                         | apply keeps_driver_call; intros; reflexivity ]. }
  destruct (Hstart _ (recorded guarantee_rows_of guarantees_batch)) as [Hg2 Hg4];
    [intros; apply keeps_recorded; assumption |].
  destruct (Hstart _ (recorded file_rows_of files_batch)) as [Hf2 Hf4];
    [intros; apply keeps_recorded; assumption |].
  destruct (Hstart _ stats) as [Hs2 Hs4]; [intros; assumption |].
  destruct (Hstart _ guarantees_batch) as [_ Hgb4]; [intros; assumption |].
  destruct (Hstart _ files_batch) as [_ Hfb4]; [intros; assumption |].
  (* the three flushes *)
  unfold guarantees_flush in Hgflush.
  match type of Hgflush with
  | writer_flush _ _ _ ?dir ?prefix _ = _ =>
      pose proof (writer_flush_rows guarantees_batch set_guarantees_batch
                    GuaranteeBatch guarantee_rows_of (fun _ _ => eq_refl)
                    (fun _ _ => eq_refl) (fun _ _ => eq_refl) (fun _ => eq_refl)
                    dir prefix s5) as Hgrows
  end.
  rewrite Hgflush in Hgrows.
  destruct Hgrows as (Hgw & Hgb & _).
  unfold files_flush in Hfflush.
  match type of Hfflush with
  | writer_flush _ _ _ ?dir ?prefix _ = _ =>
      pose proof (writer_flush_rows files_batch set_files_batch FileBatch
                    file_rows_of (fun _ _ => eq_refl) (fun _ _ => eq_refl)
                    (fun _ _ => eq_refl) (fun _ => eq_refl) dir prefix s7) as Hfrows
  end.
  rewrite Hfflush in Hfrows.
  destruct Hfrows as (Hfw & Hfb & _).
  fold (guarantees_flush run_id worker_id) in Hgflush.
  fold (files_flush run_id worker_id) in Hfflush.
  assert (Hg64 : recorded guarantee_rows_of guarantees_batch s4
                 = recorded guarantee_rows_of guarantees_batch s6
                 /\ guarantees_batch s4 = guarantees_batch s6).
  { split.
    - transitivity (recorded guarantee_rows_of guarantees_batch s7).
      + eapply keeps_run; [| exact Hfflush]. keep_recorded.
      + eapply keeps_run; [| exact Haflush]. keep_recorded.
    - transitivity (guarantees_batch s7).
      + eapply keeps_run; [| exact Hfflush]. unfold files_flush. keep_batch.
      + eapply keeps_run; [| exact Haflush]. unfold attributes_flush. keep_batch. }
  assert (Hf75 : recorded file_rows_of files_batch s7
                 = recorded file_rows_of files_batch s5).
  { transitivity (recorded file_rows_of files_batch s6).
    - eapply keeps_run; [| exact Haflush]. keep_recorded.
    - eapply keeps_run; [| exact Hgflush]. keep_recorded. }
  assert (Hs45 : stats s4 = stats s5).
  { transitivity (stats s7); [eapply keeps_run; [| exact Hfflush]
                             | transitivity (stats s6);
                               [eapply keeps_run; [| exact Haflush]
                               | eapply keeps_run; [| exact Hgflush]]];
      unfold guarantees_flush, attributes_flush, files_flush; keep_batch. }
  destruct Hg64 as [Hg64 Hgb64].
  exists grows, frows.
  assert (Hgb' : guarantees_batch s' = []) by (rewrite Hgb4, Hgb64; exact Hgb).
  assert (Hfb' : files_batch s' = []) by (rewrite Hfb4; exact Hfb).
  assert (Hs0 : stats s2 = stats_zero) by (rewrite Hs2; reflexivity).
  split.
  { transitivity (recorded guarantee_rows_of guarantees_batch s').
    - unfold recorded. rewrite Hgb', app_nil_r. reflexivity.
    - rewrite Hg4, Hg64. unfold recorded at 1. rewrite Hgw, Hgb, app_nil_r.
      fold (recorded guarantee_rows_of guarantees_batch s5).
      rewrite Hg, Hg2. unfold recorded. subst s0. simpl. rewrite app_nil_r.
      reflexivity. }
  split.
  { transitivity (recorded file_rows_of files_batch s').
    - unfold recorded. rewrite Hfb', app_nil_r. reflexivity.
    - rewrite Hf4. unfold recorded at 1. rewrite Hfw, Hfb, app_nil_r.
      fold (recorded file_rows_of files_batch s7).
      rewrite Hf75, Hf, Hf2. unfold recorded. subst s0. simpl. rewrite app_nil_r.
      reflexivity. }
  rewrite Hs4, Hs45.
  split; [rewrite Hgn, Hs0; change (stats_total stats_zero) with 0; lia |].
  split; [rewrite Hfn, Hs0; change (n_FILES stats_zero) with 0; lia |].
  split; [exact Hall |]. split; assumption.
Qed.

End Rows_facts.

(** X24.  When [_process_ids] returns, every row of its records has been
    handed to [to_parquet] and the summary counts them: the guarantee rows
    written during the call are as many as the records counted under the
    five statuses, each for an ID of the partition and under this run ID;
    the file rows written are as many as the summary's FILES; and no
    guarantee or file row is left waiting in a batch. *)
Theorem summary_counts_rows `{Platform} `{World W} (fuel : nat) (ids : list Z)
    (worker_id run_id : Z) (args : Args) (in_main_thread : bool)
    (s s' : wkstate (W := W)) (st : Stats) :
  _process_ids fuel ids worker_id run_id args in_main_thread s = (Ok st, s') ->
  exists grows frows,
    rows_written guarantee_rows_of (wk_log s')
    = (rows_written guarantee_rows_of (wk_log s) ++ grows)%list
    /\ rows_written file_rows_of (wk_log s')
       = (rows_written file_rows_of (wk_log s) ++ frows)%list
    /\ Z.of_nat (List.length grows) = stats_total st
    /\ Z.of_nat (List.length frows) = n_FILES st
    /\ Forall (fun row => In (g_id row) ids /\ g_run_id row = run_id) grows
    /\ guarantees_batch s' = [] /\ files_batch s' = [].
Proof. apply process_ids_rows. Qed.

(** * Runs in the simulated world *)

Import Sim.
Import Calm.

Lemma retry_state_after_update_witness :
  persist Sim.default_args 1 1 5 Scenario.after_failure
  = (Ok tt, snd (persist Sim.default_args 1 1 5 Scenario.after_failure))
  /\ dict_get "5" (retry_state (snd (persist Sim.default_args 1 1 5 Scenario.after_failure)))
     = Some 1%Z
  /\ dict_get "5" (record_attempts [ERROR; TIMEOUT; PARTIAL] 5 3 []) = None.
Proof.
  assert (Hrun : persist Sim.default_args 1 1 5 Scenario.after_failure
                 = (Ok tt, snd (persist Sim.default_args 1 1 5 Scenario.after_failure)))
    by (vm_compute; reflexivity).
  split; [exact Hrun |].
  destruct (retry_state_after_update Sim.default_args 1 1 5 _ _ Hrun)
    as (_ & Hfail & Hall).
  split.
  - apply Hfail. reflexivity.
  - apply (Hall [ERROR; TIMEOUT; PARTIAL] []).
    + repeat constructor.
    + reflexivity.
    + simpl. lia.
Defined.

Lemma load_processed_ids_spec_witness :
  exists ids : gset Z,
    fst (load_processed_ids Scenario.log_path (mk_wstate Scenario.with_log [])) = Ok ids
    /\ forall n, n ∈ ids <-> parses_to (py_splitlines Scenario.log_text) n.
Proof.
  refine (proj1 (proj2 (load_processed_ids_spec Scenario.log_path
                          (mk_wstate Scenario.with_log []) true Scenario.with_log _))
                eq_refl Scenario.log_text Scenario.with_log _);
    vm_compute; reflexivity.
Defined.

Example load_processed_ids_run :
  fst (load_processed_ids Scenario.log_path (mk_wstate Scenario.with_log []))
  = Ok ({[ 12%Z; 7%Z ]} : gset Z).
Proof. vm_compute. reflexivity. Qed.

(** A log whose bytes are not UTF-8: [read_text] raises and
    [load_processed_ids] does not return a set. *)
Lemma load_processed_ids_not_total :
  fst (load_processed_ids Scenario.log_path (mk_wstate Scenario.with_broken_log []))
  = Raise (mk_exn ValueError "UnicodeDecodeError: 'utf-8' codec can't decode byte").
Proof. vm_compute. reflexivity. Qed.

Lemma classify_by_file_rows_witness :
  l_status (classify (Scenario.mixed_locals OK)) = PARTIAL
  /\ l_status (classify (Scenario.mixed_locals TIMEOUT)) = TIMEOUT
  /\ l_warnings (classify (Scenario.mixed_locals OK)) = ["Attachment failures: 1/2"].
Proof.
  assert (Hrows : forall st, l_files_rows (Scenario.mixed_locals st) <> [])
    by (intros st; discriminate).
  assert (Hsome : forall st, failed_rows (l_files_rows (Scenario.mixed_locals st)) <> [])
    by (intros st; discriminate).
  assert (Hnot_all : forall st,
             List.length (failed_rows (l_files_rows (Scenario.mixed_locals st)))
             <> List.length (l_files_rows (Scenario.mixed_locals st)))
    by (intros st; discriminate).
  split; [| split].
  - exact (proj2 (proj2 (proj2 (classify_by_file_rows _ (Hrows OK))))
                 (Hsome OK) (Hnot_all OK)).
  - exact (proj2 (proj2 (proj2 (classify_by_file_rows _ (Hrows TIMEOUT))))
                 (Hsome TIMEOUT) (Hnot_all TIMEOUT)).
  - exact (proj1 (proj2 (classify_by_file_rows _ (Hrows OK))) (Hsome OK)).
Defined.

(** The deadline alarm ends the guarded block of record 9 after its only
    file row was produced, and that row failed: the row of the record says
    ERROR, with the message and the warning of the timeout. *)
Lemma file_rule_overrides_timeout :
  List.map Scenario.verdict
    (Scenario.guarantee_rows
       (Scenario.final_world
          (main 10 (Scenario.live_args "9") (initial_wkstate Scenario.gone_world))))
  = [(9%Z, ERROR, "Timeout after 30s",
      ["Per-ID processing timed out"; "Attachment failures: 1/1"])]
  /\ List.map f_download_status
       (Scenario.file_rows
          (Scenario.final_world
             (main 10 (Scenario.live_args "9") (initial_wkstate Scenario.gone_world))))
     = [FAILED_NOT_FOUND].
Proof. vm_compute. split; reflexivity. Qed.

Lemma calm_is_steady : steady (W := Z) Calm.clock.
Proof.
  split.
  - intros A c w. eexists _, _. reflexivity.
  - intros A c w. unfold Calm.clock. destruct c; simpl; lia.
  - intros w t w' Hread. unfold Calm.clock. inversion Hread. subst. simpl. lia.
  - intros d w. unfold Calm.clock. simpl. lia.
Qed.

(** In a world without faults the two attachments give two rows.  With a
    browser that cannot open a window, the exception of the first turn
    leaves [download_attachments]. *)
Lemma download_attachments_rows_witness :
  (exists rows s',
      download_attachments (W := Z) 61 Scenario.two_attachments 1 9
        Scenario.attachments_root Scenario.download_dir false 60 120 (mk_wstate 0%Z [])
      = (Ok rows, s')
      /\ List.length rows = 2%nat)
  /\ exists s',
       download_attachments 10 Scenario.two_attachments 1 9
         Scenario.attachments_root Scenario.download_dir false 60 120
         (mk_wstate Scenario.stuck_browser [])
       = (Raise (mk_exn WebDriverException "unknown error: cannot open window"), s').
Proof.
  split.
  - destruct (download_attachments_rows (W := Z) 61 Scenario.two_attachments 1 9
                Scenario.attachments_root Scenario.download_dir false 60 120)
      as (Hrows & Hreturns & _).
    assert (Hfuel : (Z.max 0 60 < Z.of_nat 61)%Z) by (vm_compute; reflexivity).
    destruct (Hreturns Calm.clock calm_is_steady Hfuel (mk_wstate 0%Z []))
      as (rows & s' & Hrun).
    exists rows, s'. split; [exact Hrun |].
    exact (proj1 (Hrows _ _ _ Hrun)).
  - destruct (download_attachments_rows (W := Sim.t) 10 Scenario.two_attachments 1 9
                Scenario.attachments_root Scenario.download_dir false 60 120)
      as (_ & _ & Hturn & Hopen).
    eexists.
    eapply (Hturn [] Scenario.first_attachment
                  (List.tl Scenario.two_attachments)).
    + reflexivity.
    + vm_compute. reflexivity.
    + reflexivity.
    + eapply Hopen.
      * vm_compute. reflexivity.
      * reflexivity.
      * vm_compute. reflexivity.
      * vm_compute. reflexivity.
      * vm_compute. reflexivity.
      * vm_compute. reflexivity.
Defined.

(** The first download arrives empty and is recorded as FAILED_MISSING; the
    second attachment is then downloaded. *)
Example download_two_run :
  List.map (fun row => (f_file_index row, f_download_status row, f_stored_filename row))
           (match fst (Scenario.download_two (Scenario.browsing Scenario.arrivals)) with
            | Ok rows => rows
            | _ => []
            end)
  = [(1%Z, FAILED_MISSING, EmptyString); (2%Z, DOWNLOADED, "9_2.pdf")].
Proof. vm_compute. reflexivity. Qed.

(** The browser cannot open a window for the first attachment: the
    exception leaves [download_attachments], which returns no row for
    either attachment. *)
Lemma download_attachments_raises :
  fst (Scenario.download_two Scenario.stuck_browser)
  = Raise (mk_exn WebDriverException "unknown error: cannot open window").
Proof. vm_compute. reflexivity. Qed.

(** The first download of record 9 arrives empty: its row is
    FAILED_MISSING, and the row of the second attachment follows it. *)
Lemma stored_file_missing_row_witness :
  exists row later s',
    download_attachments 10 Scenario.two_attachments 1 9 Scenario.attachments_root
      Scenario.download_dir false 60 120
      (mk_wstate (Scenario.browsing Scenario.arrivals) [])
    = (Ok (row :: later), s')
    /\ f_download_status row = FAILED_MISSING
    /\ f_stored_path row = EmptyString
    /\ f_file_index row = 1
    /\ List.length later = 1%nat.
Proof.
  edestruct (stored_file_missing_row 10 1 9 1 Scenario.id_dir Scenario.download_dir
               false 60 120 Scenario.first_attachment
               (snd (perform (MkdirParents Scenario.id_dir)
                       (mk_wstate (Scenario.browsing Scenario.arrivals) []))))
    as (row & Hone & Hfor & Hstatus & _ & Hpath & _ & _ & _ & _ & Hall).
  - vm_compute. reflexivity.
  - reflexivity.
  - vm_compute. reflexivity.
  - vm_compute. reflexivity.
  - vm_compute. reflexivity.
  - vm_compute. reflexivity.
  - vm_compute. reflexivity.
  - right. eexists. split; vm_compute; reflexivity.
  - match type of Hone with
    | _ = (_, ?s7) =>
        assert (Hrest : exists later s',
                   download_loop 10 1 9 Scenario.id_dir Scenario.download_dir false
                                 60 120 (1 + 1) (List.tl Scenario.two_attachments) s7
                   = (Ok later, s') /\ List.length later = 1%nat)
    end.
    { eexists. eexists. split; [vm_compute; reflexivity | reflexivity]. }
    destruct Hrest as (later & s' & Hrest & Hlen).
    exists row, later, s'.
    split; [| split; [exact Hstatus |]; split; [exact Hpath |];
              split; [exact (proj1 (proj2 (proj2 Hfor))) | exact Hlen]].
    apply (Hall Scenario.attachments_root [] (List.tl Scenario.two_attachments)
                (mk_wstate (Scenario.browsing Scenario.arrivals) [])
                (snd (perform (MkdirParents Scenario.id_dir)
                        (mk_wstate (Scenario.browsing Scenario.arrivals) [])))
                s' [] later).
    + vm_compute. reflexivity.
    + reflexivity.
    + vm_compute. reflexivity.
    + reflexivity.
    + exact Hrest.
Defined.

(** A turn of the poll in which the only new file has been still for three
    seconds; a turn in which the page of the download shows that the file
    is gone; and the choice between a file modified at 500 and one
    modified now. *)
Lemma download_poll_rules_witness :
  wait_loop 10 None Scenario.download_dir [] 63000 3000 120000
            Scenario.seen_at_3000 Scenario.fourth_turn
  = (Ok (Some (Scenario.download_dir // "a.pdf"), None),
     snd (wait_loop 10 None Scenario.download_dir [] 63000 3000 120000
                    Scenario.seen_at_3000 Scenario.fourth_turn))
  /\ fst (wait_loop 10 (Some "tab1") Scenario.download_dir [] 63000 3000 120000 ∅
                    Scenario.error_shown)
     = Ok (None, Some FAILED_NOT_FOUND)
  /\ most_recent ["a.pdf"; "b.tmp"] [500; 6000] "b.tmp".
Proof.
  split; [| split].
  - destruct (download_poll_rules 9 None Scenario.download_dir [] 63000 3000 120000
                Scenario.seen_at_3000 Scenario.fourth_turn) as (_ & Hturn & _).
    edestruct Hturn as [Hdone _].
    + vm_compute. reflexivity.
    + vm_compute. reflexivity.
    + vm_compute. reflexivity.
    + vm_compute. reflexivity.
    + vm_compute. reflexivity.
    + etransitivity.
      * eapply Hdone.
        -- vm_compute. reflexivity.
        -- vm_compute. reflexivity.
        -- vm_compute. reflexivity.
        -- vm_compute. reflexivity.
        -- vm_compute. discriminate.
      * vm_compute. reflexivity.
  - destruct (download_poll_rules 9 (Some "tab1") Scenario.download_dir [] 63000 3000
                120000 ∅ Scenario.error_shown) as (_ & _ & Herror & _).
    edestruct Herror as [Hfail _].
    + vm_compute. reflexivity.
    + vm_compute. reflexivity.
    + vm_compute. reflexivity.
    + vm_compute. reflexivity.
    + vm_compute. reflexivity.
    + rewrite Hfail. reflexivity.
  - destruct (download_poll_rules 9 None Scenario.download_dir [] 63000 3000 120000
                Scenario.seen_at_3000 Scenario.fourth_turn)
      as (_ & _ & _ & _ & Hrecent & _).
    edestruct (Hrecent ["a.pdf"; "b.tmp"] Scenario.restless_turn)
      as (mtimes & Hstat & _ & Hmost).
    + vm_compute. reflexivity.
    + assert (Hread : mtimes = [500; 6000]).
      { assert (Hrun : fst (map_m (fun n => perform (StatMtime (Scenario.download_dir // n)))
                                  ["a.pdf"; "b.tmp"] Scenario.restless_turn)
                       = Ok [500; 6000]) by (vm_compute; reflexivity).
        rewrite Hstat in Hrun. injection Hrun as <-. reflexivity. }
      rewrite <- Hread. exact Hmost.
Defined.

(** The three outcomes of the protocol on a directory with one new file or
    none. *)
Example poll_success :
  fst (Scenario.wait_in Scenario.one_file 60)
  = Ok (Some (Scenario.download_dir // "a.pdf"), None)
  /\ Sim.clock (world (snd (Scenario.wait_in Scenario.one_file 60))) = 6000%Z.
Proof. vm_compute. split; reflexivity. Qed.

Example poll_stalled :
  fst (Scenario.wait_in Scenario.stuck_file 180) = Ok (None, Some FAILED_STALLED)
  /\ Sim.clock (world (snd (Scenario.wait_in Scenario.stuck_file 180))) = 123000%Z
  /\ Sim.removed (world (snd (Scenario.wait_in Scenario.stuck_file 180)))
     = ["a.pdf.crdownload"].
Proof. vm_compute. repeat split; reflexivity. Qed.

Example poll_timeout :
  fst (Scenario.wait_in Sim.no_incoming 10) = Ok (None, Some FAILED_TIMEOUT)
  /\ Sim.clock (world (snd (Scenario.wait_in Sim.no_incoming 10))) = 13000%Z.
Proof. vm_compute. split; reflexivity. Qed.

(** A complete file whose size is the same at every poll for ten seconds is
    not returned, because another new file without the in-progress
    extension is more recently modified and keeps changing: the attempt
    ends with FAILED_TIMEOUT. *)
Lemma still_file_not_returned :
  Scenario.sizes_of_a = List.repeat (Some 7%Z) 10
  /\ fst (Scenario.wait_in Scenario.restless 10) = Ok (None, Some FAILED_TIMEOUT).
Proof. vm_compute. split; reflexivity. Qed.


(** Record 4 does not exist: the attempt ends in MISSING, and the browser
    was sent to the primary page only. *)
Lemma missing_primary_page_witness :
  is_missing_page
    (l_general_html
       (loc (snd (attempt 10 (Scenario.live_args "4") true 1 1 4
                          (Scenario.start (Scenario.lost_site no_fault)))))) = true
  /\ l_status
       (classify
          (loc (snd (attempt 10 (Scenario.live_args "4") true 1 1 4
                             (Scenario.start (Scenario.lost_site no_fault))))))
     = MISSING
  /\ extends (no_secondary_fetch 4)
             (wk_log (Scenario.start (Scenario.lost_site no_fault)))
             (wk_log (snd (attempt 10 (Scenario.live_args "4") true 1 1 4
                                   (Scenario.start (Scenario.lost_site no_fault))))).
Proof.
  assert (Hmiss : is_missing_page
                    (l_general_html
                       (loc (snd (attempt 10 (Scenario.live_args "4") true 1 1 4
                                    (Scenario.start (Scenario.lost_site no_fault))))))
                  = true) by (vm_compute; reflexivity).
  split; [exact Hmiss |].
  destruct (missing_primary_page 10 (Scenario.live_args "4") true 1 1 4
              (Scenario.start (Scenario.lost_site no_fault)) Hmiss)
    as (_ & _ & Hext & Hstatus).
  assert (Hrun : fst (attempt 10 (Scenario.live_args "4") true 1 1 4
                              (Scenario.start (Scenario.lost_site no_fault)))
                 = Ok (Ok tt)) by (vm_compute; reflexivity).
  rewrite Hrun in Hstatus.
  split; assumption.
Defined.

Example missing_page_run :
  fst (Scenario.lost_attempt no_fault) = Ok (Ok tt)
  /\ Scenario.visited (wk_log (snd (Scenario.lost_attempt no_fault)))
     = [GENERAL_INFO_URL 4].
Proof. vm_compute. split; reflexivity. Qed.

(** The same record on a full disk: the page is found missing, saving its
    snapshot raises, and the row of the record says ERROR. *)
Lemma missing_page_recorded_as_error :
  is_missing_page
    (l_general_html (loc (snd (Scenario.lost_attempt Scenario.full_disk)))) = true
  /\ l_status (classify (loc (snd (Scenario.lost_attempt Scenario.full_disk)))) = ERROR
  /\ List.map Scenario.verdict
       (Scenario.guarantee_rows
          (Scenario.final_world
             (main 10 (Scenario.live_args "4")
                   (initial_wkstate (Scenario.lost_site Scenario.full_disk)))))
     = [(4%Z, ERROR, "[Errno 28] No space left on device", [])].
Proof. vm_compute. repeat split; reflexivity. Qed.


(** Offline on a full disk: saving the snapshot of record 7 raises inside
    the guarded block, the exception is caught and the record is classified
    ERROR with the text of the exception. *)
Lemma guarded_exceptions_classified_witness :
  fst (attempt 10 (Scenario.offline_args "7,8") true 1 1 7
               (Scenario.start (Scenario.archive_site Scenario.full_disk)))
  = Ok (Raise (mk_exn OSError "[Errno 28] No space left on device"))
  /\ classified (Scenario.offline_args "7,8")
                (mk_exn OSError "[Errno 28] No space left on device")
                (loc (snd (attempt 10 (Scenario.offline_args "7,8") true 1 1 7
                                   (Scenario.start
                                      (Scenario.archive_site Scenario.full_disk))))).
Proof.
  assert (Hrun : fst (attempt 10 (Scenario.offline_args "7,8") true 1 1 7
                              (Scenario.start (Scenario.archive_site Scenario.full_disk)))
                 = Ok (Raise (mk_exn OSError "[Errno 28] No space left on device")))
    by (vm_compute; reflexivity).
  split; [exact Hrun |].
  exact (proj1 (guarded_exceptions_classified 10 (Scenario.offline_args "7,8") true
                  1 1 1 7 [8%Z] (Scenario.start (Scenario.archive_site Scenario.full_disk)))
               _ Hrun).
Defined.

Example full_disk_run :
  let r := main 10 (Scenario.offline_args "7,8")
                (initial_wkstate (Scenario.archive_site Scenario.full_disk)) in
  List.map Scenario.verdict (Scenario.guarantee_rows (Scenario.final_world r))
  = [(7%Z, ERROR, "[Errno 28] No space left on device",
      ["Missing offline document-info HTML"]);
     (8%Z, ERROR, "[Errno 28] No space left on device",
      ["Missing offline document-info HTML"])].
Proof. vm_compute. reflexivity. Qed.

(** The processed-ID log cannot be appended to: persisting record 7 raises,
    outside every [try].  The exception leaves [_process_ids] and [main];
    record 8 is never looked at and the row of record 7, still in its
    batch, is never written. *)
Lemma persist_failure_ends_worker :
  let r := main 10 (Scenario.offline_args "7,8")
                (initial_wkstate (Scenario.archive_site Scenario.locked_log)) in
  fst r = Raise (mk_exn OSError "[Errno 13] Permission denied")
  /\ Scenario.guarantee_rows (Scenario.final_world r) = []
  /\ Scenario.looked_for (wk_log (snd r))
     = ["data/samples/generalInformation_7.html"; "data/samples/document-info_7.html"]
  /\ List.map g_id (guarantees_batch (snd r)) = [7%Z].
Proof. vm_compute. repeat split; reflexivity. Qed.


(** The second run over records 7 and 8: both are in the processed log,
    and the run ends with the processed set and the retry map it began
    with. *)
Lemma rerun_processes_nothing_witness :
  force (Scenario.offline_args "7,8") = false
  /\ (forall id, In id [7%Z; 8%Z] -> id ∈ ({[ 7%Z; 8%Z ]} : gset Z))
  /\ processed_ids (snd (main_with 10 (Scenario.offline_args "7,8") [7%Z; 8%Z]
                                   Scenario.resumed))
     = {[ 7%Z; 8%Z ]}
  /\ retry_state (snd (main_with 10 (Scenario.offline_args "7,8") [7%Z; 8%Z]
                                 Scenario.resumed))
     = retry_state Scenario.resumed.
Proof.
  assert (Hin : forall id, In id [7%Z; 8%Z] -> id ∈ ({[ 7%Z; 8%Z ]} : gset Z)).
  { intros id [<- | [<- | []]]; set_solver. }
  split; [reflexivity |]. split; [exact Hin |].
  destruct (rerun_processes_nothing 10 (Scenario.offline_args "7,8") [7%Z; 8%Z]
              Scenario.resumed 2 {[ 7%Z; 8%Z ]})
    as (Hprocessed & Hretry & _); try (vm_compute; reflexivity).
  - exact Hin.
  - split; [exact Hprocessed | exact Hretry].
Defined.

(** The second run emits no row and leaves the processed log and the retry
    map as they were, but the run counter goes from 1 to 2. *)
Lemma rerun_moves_run_counter :
  fst Scenario.first_run
  = Ok {| n_OK := 2; n_MISSING := 0; n_ERROR := 0; n_PARTIAL := 0; n_TIMEOUT := 0;
          n_FILES := 2 |}
  /\ Scenario.retry_map Scenario.after_first = Some []
  /\ fst Scenario.second_run = Ok stats_zero
  /\ Scenario.guarantee_rows (Scenario.final_world Scenario.second_run)
     = Scenario.guarantee_rows Scenario.after_first
  /\ Scenario.processed_log (Scenario.final_world Scenario.second_run)
     = Scenario.processed_log Scenario.after_first
  /\ Scenario.run_counter Scenario.after_first = Some 1%Z
  /\ Scenario.run_counter (Scenario.final_world Scenario.second_run) = Some 2%Z.
Proof. vm_compute. repeat split; reflexivity. Qed.


(** Record 7, in the retry map with one attempt and in the processed log:
    its turn of the next run's loop returns at once. *)
Lemma retry_ids_first_then_skipped_witness :
  7%Z ∈ processed_ids Scenario.reloaded
  /\ process_id 10 (Scenario.offline_args "9") true 2 1 1 7 Scenario.reloaded
     = (Ok tt, Scenario.reloaded).
Proof.
  assert (Hin : 7%Z ∈ processed_ids Scenario.reloaded)
    by (apply (bool_decide_unpack _); vm_compute; exact I).
  split; [exact Hin |].
  exact (proj2 (proj2 (retry_ids_first_then_skipped 10 (Scenario.offline_args "9") true
                         2 1 1 7 [] [] Scenario.reloaded Scenario.reloaded
                         Scenario.reloaded))
               eq_refl Hin).
Defined.

(** Records 7 and 8 failed in the first run and have one attempt each in
    the retry map.  They open the worklist of the next run, [7; 8; 9], but
    that run looks at record 9 only: it adds the row of record 9 and no row
    for 7 or 8, whose attempts stay at one. *)
Lemma retry_ids_not_processed_again :
  Scenario.retry_map Scenario.after_failing = Some [("7", 1%Z); ("8", 1%Z)]
  /\ fst Scenario.retry_worklist = Ok [7%Z; 8%Z; 9%Z]
  /\ List.map g_id (Scenario.guarantee_rows Scenario.after_failing) = [7%Z; 8%Z]
  /\ List.map g_id (Scenario.guarantee_rows (Scenario.final_world Scenario.retry_run))
     = [7%Z; 8%Z; 9%Z]
  /\ Scenario.looked_for (wk_log (snd Scenario.retry_run))
     = ["data/samples/generalInformation_9.html"; "data/samples/document-info_9.html"]
  /\ Scenario.retry_map (Scenario.final_world Scenario.retry_run)
     = Some [("7", 1%Z); ("8", 1%Z); ("9", 1%Z)].
Proof. vm_compute. repeat split; reflexivity. Qed.

(** ** Instances of the further properties *)

(** Seven IDs over three workers. *)
Lemma worker_slices_partition_witness :
  Permutation
    (concat (List.map (fun i => stride i (Z.to_nat 3) [10; 11; 12; 13; 14; 15; 16])
                      (seq 0 (Z.to_nat 3))))
    [10; 11; 12; 13; 14; 15; 16].
Proof. apply (worker_slices_partition 3). lia. Defined.

(** The attempt on record 7, both of whose pages are kept, is classified
    OK. *)
Lemma classified_ok_is_clean_witness :
  l_status (loc (snd (attempt 10 (Scenario.offline_args "7,8") true 1 1 7
                              (Scenario.start Scenario.archived_site)))) = OK
  /\ is_empty
       (l_error_message
          (loc (snd (attempt 10 (Scenario.offline_args "7,8") true 1 1 7
                             (Scenario.start Scenario.archived_site))))) = true
  /\ failed_rows
       (l_files_rows
          (loc (snd (attempt 10 (Scenario.offline_args "7,8") true 1 1 7
                             (Scenario.start Scenario.archived_site))))) = [].
Proof. apply classified_ok_is_clean. vm_compute. reflexivity. Defined.

Lemma retry_update_is_local_witness :
  dict_get (str_int 8) (update_retry_state ERROR 7 3 [("7", 1); ("8", 2)])
  = dict_get (str_int 8) [("7", 1); ("8", 2)].
Proof. apply retry_update_is_local. discriminate. Defined.

(** Five seconds before the deadline, with a default of 30 seconds. *)
Lemma remaining_seconds_bounds_witness :
  exists now,
    perform TimeMonotonic (mk_wstate Sim.blank [])
    = (Ok now, snd (_remaining_seconds (Some 5000) 30 (mk_wstate Sim.blank [])))
    /\ (5000 <= now -> 5 = 0)
    /\ (now < 5000 -> 1 <= 5 <= Z.max 1 30 /\ (1000 * 5 <= 5000 - now \/ 5 = 1)).
Proof.
  apply (remaining_seconds_bounds (Some 5000) 30 (mk_wstate Sim.blank []) _ 5).
  vm_compute. reflexivity.
Defined.

(** [--ids "7, 8,,9"] with the retry IDs 8 and 4. *)
Lemma parse_ids_merges_retries_witness :
  fst (parse_ids (Scenario.offline_args "7, 8,,9") [8; 4] tt) = Ok [8; 4; 7; 9]
  /\ forall i, In i [8; 4; 7; 9] <-> In i [8; 4] \/ In i [7; 8; 9].
Proof.
  assert (Hrun : parse_ids (Scenario.offline_args "7, 8,,9") [8; 4] tt
                 = (Ok [8; 4; 7; 9], tt)) by (vm_compute; reflexivity).
  split; [rewrite Hrun; reflexivity |].
  destruct (parse_ids_merges_retries _ _ _ _ _ Hrun)
    as (requested & Hreq & _ & Hmem & _).
  assert (Hasked : requested = [7; 8; 9]).
  { assert (Hall : parse_ids (Scenario.offline_args "7, 8,,9") [] tt
                   = (Ok [7; 8; 9], tt)) by (vm_compute; reflexivity).
    rewrite Hall in Hreq. injection Hreq as <-. reflexivity. }
  subst requested. intros i. rewrite (Hmem i). split.
  - intros [[_ Hi] | Hi]; [left | right]; exact Hi.
  - intros [Hi | Hi]; [left; split; [reflexivity | exact Hi] | right; exact Hi].
Defined.

Lemma parse_ids_rejects_bad_item_witness :
  exists e, parse_ids (Scenario.offline_args "7,x") [] tt = (Raise e, tt)
            /\ exn_cls e = ValueError.
Proof.
  apply (parse_ids_rejects_bad_item (Scenario.offline_args "7,x") [] "7,x" "x").
  - reflexivity.
  - vm_compute. reflexivity.
  - vm_compute. right. left. reflexivity.
  - vm_compute. reflexivity.
  - vm_compute. reflexivity.
Defined.

(** After the first run the counter is 1: the next run is run 2. *)
Lemma next_run_id_counts_witness :
  exists state now,
    fst (load_json KRunState run_state_path empty_run_state
                   (mk_wstate Scenario.after_first [])) = Ok state
    /\ 2 = default 0 (last_run_id state) + 1
    /\ (fst (perform (PathExists run_state_path) (mk_wstate Scenario.after_first []))
        = Ok false -> 2 = 1)
    /\ head (trace (snd (next_run_id run_state_path
                           (mk_wstate Scenario.after_first []))))
       = Some (Called (JsonDump KRunState run_state_path
                         {| last_run_id := Some 2; rs_updated_at := Some now |})).
Proof.
  apply (next_run_id_counts run_state_path (mk_wstate Scenario.after_first []) _ 2).
  vm_compute. reflexivity.
Defined.

(** Two rows, one without a section, into a union not yet on disk: the
    name of the first is listed, the second adds nothing. *)
Lemma attribute_union_grows_witness :
  exists saved,
    head (trace (snd (update_attribute_union attribute_union_path Scenario.union_rows
                        (mk_wstate Sim.blank []))))
    = Some (Called (JsonDump KUnion attribute_union_path saved))
    /\ "name" ∈ default ∅ (saved !! "bank")
    /\ ~ "inn" ∈ default ∅ (saved !! EmptyString).
Proof.
  destruct (attribute_union_grows attribute_union_path Scenario.union_rows
              (mk_wstate Sim.blank [])
              (snd (update_attribute_union attribute_union_path Scenario.union_rows
                      (mk_wstate Sim.blank []))))
    as (existing & saved & Hload & Hsaved & Hmem).
  - vm_compute. reflexivity.
  - assert (Hnone : existing = ∅).
    { assert (Hrun : fst (load_json KUnion attribute_union_path
                            (∅ : gmap string (gset string)) (mk_wstate Sim.blank []))
                     = Ok ∅) by (vm_compute; reflexivity).
      rewrite Hrun in Hload. injection Hload as <-. reflexivity. }
    subst existing. exists saved. split; [exact Hsaved |]. split.
    + apply Hmem. right. exists (Scenario.attribute_row "bank" "name" "B").
      split; [left; reflexivity |]. repeat split; vm_compute; reflexivity.
    + intros Hin. apply Hmem in Hin as [Hin | (row & _ & _ & _ & Hsection & _)].
      * exact (not_elem_of_empty (C := gset string) "inn" Hin).
      * vm_compute in Hsection. discriminate.
Defined.

(** The worker of the first run over records 7 and 8. *)
Lemma partition_ends_processed_witness :
  processed_ids (snd (_process_ids 10 [7; 8] 1 1 (Scenario.offline_args "7,8") true
                                   (Scenario.start Scenario.archived_site)))
  = processed_ids (Scenario.start Scenario.archived_site) ∪ list_to_set [7; 8].
Proof.
  apply (partition_ends_processed 10 [7; 8] 1 1 (Scenario.offline_args "7,8") true
           (Scenario.start Scenario.archived_site) _
           {| n_OK := 2; n_MISSING := 0; n_ERROR := 0; n_PARTIAL := 0; n_TIMEOUT := 0;
              n_FILES := 2 |}).
  vm_compute. reflexivity.
Defined.

Lemma summary_counts_new_ids_witness :
  stats_total {| n_OK := 2; n_MISSING := 0; n_ERROR := 0; n_PARTIAL := 0;
                 n_TIMEOUT := 0; n_FILES := 2 |}
  = Z.of_nat (size (processed_ids
                      (snd (_process_ids 10 [7; 8] 1 1 (Scenario.offline_args "7,8")
                                         true (Scenario.start Scenario.archived_site)))))
    - Z.of_nat (size (processed_ids (Scenario.start Scenario.archived_site))).
Proof.
  apply (summary_counts_new_ids 10 [7; 8] 1 1 (Scenario.offline_args "7,8") true
           (Scenario.start Scenario.archived_site)).
  - reflexivity.
  - vm_compute. reflexivity.
Defined.

(** Two workers over records 7 and 8. *)
Lemma pool_never_arms_alarm_witness :
  extends no_alarm_call
    (wk_log (Scenario.start Scenario.archived_site))
    (wk_log (snd (main 10 Scenario.pool_args (Scenario.start Scenario.archived_site)))).
Proof.
  exact (pool_never_arms_alarm 10 Scenario.pool_args eq_refl
           (Scenario.start Scenario.archived_site)).
Defined.

Lemma offline_never_browses_witness :
  extends no_browser_call
    (wk_log (Scenario.start Scenario.archived_site))
    (wk_log (snd (main 10 (Scenario.offline_args "7,8")
                       (Scenario.start Scenario.archived_site)))).
Proof.
  exact (offline_never_browses 10 (Scenario.offline_args "7,8") eq_refl
           (Scenario.start Scenario.archived_site)).
Defined.

(** The live worker on record 4, which does not exist: its last call quits
    the driver. *)
Lemma worker_quits_driver_witness :
  head (wk_log (snd (_process_ids 10 [4] 1 1 (Scenario.live_args "4") true
                                  (Scenario.start (Scenario.lost_site no_fault)))))
  = Some (Called DriverQuit).
Proof.
  assert (Hrun : fst (_process_ids 10 [4] 1 1 (Scenario.live_args "4") true
                                   (Scenario.start (Scenario.lost_site no_fault)))
                 = Ok {| n_OK := 0; n_MISSING := 1; n_ERROR := 0; n_PARTIAL := 0;
                         n_TIMEOUT := 0; n_FILES := 0 |})
    by (vm_compute; reflexivity).
  destruct (worker_quits_driver 10 [4] 1 1 (Scenario.live_args "4") true
              (Scenario.start (Scenario.lost_site no_fault)))
    as [Hquit | (e & c & Hraise & _)].
  - reflexivity.
  - rewrite Hrun. discriminate.
  - exact Hquit.
  - rewrite Hrun in Hraise. discriminate.
Defined.

(** [--ids " , "]: nothing is asked for. *)
Lemma empty_worklist_ends_run_witness :
  main 10 Scenario.blank_args (Scenario.start Scenario.archived_site)
  = (Ok stats_zero,
     snd (worklist Scenario.blank_args (Scenario.start Scenario.archived_site)))
  /\ extends worklist_call
       (wk_log (Scenario.start Scenario.archived_site))
       (wk_log (snd (main 10 Scenario.blank_args
                          (Scenario.start Scenario.archived_site)))).
Proof.
  apply (empty_worklist_ends_run 10 Scenario.blank_args
           (Scenario.start Scenario.archived_site)).
  vm_compute. reflexivity.
Defined.

(** The file that is in the directory half a second after the download
    began. *)
Lemma download_result_shape_witness :
  new_complete_file Scenario.download_dir [] (Scenario.download_dir // "a.pdf").
Proof.
  refine (proj2 (download_result_shape 200 None Scenario.download_dir [] 60 3 120
                   (Scenario.opened Scenario.one_file)
                   (snd (_wait_for_download_result 200 None Scenario.download_dir []
                           60 3 120 (Scenario.opened Scenario.one_file)))
                   (Some (Scenario.download_dir // "a.pdf")) None _)).
  vm_compute. reflexivity.
Defined.

Lemma new_file_is_new_witness :
  fst (_wait_for_new_file 200 Scenario.download_dir [] 60 3 30
                          (Scenario.opened Scenario.one_file))
  = Ok (Some (Scenario.download_dir // "a.pdf"))
  /\ new_complete_file Scenario.download_dir [] (Scenario.download_dir // "a.pdf").
Proof.
  split; [vm_compute; reflexivity |].
  refine (new_file_is_new 200 Scenario.download_dir [] 60 3 30
            (Scenario.opened Scenario.one_file)
            (snd (_wait_for_new_file 200 Scenario.download_dir [] 60 3 30
                    (Scenario.opened Scenario.one_file)))
            (Scenario.download_dir // "a.pdf") _).
  vm_compute. reflexivity.
Defined.

(** The first attachment of record 9 is already stored as [9_1.pdf]. *)
Lemma existing_file_kept_witness :
  extends no_browser_call (trace Scenario.stored_site)
    (trace (snd (download_one 10 1 9 Scenario.id_dir Scenario.download_dir false
                              300 120 1 Scenario.first_attachment
                              Scenario.stored_site)))
  /\ forall row,
       fst (download_one 10 1 9 Scenario.id_dir Scenario.download_dir false
                         300 120 1 Scenario.first_attachment Scenario.stored_site)
       = Ok row ->
       f_download_status row = SKIPPED_EXISTS
       /\ f_stored_path row
          = Scenario.id_dir // planned_name 9 1 Scenario.first_attachment
       /\ f_file_index row = 1.
Proof.
  apply (existing_file_kept 10 1 9 Scenario.id_dir Scenario.download_dir 300 120 1
           Scenario.first_attachment Scenario.stored_site).
  vm_compute. reflexivity.
Defined.

(** The worker of the first run: two guarantee rows and two file rows, as
    its summary says. *)
Lemma summary_counts_rows_witness :
  exists grows frows,
    rows_written guarantee_rows_of
      (wk_log (snd (_process_ids 10 [7; 8] 1 1 (Scenario.offline_args "7,8") true
                                 (Scenario.start Scenario.archived_site))))
    = (rows_written guarantee_rows_of (wk_log (Scenario.start Scenario.archived_site))
       ++ grows)%list
    /\ rows_written file_rows_of
         (wk_log (snd (_process_ids 10 [7; 8] 1 1 (Scenario.offline_args "7,8") true
                                    (Scenario.start Scenario.archived_site))))
       = (rows_written file_rows_of (wk_log (Scenario.start Scenario.archived_site))
          ++ frows)%list
    /\ List.length grows = 2%nat
    /\ List.length frows = 2%nat.
Proof.
  destruct (summary_counts_rows 10 [7; 8] 1 1 (Scenario.offline_args "7,8") true
              (Scenario.start Scenario.archived_site)
              (snd (_process_ids 10 [7; 8] 1 1 (Scenario.offline_args "7,8") true
                                 (Scenario.start Scenario.archived_site)))
              {| n_OK := 2; n_MISSING := 0; n_ERROR := 0; n_PARTIAL := 0;
                 n_TIMEOUT := 0; n_FILES := 2 |})
    as (grows & frows & Hg & Hf & Hgn & Hfn & _).
  - vm_compute. reflexivity.
  - exists grows, frows. split; [exact Hg |]. split; [exact Hf |].
    change (Z.of_nat (List.length grows) = 2) in Hgn.
    change (Z.of_nat (List.length frows) = 2) in Hfn.
    split; lia.
Defined.
